(** * AWRCompare: report extraction and comparison engine

    A shallow embedding of the value normaliser ([BaseReportParser._normalize_value]),
    the markup table extractor ([_parse_html_table]) and the comparison engine
    ([ComparisonEngine]) of the AWRCompare repository, with the properties of
    the specification stated and settled against the embedding.  The two
    report parsers ([AWRParser], [PgProfileParser]) with their markup and
    plain-text paths, the choice of a parser by the front ends, the CSV
    report and the value printer of [ReportGenerator], and the configuration
    loader ([ConfigLoader]) are embedded as well; regular expressions, date
    parsing and the markup parser are taken as parameters ([Library]).

    Python values are modelled as they occur in the code: unbounded integers
    as [Z], floats as IEEE 754 binary64 through the Standard Library's
    [spec_float] (precision 53, exponent bound 1024), strings as [string] whose
    characters stand for the code points below 256, dictionaries that are
    read in insertion order as association lists, the other dictionaries and
    the sets as [gmap] and [gset].  Exceptions are explicit: a computation that
    can raise returns a [res]. *)

From Stdlib Require Import ZArith Bool Ascii String List Lia.
From Stdlib Require Import Floats.SpecFloat.
From Stdlib Require DecimalString DecimalN DecimalPos.
From stdpp Require Import base option list strings gmap sets.

Local Open Scope Z_scope.

(** ** Exceptions and the result monad *)

Inductive exn : Type :=
  | ValueError
  | TypeError
  | OverflowError
  | IndexError
  | AttributeError.

Inductive res (A : Type) : Type :=
  | Ok (a : A)
  | Raise (e : exn).
Arguments Ok {A} a.
Arguments Raise {A} e.

#[global] Instance res_ret : MRet res := fun _ a => Ok a.
#[global] Instance res_bind : MBind res := fun _ _ k m =>
  match m with
  | Ok a => k a
  | Raise e => Raise e
  end.

Definition is_ok {A : Type} (m : res A) : bool :=
  match m with Ok _ => true | Raise _ => false end.

(** ** Python strings *)

Module PyStr.

Definition code (c : ascii) : N := N_of_ascii c.

(** [str.isspace] on the code points below 256. *)
Definition isspace (c : ascii) : bool :=
  let n := code c in
  (((9 <=? n) && (n <=? 13)) || ((28 <=? n) && (n <=? 32))
   || (n =? 133) || (n =? 160))%N.

(** The whitespace [int()] and [float()] skip: the C locale's, and the
    non-ASCII spaces, which they first turn into blanks. *)
Definition isspace_num (c : ascii) : bool :=
  let n := code c in
  (((9 <=? n) && (n <=? 13)) || (n =? 32) || (n =? 133) || (n =? 160))%N.

Definition isdigit (c : ascii) : bool :=
  let n := code c in ((48 <=? n) && (n <=? 57))%N.

Definition digit_value (c : ascii) : Z := Z.of_N (code c) - 48.

Definition is_empty (s : string) : bool :=
  match s with EmptyString => true | String _ _ => false end.

Fixpoint lstrip (s : string) : string :=
  match s with
  | EmptyString => EmptyString
  | String c s' => if isspace c then lstrip s' else s
  end.

Fixpoint rstrip (s : string) : string :=
  match s with
  | EmptyString => EmptyString
  | String c s' =>
      let r := rstrip s' in
      if isspace c && is_empty r then EmptyString else String c r
  end.

(** [s.strip()] *)
Definition strip (s : string) : string := rstrip (lstrip s).

(** [s.replace(c, '')] for a one-character [c] *)
Fixpoint remove_char (c : ascii) (s : string) : string :=
  match s with
  | EmptyString => EmptyString
  | String d s' =>
      if Ascii.eqb d c then remove_char c s' else String d (remove_char c s')
  end.

(** [c in s] for a one-character [c] *)
Fixpoint contains (c : ascii) (s : string) : bool :=
  match s with
  | EmptyString => false
  | String d s' => Ascii.eqb d c || contains c s'
  end.

(** [s.endswith(c)] for a one-character [c] *)
Fixpoint endswith (c : ascii) (s : string) : bool :=
  match s with
  | EmptyString => false
  | String d EmptyString => Ascii.eqb d c
  | String _ s' => endswith c s'
  end.

(** [s[:-1]] *)
Fixpoint drop_last (s : string) : string :=
  match s with
  | EmptyString => EmptyString
  | String _ EmptyString => EmptyString
  | String d s' => String d (drop_last s')
  end.

(** [sub in s] *)
Fixpoint is_prefix (p s : string) : bool :=
  match p, s with
  | EmptyString, _ => true
  | String a p', String b s' => Ascii.eqb a b && is_prefix p' s'
  | String _ _, EmptyString => false
  end.

Fixpoint is_substring (sub s : string) : bool :=
  is_prefix sub s ||
  match s with
  | EmptyString => false
  | String _ s' => is_substring sub s'
  end.

(** ASCII lower-casing, as the number parsers compare [inf] and [nan]. *)
Definition lower_char (c : ascii) : ascii :=
  let n := code c in
  if ((65 <=? n) && (n <=? 90))%N then ascii_of_N (n + 32) else c.

Fixpoint lower (s : string) : string :=
  match s with
  | EmptyString => EmptyString
  | String c s' => String (lower_char c) (lower s')
  end.

End PyStr.

(** ** Python floats: IEEE 754 binary64 *)

Module PyFloat.

Definition prec : Z := 53.
Definition emax : Z := 1024.

Definition add : spec_float -> spec_float -> spec_float := SFadd prec emax.
Definition sub : spec_float -> spec_float -> spec_float := SFsub prec emax.
Definition mul : spec_float -> spec_float -> spec_float := SFmul prec emax.
Definition div : spec_float -> spec_float -> spec_float := SFdiv prec emax.
Definition abs : spec_float -> spec_float := SFabs.

Definition is_nan (f : spec_float) : bool :=
  match f with S754_nan => true | _ => false end.

Definition is_infinite (f : spec_float) : bool :=
  match f with S754_infinity _ => true | _ => false end.

(** The float nearest to the integer [n] (ties to even). *)
Definition of_Z (n : Z) : spec_float := binary_normalize prec emax n 0 false.

(** [float(n)] for an [int]: the nearest float, [OverflowError] when it
    is out of range. *)
Definition of_int (n : Z) : res spec_float :=
  let f := of_Z n in
  if is_infinite f then Raise OverflowError else Ok f.

(** [a / b] for two [int]s with [b] not zero: the correctly rounded
    quotient, [OverflowError] when it is out of range. *)
Definition int_truediv (a b : Z) : res spec_float :=
  match a, b with
  | Z0, _ => Ok (S754_zero (b <? 0))
  | _, Z0 => Ok S754_nan
  | _, _ =>
      let f := div (S754_finite (a <? 0) (Z.to_pos (Z.abs a)) 0)
                   (S754_finite (b <? 0) (Z.to_pos (Z.abs b)) 0) in
      if is_infinite f then Raise OverflowError else Ok f
  end.

(** Comparison of a float with an [int], exact as Python's is; [None]
    when the float is not a number. *)
Definition cmp_int (f : spec_float) (n : Z) : option comparison :=
  match f with
  | S754_nan => None
  | S754_infinity s => Some (if s then Lt else Gt)
  | S754_zero _ => Some (0 ?= n)
  | S754_finite s m e =>
      let v := cond_Zopp s (Zpos m) in
      Some (if 0 <=? e then (v * 2 ^ e ?= n) else (v ?= n * 2 ^ (- e)))
  end.

(** [f >= n] *)
Definition ge_int (f : spec_float) (n : Z) : bool :=
  match cmp_int f n with
  | Some (Gt | Eq) => true
  | _ => false
  end.

(** [n > f] *)
Definition int_gt (n : Z) (f : spec_float) : bool :=
  match cmp_int f n with
  | Some Lt => true
  | _ => false
  end.

(** [f != n] *)
Definition ne_int (f : spec_float) (n : Z) : bool :=
  match cmp_int f n with
  | Some Eq => false
  | _ => true
  end.

(** The float nearest to [(-1)^neg * m * 10^e], as a decimal literal
    denotes it. *)
Definition of_decimal (neg : bool) (m : Z) (e : Z) : spec_float :=
  match m with
  | Zpos p =>
      if 0 <=? e
      then binary_normalize prec emax (cond_Zopp neg (m * 10 ^ e)) 0 false
      else div (S754_finite neg p 0)
               (S754_finite false (Z.to_pos (10 ^ (- e))) 0)
  | _ => S754_zero neg
  end.

End PyFloat.

(** ** The builtins [int(str)] and [float(str)]

    Both read the whole string: blanks around the number, one optional
    sign, decimal digits with single underscores between digits; [float]
    reads a fraction and an exponent as well, and the words [inf],
    [infinity] and [nan] in any case.  Each is a scanner with registers,
    stepped over the characters; a string that is not a number is a
    [ValueError]. *)

Module PyNum.
Import PyStr.

Inductive iphase := IStart | ISign | IDigits | IUnder | ITrail | IDead.

Record istate := { i_phase : iphase; i_neg : bool; i_acc : Z }.

Definition istep (st : istate) (c : ascii) : istate :=
  let dead := {| i_phase := IDead; i_neg := i_neg st; i_acc := i_acc st |} in
  let goto p := {| i_phase := p; i_neg := i_neg st; i_acc := i_acc st |} in
  let digit := {| i_phase := IDigits; i_neg := i_neg st;
                  i_acc := 10 * i_acc st + digit_value c |} in
  match i_phase st with
  | IStart =>
      if isspace_num c then st
      else if Ascii.eqb c "+" then goto ISign
      else if Ascii.eqb c "-"
           then {| i_phase := ISign; i_neg := true; i_acc := i_acc st |}
      else if isdigit c then digit
      else dead
  | ISign => if isdigit c then digit else dead
  | IDigits =>
      if isdigit c then digit
      else if Ascii.eqb c "_" then goto IUnder
      else if isspace_num c then goto ITrail
      else dead
  | IUnder => if isdigit c then digit else dead
  | ITrail => if isspace_num c then st else dead
  | IDead => st
  end.

Fixpoint irun (st : istate) (s : string) : istate :=
  match s with
  | EmptyString => st
  | String c s' => irun (istep st c) s'
  end.

Definition istart : istate := {| i_phase := IStart; i_neg := false; i_acc := 0 |}.

(** [int(s)] *)
Definition int_of_string (s : string) : res Z :=
  let st := irun istart s in
  match i_phase st with
  | IDigits | ITrail => Ok (if i_neg st then - i_acc st else i_acc st)
  | _ => Raise ValueError
  end.

Inductive fphase :=
  | FStart | FSign | FInt | FIntU | FDot0 | FFrac0 | FFrac | FFracU
  | FExp0 | FExpSign | FExp | FExpU | FTrail | FDead.

Record fstate := {
  f_phase : fphase;
  f_neg : bool;      (* sign of the number *)
  f_mant : Z;        (* the digits read, as an integer *)
  f_frac : Z;        (* how many of them follow the point *)
  f_eneg : bool;     (* sign of the exponent *)
  f_exp : Z          (* the exponent's digits *)
}.

Definition fgoto (st : fstate) (p : fphase) : fstate :=
  {| f_phase := p; f_neg := f_neg st; f_mant := f_mant st;
     f_frac := f_frac st; f_eneg := f_eneg st; f_exp := f_exp st |}.

Definition fint_digit (st : fstate) (c : ascii) : fstate :=
  {| f_phase := FInt; f_neg := f_neg st;
     f_mant := 10 * f_mant st + digit_value c;
     f_frac := f_frac st; f_eneg := f_eneg st; f_exp := f_exp st |}.

Definition ffrac_digit (st : fstate) (c : ascii) : fstate :=
  {| f_phase := FFrac; f_neg := f_neg st;
     f_mant := 10 * f_mant st + digit_value c;
     f_frac := f_frac st + 1; f_eneg := f_eneg st; f_exp := f_exp st |}.

Definition fexp_digit (st : fstate) (c : ascii) : fstate :=
  {| f_phase := FExp; f_neg := f_neg st; f_mant := f_mant st;
     f_frac := f_frac st; f_eneg := f_eneg st;
     f_exp := 10 * f_exp st + digit_value c |}.

Definition is_e (c : ascii) : bool := Ascii.eqb c "e" || Ascii.eqb c "E".

Definition fstep (st : fstate) (c : ascii) : fstate :=
  let dead := fgoto st FDead in
  match f_phase st with
  | FStart =>
      if isspace_num c then st
      else if Ascii.eqb c "+" then fgoto st FSign
      else if Ascii.eqb c "-"
           then {| f_phase := FSign; f_neg := true; f_mant := f_mant st;
                   f_frac := f_frac st; f_eneg := f_eneg st; f_exp := f_exp st |}
      else if isdigit c then fint_digit st c
      else if Ascii.eqb c "." then fgoto st FDot0
      else dead
  | FSign =>
      if isdigit c then fint_digit st c
      else if Ascii.eqb c "." then fgoto st FDot0
      else dead
  | FInt =>
      if isdigit c then fint_digit st c
      else if Ascii.eqb c "_" then fgoto st FIntU
      else if Ascii.eqb c "." then fgoto st FFrac0
      else if is_e c then fgoto st FExp0
      else if isspace_num c then fgoto st FTrail
      else dead
  | FIntU => if isdigit c then fint_digit st c else dead
  | FDot0 => if isdigit c then ffrac_digit st c else dead
  | FFrac0 =>
      if isdigit c then ffrac_digit st c
      else if is_e c then fgoto st FExp0
      else if isspace_num c then fgoto st FTrail
      else dead
  | FFrac =>
      if isdigit c then ffrac_digit st c
      else if Ascii.eqb c "_" then fgoto st FFracU
      else if is_e c then fgoto st FExp0
      else if isspace_num c then fgoto st FTrail
      else dead
  | FFracU => if isdigit c then ffrac_digit st c else dead
  | FExp0 =>
      if Ascii.eqb c "+" then fgoto st FExpSign
      else if Ascii.eqb c "-"
           then {| f_phase := FExpSign; f_neg := f_neg st; f_mant := f_mant st;
                   f_frac := f_frac st; f_eneg := true; f_exp := f_exp st |}
      else if isdigit c then fexp_digit st c
      else dead
  | FExpSign => if isdigit c then fexp_digit st c else dead
  | FExp =>
      if isdigit c then fexp_digit st c
      else if Ascii.eqb c "_" then fgoto st FExpU
      else if isspace_num c then fgoto st FTrail
      else dead
  | FExpU => if isdigit c then fexp_digit st c else dead
  | FTrail => if isspace_num c then st else dead
  | FDead => st
  end.

Fixpoint frun (st : fstate) (s : string) : fstate :=
  match s with
  | EmptyString => st
  | String c s' => frun (fstep st c) s'
  end.

Definition fstart : fstate :=
  {| f_phase := FStart; f_neg := false; f_mant := 0; f_frac := 0;
     f_eneg := false; f_exp := 0 |}.

Definition faccepts (p : fphase) : bool :=
  match p with
  | FInt | FFrac0 | FFrac | FExp | FTrail => true
  | _ => false
  end.

Fixpoint lstrip_num (s : string) : string :=
  match s with
  | EmptyString => EmptyString
  | String c s' => if isspace_num c then lstrip_num s' else s
  end.

Fixpoint rstrip_num (s : string) : string :=
  match s with
  | EmptyString => EmptyString
  | String c s' =>
      let r := rstrip_num s' in
      if isspace_num c && is_empty r then EmptyString else String c r
  end.

(** The words [float] reads besides decimal literals. *)
Definition special (s : string) : option spec_float :=
  let t := rstrip_num (lstrip_num s) in
  let '(neg, body) :=
    match t with
    | String c t' =>
        if Ascii.eqb c "-" then (true, t')
        else if Ascii.eqb c "+" then (false, t')
        else (false, t)
    | EmptyString => (false, t)
    end in
  let w := lower body in
  if (String.eqb w "inf" || String.eqb w "infinity")%string
  then Some (S754_infinity neg)
  else if String.eqb w "nan" then Some S754_nan
  else None.

(** [float(s)] *)
Definition float_of_string (s : string) : res spec_float :=
  match special s with
  | Some f => Ok f
  | None =>
      let st := frun fstart s in
      if faccepts (f_phase st)
      then Ok (PyFloat.of_decimal (f_neg st) (f_mant st)
                 ((if f_eneg st then - f_exp st else f_exp st) - f_frac st))
      else Raise ValueError
  end.

End PyNum.

(** ** Python values held by table cells *)

Inductive PyVal : Type :=
  | VNone
  | VInt (n : Z)
  | VFloat (f : spec_float)
  | VStr (s : string).

Definition is_none (v : PyVal) : bool :=
  match v with VNone => true | _ => false end.

(** [try: body / except ValueError: handler]; any other exception goes on. *)
Definition except_ValueError {A : Type} (body handler : res A) : res A :=
  match body with
  | Raise ValueError => handler
  | _ => body
  end.

(** [f * n] for a float and an [int]. *)
Definition float_mul_int (f : spec_float) (n : Z) : res spec_float :=
  m ← PyFloat.of_int n; mret (PyFloat.mul f m).

(** ** parsers/base_parser.py *)

Module BaseReportParser.
Import PyStr PyNum.

Definition multipliers : list (ascii * Z) :=
  [("K"%char, 1024); ("M"%char, 1024 ^ 2); ("G"%char, 1024 ^ 3);
   ("T"%char, 1024 ^ 4)].

(** The loop over the unit suffixes, and the final [return value]. *)
Fixpoint suffix_loop (ms : list (ascii * Z)) (value value_clean : string)
  : res PyVal :=
  match ms with
  | [] => Ok (VStr value)
  | (suffix, multiplier) :: ms' =>
      if endswith suffix value_clean
      then except_ValueError
             (f ← float_of_string (drop_last value_clean);
              r ← float_mul_int f multiplier;
              mret (VFloat r))
             (suffix_loop ms' value value_clean)
      else suffix_loop ms' value value_clean
  end.

Definition _normalize_value (value : string) : res PyVal :=
  if is_empty value || is_empty (strip value) then Ok VNone
  else
    let value := strip value in
    let value_clean := remove_char "," value in
    except_ValueError
      (if contains "." value_clean
       then f ← float_of_string value_clean; mret (VFloat f)
       else n ← int_of_string value_clean; mret (VInt n))
      (let rest := suffix_loop multipliers value value_clean in
       if endswith "%" value
       then except_ValueError
              (f ← float_of_string (remove_char "," (drop_last value));
               mret (VFloat f))
              rest
       else rest).

End BaseReportParser.

(** ** Dictionaries read in insertion order

    A row of a table is a [dict] from column name to value; the row key is
    its first value in insertion order, so a row is an association list
    with one entry per key.  Storing under a key that is present keeps the
    key's place. *)

Module Dict.

Definition t : Type := list (string * PyVal).

Fixpoint set (k : string) (v : PyVal) (d : t) : t :=
  match d with
  | [] => [(k, v)]
  | (k', v') :: d' =>
      if String.eqb k' k then (k', v) :: d' else (k', v') :: set k v d'
  end.

Fixpoint lookup (k : string) (d : t) : option PyVal :=
  match d with
  | [] => None
  | (k', v') :: d' => if String.eqb k' k then Some v' else lookup k d'
  end.

(** [d.get(k)]: [None] when the key is absent. *)
Definition get (k : string) (d : t) : PyVal := default VNone (lookup k d).

(** [k in d] *)
Definition mem (k : string) (d : t) : bool :=
  match lookup k d with Some _ => true | None => false end.

Definition keys (d : t) : list string := map fst d.
Definition values (d : t) : list PyVal := map snd d.

(** Truth value of a [dict]: false when empty. *)
Definition truthy (d : t) : bool :=
  match d with [] => false | _ :: _ => true end.

End Dict.

(** ** The records of parsers/base_parser.py *)

Record ReportMetadata : Type := {
  report_type : string;
  version : string;
  database_name : string;
  instance_name : string;
  start_time : option Z;
  end_time : option Z;
  duration_minutes : option spec_float
}.

Record TableData : Type := {
  name : string;
  headers : list string;
  rows : list Dict.t;
  metadata : Dict.t
}.

(** [TableData.__len__], and the truth value Python derives from it. *)
Definition TableData_len (t : TableData) : nat := length (rows t).
Definition TableData_is_empty (t : TableData) : bool := Nat.eqb (length (rows t)) 0.
Definition TableData_truthy (t : TableData) : bool := negb (Nat.eqb (TableData_len t) 0).

(** What the comparison engine reads of a [BaseReportParser]: its metadata
    ([None] until a parse has set it) and its tables. *)
Record Parser : Type := {
  parser_metadata : option ReportMetadata;
  tables : gmap string TableData
}.

Definition get_available_tables (p : Parser) : list string :=
  elements (dom (tables p)).

Definition get_table (p : Parser) (table_name : string) : option TableData :=
  tables p !! table_name.

(** ** The markup table of [_parse_html_table]

    The document tree is read through three queries only: the [tr]
    elements below the table, the [th] and [td] elements below a [tr],
    and the text of a cell, all in document order.  A table node is
    modelled by what those queries return. *)

Inductive CellTag : Type := TH | TD.

Record Cell : Type := { cell_tag : CellTag; cell_text : string }.

Definition TrNode : Type := list Cell.
Definition TableNode : Type := list TrNode.

Definition is_td (c : Cell) : bool :=
  match cell_tag c with TD => true | TH => false end.

Module HtmlParser.
Import BaseReportParser.

(** [tr.find_all('td')] *)
Definition find_all_td (tr : TrNode) : list Cell := List.filter is_td tr.

(** The loop [for i, cell in enumerate(cells)] filling [row_data]. *)
Fixpoint cells_loop (headers : list string) (cells : list Cell)
    (row_data : Dict.t) : res Dict.t :=
  match cells, headers with
  | [], _ => Ok row_data
  | cell :: cells', header :: headers' =>
      let value := PyStr.strip (cell_text cell) in
      v ← _normalize_value value;
      cells_loop headers' cells' (Dict.set header v row_data)
  | _ :: _, [] => Raise IndexError
  end.

(** The loop over the data rows. *)
Fixpoint data_rows_loop (headers : list string) (trs : list TrNode)
    (rows : list Dict.t) : res (list Dict.t) :=
  match trs with
  | [] => Ok rows
  | tr :: trs' =>
      let cells := find_all_td tr in
      if negb (Nat.eqb (length cells) 0)
         && Nat.eqb (length cells) (length headers)
      then row_data ← cells_loop headers cells [];
           data_rows_loop headers trs' (rows ++ [row_data])
      else data_rows_loop headers trs' rows
  end.

Definition _parse_html_table (table : TableNode) (table_name : string)
  : res TableData :=
  let headers :=
    match table with
    | header_row :: _ => map (fun th => PyStr.strip (cell_text th)) header_row
    | [] => []
    end in
  rows ← data_rows_loop headers (tail table) [];
  mret {| name := table_name; headers := headers; rows := rows; metadata := [] |}.

End HtmlParser.

(** ** utils/config_loader.py

    The configuration files are not part of the sources; what the engine
    reads of them is a parameter: the thresholds by comparison mode, the
    ignored columns and the table descriptions. *)

Record Thresholds : Type := {
  warning_percent : option Z;
  critical_percent : option Z
}.

Record Config : Type := {
  cfg_thresholds : gmap string Thresholds;
  cfg_ignored_columns : option (list string);
  cfg_table_descriptions : gmap string string
}.

Module ConfigLoader.

Definition get_thresholds (cfg : Config) (comparison_type : string) : Thresholds :=
  default {| warning_percent := None; critical_percent := None |}
          (cfg_thresholds cfg !! comparison_type).

Definition get_table_description (cfg : Config) (table_name : string) : string :=
  default table_name (cfg_table_descriptions cfg !! table_name).

End ConfigLoader.

(** ** comparison/comparison_engine.py *)

Inductive ComparisonType : Type :=
  | ORACLE_ORACLE
  | POSTGRES_POSTGRES
  | CROSS_PLATFORM.

Record ComparisonResult : Type := {
  metric_name : string;
  base_value : PyVal;
  target_value : PyVal;
  absolute_change : option spec_float;
  percent_change : option spec_float;
  is_warning : bool;
  is_critical : bool
}.

Record TableComparison : Type := {
  table_name : string;
  table_description : string;
  base_table : TableData;
  target_table : TableData;
  comparisons : list ComparisonResult
}.

Definition get_critical_count (tc : TableComparison) : nat :=
  length (List.filter is_critical (comparisons tc)).

Definition get_warning_count (tc : TableComparison) : nat :=
  length (List.filter (fun c => is_warning c && negb (is_critical c)) (comparisons tc)).

Record Summary : Type := {
  total_tables : nat;
  total_comparisons : nat;
  critical_count : nat;
  warning_count : nat;
  has_issues : bool
}.

(** The dictionary [compare_reports] returns. *)
Record ReportComparison : Type := {
  rc_comparison_type : ComparisonType;
  rc_base_metadata : ReportMetadata;
  rc_target_metadata : ReportMetadata;
  rc_table_comparisons : list TableComparison;
  rc_thresholds : Thresholds;
  rc_summary : Summary
}.

(** [float(v)] *)
Definition py_float (v : PyVal) : res spec_float :=
  match v with
  | VNone => Raise TypeError
  | VInt n => PyFloat.of_int n
  | VFloat f => Ok f
  | VStr s => PyNum.float_of_string s
  end.

(** [a + b] *)
Definition py_add (a b : PyVal) : res PyVal :=
  match a, b with
  | VInt x, VInt y => Ok (VInt (x + y))
  | VInt x, VFloat g => f ← PyFloat.of_int x; mret (VFloat (PyFloat.add f g))
  | VFloat f, VInt y => g ← PyFloat.of_int y; mret (VFloat (PyFloat.add f g))
  | VFloat f, VFloat g => Ok (VFloat (PyFloat.add f g))
  | VStr s, VStr t => Ok (VStr (s +:+ t))
  | _, _ => Raise TypeError
  end.

(** [sum(vs)], which starts from the [int] 0. *)
Fixpoint sum_from (acc : PyVal) (vs : list PyVal) : res PyVal :=
  match vs with
  | [] => Ok acc
  | v :: vs' => acc' ← py_add acc v; sum_from acc' vs'
  end.

Definition py_sum (vs : list PyVal) : res PyVal := sum_from (VInt 0) vs.

(** [v / n] for the length [n] of a list that is not empty. *)
Definition py_truediv_len (v : PyVal) (n : nat) : res PyVal :=
  match v with
  | VInt a => f ← PyFloat.int_truediv a (Z.of_nat n); mret (VFloat f)
  | VFloat f => g ← PyFloat.of_int (Z.of_nat n); mret (VFloat (PyFloat.div f g))
  | _ => Raise TypeError
  end.

(** [str(n)] for an [int]. *)
Definition str_of_int (n : Z) : string :=
  DecimalString.NilZero.string_of_int (Z.to_int n).

Section ComparisonEngine.

(** [repr] of a float, the builtin that [str] applies to one: a parameter
    of the embedding; the engine only compares the strings it returns. *)
Variable float_repr : spec_float -> string.

(** The loaded configuration ([self.config]). *)
Variable cfg : Config.

(** [str(v)] *)
Definition py_str (v : PyVal) : string :=
  match v with
  | VNone => "None"
  | VInt n => str_of_int n
  | VFloat f => float_repr f
  | VStr s => s
  end.

Definition _determine_comparison_type (base_type target_type : string)
  : ComparisonType :=
  if String.eqb base_type target_type
  then if PyStr.is_substring "oracle" base_type
       then ORACLE_ORACLE
       else POSTGRES_POSTGRES
  else CROSS_PLATFORM.

Definition _get_thresholds (comparison_type : ComparisonType) : Thresholds :=
  match comparison_type with
  | CROSS_PLATFORM => ConfigLoader.get_thresholds cfg "cross_platform"
  | _ => ConfigLoader.get_thresholds cfg "same_platform"
  end.

Definition _get_common_tables (base_parser target_parser : Parser)
  : list string :=
  let base_tables : gset string := list_to_set (get_available_tables base_parser) in
  let target_tables : gset string := list_to_set (get_available_tables target_parser) in
  elements (base_tables ∩ target_tables).

(** The outcome for a pair that is not a pair of numbers. *)
Definition not_quantifiable (metric_name : string) (base_value target_value : PyVal)
  : ComparisonResult :=
  {| metric_name := metric_name;
     base_value := base_value;
     target_value := target_value;
     absolute_change := None;
     percent_change := None;
     is_warning := false;
     is_critical := false |}.

Definition _compare_values (metric_name : string)
    (base_value target_value : PyVal) (thresholds : Thresholds)
  : res ComparisonResult :=
  match (base_num ← py_float base_value;
         target_num ← py_float target_value;
         mret (base_num, target_num)) with
  | Raise ValueError | Raise TypeError =>
      Ok (not_quantifiable metric_name base_value target_value)
  | Raise e => Raise e
  | Ok (base_num, target_num) =>
      let absolute_change := PyFloat.sub target_num base_num in
      let percent_change :=
        if PyFloat.ne_int base_num 0
        then Some (PyFloat.mul
                     (PyFloat.div absolute_change (PyFloat.abs base_num))
                     (PyFloat.of_Z 100))
        else None in
      let '(is_warning, is_critical) :=
        match percent_change with
        | Some p =>
            let abs_percent := PyFloat.abs p in
            let warning_threshold := default 15 (warning_percent thresholds) in
            let critical_threshold := default 30 (critical_percent thresholds) in
            if PyFloat.ge_int abs_percent critical_threshold then (false, true)
            else if PyFloat.ge_int abs_percent warning_threshold then (true, false)
            else (false, false)
        | None => (false, false)
        end in
      Ok {| metric_name := metric_name;
            base_value := base_value;
            target_value := target_value;
            absolute_change := Some absolute_change;
            percent_change := percent_change;
            is_warning := is_warning;
            is_critical := is_critical |}
  end.

Definition _get_row_key (row : Dict.t) : string :=
  let first_value :=
    match Dict.values row with
    | v :: _ => v
    | [] => VStr ""
    end in
  py_str first_value.

Definition text_columns : list string :=
  ["Metric"; "Event"; "SQL ID"; "Query ID"; "Name"; "Description"]%string.

Definition _is_numeric_column (column_name : string) : bool :=
  let ignored := default [] (cfg_ignored_columns cfg) in
  if bool_decide (column_name ∈ ignored) then false
  else negb (bool_decide (column_name ∈ text_columns)).

(** [{self._get_row_key(row): row for row in rows}] *)
Definition row_index (rows : list Dict.t) : gmap string Dict.t :=
  foldl (fun index row => <[_get_row_key row := row]> index) ∅ rows.

(** The loop over [base_table.headers] for one pair of rows. *)
Fixpoint headers_loop (hs : list string) (base_row target_row : Dict.t)
    (thresholds : Thresholds) (comparisons : list ComparisonResult)
  : res (list ComparisonResult) :=
  match hs with
  | [] => Ok comparisons
  | header :: hs' =>
      if Dict.mem header target_row && _is_numeric_column header
      then
        let base_value := Dict.get header base_row in
        let target_value := Dict.get header target_row in
        if negb (is_none base_value) && negb (is_none target_value)
        then
          comparison ← _compare_values header base_value target_value thresholds;
          headers_loop hs' base_row target_row thresholds (comparisons ++ [comparison])
        else headers_loop hs' base_row target_row thresholds comparisons
      else headers_loop hs' base_row target_row thresholds comparisons
  end.

(** The loop over [base_table.rows]. *)
Fixpoint rows_loop (base_rows : list Dict.t) (hs : list string)
    (target_index : gmap string Dict.t) (thresholds : Thresholds)
    (comparisons : list ComparisonResult)
  : res (list ComparisonResult) :=
  match base_rows with
  | [] => Ok comparisons
  | base_row :: base_rows' =>
      let row_key := _get_row_key base_row in
      match target_index !! row_key with
      | Some target_row =>
          if Dict.truthy target_row
          then
            comparisons' ← headers_loop hs base_row target_row thresholds comparisons;
            rows_loop base_rows' hs target_index thresholds comparisons'
          else rows_loop base_rows' hs target_index thresholds comparisons
      | None => rows_loop base_rows' hs target_index thresholds comparisons
      end
  end.

Definition _compare_same_platform (base_table target_table : TableData)
    (thresholds : Thresholds) : res (list ComparisonResult) :=
  let target_index := row_index (rows target_table) in
  rows_loop (rows base_table) (headers base_table) target_index thresholds [].

(** [[row.get(header) for row in rows if row.get(header) is not None]] *)
Definition column_values (header : string) (rs : list Dict.t) : list PyVal :=
  List.filter (fun v => negb (is_none v)) (map (Dict.get header) rs).

(** [sum(values) / len(values)] *)
Definition average (values : list PyVal) : res PyVal :=
  s ← py_sum values; py_truediv_len s (length values).

(** The loop over the common headers. *)
Fixpoint common_loop (hs : list string) (base_table target_table : TableData)
    (thresholds : Thresholds) (comparisons : list ComparisonResult)
  : res (list ComparisonResult) :=
  match hs with
  | [] => Ok comparisons
  | header :: hs' =>
      if _is_numeric_column header
      then
        let base_values := column_values header (rows base_table) in
        let target_values := column_values header (rows target_table) in
        if negb (Nat.eqb (length base_values) 0)
           && negb (Nat.eqb (length target_values) 0)
        then
          base_avg ← average base_values;
          target_avg ← average target_values;
          comparison ← _compare_values header base_avg target_avg thresholds;
          common_loop hs' base_table target_table thresholds (comparisons ++ [comparison])
        else common_loop hs' base_table target_table thresholds comparisons
      else common_loop hs' base_table target_table thresholds comparisons
  end.

(** [set(base_table.headers) & set(target_table.headers)], in the order
    the loop visits it. *)
Definition common_headers (base_table target_table : TableData) : list string :=
  elements ((list_to_set (headers base_table) : gset string)
            ∩ list_to_set (headers target_table)).

Definition _compare_cross_platform (base_table target_table : TableData)
    (thresholds : Thresholds) : res (list ComparisonResult) :=
  common_loop (common_headers base_table target_table)
              base_table target_table thresholds [].

Definition _compare_tables (table_name : string)
    (base_table target_table : TableData) (thresholds : Thresholds)
    (comparison_type : ComparisonType) : res (option TableComparison) :=
  let table_description := ConfigLoader.get_table_description cfg table_name in
  comparisons ←
    match comparison_type with
    | CROSS_PLATFORM => _compare_cross_platform base_table target_table thresholds
    | _ => _compare_same_platform base_table target_table thresholds
    end;
  match comparisons with
  | [] => mret None
  | _ :: _ =>
      mret (Some {| table_name := table_name;
                    table_description := table_description;
                    base_table := base_table;
                    target_table := target_table;
                    comparisons := comparisons |})
  end.

Definition sum_nat (l : list nat) : nat := foldl Nat.add 0%nat l.

Definition _generate_summary (table_comparisons : list TableComparison) : Summary :=
  let total_comparisons := sum_nat (map (fun tc => length (comparisons tc)) table_comparisons) in
  let total_critical := sum_nat (map get_critical_count table_comparisons) in
  let total_warnings := sum_nat (map get_warning_count table_comparisons) in
  {| total_tables := length table_comparisons;
     total_comparisons := total_comparisons;
     critical_count := total_critical;
     warning_count := total_warnings;
     has_issues := negb (Nat.eqb total_critical 0) || negb (Nat.eqb total_warnings 0) |}.

(** [o and TableData_truthy o] for an optional table. *)
Definition table_truthy (o : option TableData) : bool :=
  match o with
  | Some t => TableData_truthy t
  | None => false
  end.

(** The loop over [selected_tables]. *)
Fixpoint tables_loop (selected_tables : list string)
    (base_parser target_parser : Parser) (thresholds : Thresholds)
    (comparison_type : ComparisonType)
    (table_comparisons : list TableComparison)
  : res (list TableComparison) :=
  match selected_tables with
  | [] => Ok table_comparisons
  | table_name :: rest =>
      match get_table base_parser table_name, get_table target_parser table_name with
      | Some base_table, Some target_table =>
          if TableData_truthy base_table && TableData_truthy target_table
          then
            comparison ← _compare_tables table_name base_table target_table
                                         thresholds comparison_type;
            match comparison with
            | Some c =>
                tables_loop rest base_parser target_parser thresholds
                            comparison_type (table_comparisons ++ [c])
            | None =>
                tables_loop rest base_parser target_parser thresholds
                            comparison_type table_comparisons
            end
          else tables_loop rest base_parser target_parser thresholds
                           comparison_type table_comparisons
      | _, _ => tables_loop rest base_parser target_parser thresholds
                            comparison_type table_comparisons
      end
  end.

(** [parser.metadata.report_type]; [AttributeError] on a parser whose
    metadata is still [None]. *)
Definition metadata_of (p : Parser) : res ReportMetadata :=
  match parser_metadata p with
  | Some m => Ok m
  | None => Raise AttributeError
  end.

Definition compare_reports (base_parser target_parser : Parser)
    (selected_tables : option (list string)) : res ReportComparison :=
  base_metadata ← metadata_of base_parser;
  target_metadata ← metadata_of target_parser;
  let comparison_type :=
    _determine_comparison_type (report_type base_metadata)
                               (report_type target_metadata) in
  let thresholds := _get_thresholds comparison_type in
  let selected_tables :=
    match selected_tables with
    | None => _get_common_tables base_parser target_parser
    | Some l => l
    end in
  table_comparisons ←
    tables_loop selected_tables base_parser target_parser thresholds
                comparison_type [];
  mret {| rc_comparison_type := comparison_type;
          rc_base_metadata := base_metadata;
          rc_target_metadata := target_metadata;
          rc_table_comparisons := table_comparisons;
          rc_thresholds := thresholds;
          rc_summary := _generate_summary table_comparisons |}.

End ComparisonEngine.

(** ** More of Python's strings and lists

    What the report parsers and the web front end use besides the
    operations above. *)

Module PyText.
Import PyStr.

(** [str.lower] on the code points below 256: the ASCII capitals and the
    Latin-1 capitals U+00C0 to U+00DE, the multiplication sign apart. *)
Definition lower_char (c : ascii) : ascii :=
  let n := code c in
  if (((65 <=? n) && (n <=? 90))
      || ((192 <=? n) && (n <=? 222) && negb (n =? 215)))%N
  then ascii_of_N (n + 32) else c.

Fixpoint lower (s : string) : string :=
  match s with
  | EmptyString => EmptyString
  | String c s' => String (lower_char c) (lower s')
  end.

(** [s.split(sep)] for a one-character [sep]. *)
Fixpoint split (sep : ascii) (s : string) : list string :=
  match s with
  | EmptyString => [EmptyString]
  | String c s' =>
      if Ascii.eqb c sep then EmptyString :: split sep s'
      else match split sep s' with
           | part :: parts => String c part :: parts
           | [] => [String c EmptyString]
           end
  end.

(** [s.split(sep, 1)] *)
Fixpoint split_once (sep : ascii) (s : string) : list string :=
  match s with
  | EmptyString => [EmptyString]
  | String c s' =>
      if Ascii.eqb c sep then [EmptyString; s']
      else match split_once sep s' with
           | part :: parts => String c part :: parts
           | [] => [String c EmptyString]
           end
  end.

(** [s.rsplit(sep, 1)] *)
Fixpoint rsplit_once (sep : ascii) (s : string) : list string :=
  match s with
  | EmptyString => [EmptyString]
  | String c s' =>
      match rsplit_once sep s' with
      | [rest] => if Ascii.eqb c sep then [EmptyString; rest] else [String c rest]
      | before :: parts => String c before :: parts
      | [] => [String c EmptyString]
      end
  end.

(** [s.split()]: the maximal runs of characters that are not white space. *)
Fixpoint words (s : string) : list string :=
  match s with
  | EmptyString => []
  | String c s' =>
      if isspace c then words s'
      else match s' with
           | EmptyString => [String c EmptyString]
           | String d _ =>
               if isspace d then String c EmptyString :: words s'
               else match words s' with
                    | w :: ws => String c w :: ws
                    | [] => [String c EmptyString]
                    end
           end
  end.

(** [sep.join(parts)] *)
Fixpoint join (sep : string) (parts : list string) : string :=
  match parts with
  | [] => EmptyString
  | [part] => part
  | part :: rest => part +:+ sep +:+ join sep rest
  end.

(** [s[:n]] for [n >= 0] *)
Fixpoint take (n : nat) (s : string) : string :=
  match n, s with
  | S n', String c s' => String c (take n' s')
  | _, _ => EmptyString
  end.

(** [l[i]], with Python's negative indexes. *)
Definition index {A : Type} (l : list A) (i : Z) : res A :=
  let n := Z.of_nat (length l) in
  let j := if i <? 0 then n + i else i in
  if (0 <=? j) && (j <? n)
  then match nth_error l (Z.to_nat j) with
       | Some x => Ok x
       | None => Raise IndexError
       end
  else Raise IndexError.

(** [l[:-k]] *)
Definition drop_last_n {A : Type} (k : nat) (l : list A) : list A :=
  firstn (length l - k) l.

(** [d.get(k)] on a dictionary written as a literal. *)
Fixpoint lookup_literal {A : Type} (k : string) (d : list (string * A)) : option A :=
  match d with
  | [] => None
  | (k', v) :: d' => if String.eqb k' k then Some v else lookup_literal k d'
  end.

Definition newline : ascii := "010"%char.

End PyText.

(** ** The libraries the parsers call

    Regular expressions, date parsing and the markup parser are not part
    of the sources: they are parameters of the embedding.  [re_search]
    tells whether [re.search(pattern, text, flags)] finds a match,
    [re_group1] gives [group(1)] of that match, [strptime] the time read
    in a format, in seconds, [None] when [datetime.strptime] raises, and
    [BeautifulSoup] the document tree of a text.

    A document tree is read through [find_all], the text of an element and
    the table that follows it ([find_next('table')]): it is modelled as its
    elements in document order, each with its tag name, its text and the
    table node after it. *)

Inductive re_flag : Type := IGNORECASE | DOTALL.

Record Element : Type := {
  elem_name : string;
  elem_text : string;
  elem_next_table : option TableNode
}.

Definition Soup : Type := list Element.

Class Library : Type := {
  re_search : string -> list re_flag -> string -> bool;
  re_group1 : string -> list re_flag -> string -> option string;
  strptime : string -> string -> option Z;
  BeautifulSoup : string -> Soup
}.

(** [soup.find_all(names)] *)
Definition find_all (names : list string) (soup : Soup) : list Element :=
  List.filter (fun e => bool_decide (elem_name e ∈ names)) soup.

(** [BaseReportParser.__init__]: no metadata, no table. *)
Definition new_parser : Parser := {| parser_metadata := None; tables := ∅ |}.

(** [self.metadata = m] and [self.tables[k] = t] *)
Definition set_metadata (m : ReportMetadata) (self : Parser) : Parser :=
  {| parser_metadata := Some m; tables := tables self |}.

Definition set_table (k : string) (t : TableData) (self : Parser) : Parser :=
  {| parser_metadata := parser_metadata self; tables := <[k := t]> (tables self) |}.

(** [(end_time - start_time).total_seconds() / 60] for two times in
    seconds. *)
Definition minutes_between (start_time end_time : Z) : spec_float :=
  PyFloat.div (PyFloat.of_Z (end_time - start_time)) (PyFloat.of_Z 60).

(** ** The code the two parsers share

    [_parse_html], [_parse_text] and [parse] are the same text in
    [AWRParser] and [PgProfileParser] but for the table names, the section
    extractors and the messages printed; the loops they run are written
    once. *)

Module ReportParser.
Import PyStr PyText BaseReportParser.

(** [for line in lines: ...; rows.append(row)], the body giving the row a
    line adds, if it adds one. *)
Fixpoint lines_loop (body : string -> res (option Dict.t)) (lines : list string)
    (rows : list Dict.t) : res (list Dict.t) :=
  match lines with
  | [] => Ok rows
  | line :: lines' =>
      row ← body line;
      match row with
      | Some row_data => lines_loop body lines' (rows ++ [row_data])
      | None => lines_loop body lines' rows
      end
  end.

(** The loop of [_extract_table_html] over the headings. *)
Fixpoint headings_loop `{Library} (headings : list Element) (header_pattern : string)
    (table_name : string) : res (option TableData) :=
  match headings with
  | [] => Ok None
  | heading :: headings' =>
      if re_search header_pattern [IGNORECASE] (elem_text heading)
      then match elem_next_table heading with
           | Some table =>
               t ← HtmlParser._parse_html_table table table_name; mret (Some t)
           | None => headings_loop headings' header_pattern table_name
           end
      else headings_loop headings' header_pattern table_name
  end.

(** The loop of [_parse_html] over the table names, inside its [try]: an
    exception ends it with [False] and the tables stored so far. *)
Fixpoint store_tables (extract_table : string -> res (option TableData))
    (table_names : list string) (self : Parser) : bool * Parser :=
  match table_names with
  | [] => (true, self)
  | table_name :: table_names' =>
      match extract_table table_name with
      | Raise _ => (false, self)
      | Ok (Some table_data) =>
          if TableData_truthy table_data && negb (TableData_is_empty table_data)
          then store_tables extract_table table_names'
                            (set_table table_name table_data self)
          else store_tables extract_table table_names' self
      | Ok None => store_tables extract_table table_names' self
      end
  end.

(** One section of [_parse_text]: [t = extract(content)], then
    [if t: self.tables[k] = t]. *)
Definition store_section (k : string) (extracted : option TableData) (self : Parser)
  : Parser :=
  match extracted with
  | Some t => if TableData_truthy t then set_table k t self else self
  | None => self
  end.

End ReportParser.

(** ** parsers/awr_parser.py *)

Module AWRParser.
Import PyStr PyText BaseReportParser ReportParser.

Section WithLibrary.
Context `{Library}.

Definition _extract_metadata_html (soup : Soup) : ReportMetadata :=
  let step (st : string * string * string * option Z * option Z) (table : Element) :=
    let '(db_name, instance_name, version, start_time, end_time) := st in
    let text := elem_text table in
    let db_name := default db_name (re_group1 "DB Name[:\s]+(\w+)" [] text) in
    let instance_name := default instance_name (re_group1 "Instance[:\s]+(\w+)" [] text) in
    let version := default version (re_group1 "Release[:\s]+([\d\.]+)" [] text) in
    let start_time :=
      match re_group1 "Begin Snap[:\s]+.*?(\d{2}-\w{3}-\d{2,4}\s+\d{2}:\d{2})" [] text with
      | Some g => match strptime g "%d-%b-%y %H:%M" with
                  | Some time => Some time
                  | None => start_time
                  end
      | None => start_time
      end in
    let end_time :=
      match re_group1 "End Snap[:\s]+.*?(\d{2}-\w{3}-\d{2,4}\s+\d{2}:\d{2})" [] text with
      | Some g => match strptime g "%d-%b-%y %H:%M" with
                  | Some time => Some time
                  | None => end_time
                  end
      | None => end_time
      end in
    (db_name, instance_name, version, start_time, end_time) in
  let '(db_name, instance_name, version, start_time, end_time) :=
    foldl step ("Unknown"%string, "Unknown"%string, "Unknown"%string, None, None)
          (find_all ["table"%string] soup) in
  let duration :=
    match start_time, end_time with
    | Some s, Some e => Some (minutes_between s e)
    | _, _ => None
    end in
  {| report_type := "oracle_awr";
     version := version;
     database_name := db_name;
     instance_name := instance_name;
     start_time := start_time;
     end_time := end_time;
     duration_minutes := duration |}.

Definition _extract_metadata_text (content : string) : ReportMetadata :=
  let db_name := default "Unknown"%string (re_group1 "DB Name[:\s]+(\w+)" [] content) in
  let instance_name :=
    default "Unknown"%string (re_group1 "Instance[:\s]+(\w+)" [] content) in
  let version := default "Unknown"%string (re_group1 "Release[:\s]+([\d\.]+)" [] content) in
  {| report_type := "oracle_awr";
     version := version;
     database_name := db_name;
     instance_name := instance_name;
     start_time := None;
     end_time := None;
     duration_minutes := None |}.

(** [self.soup] is [None] until [parse] has found markup; a document tree
    is true whatever it holds. *)
Definition extract_metadata (soup : option Soup) (_raw_content : string)
  : ReportMetadata :=
  match soup with
  | Some tree => _extract_metadata_html tree
  | None => _extract_metadata_text _raw_content
  end.

Definition table_headers : list (string * string) :=
  [("load_profile", "Load Profile");
   ("instance_efficiency", "Instance Efficiency");
   ("top_sql_elapsed", "SQL ordered by Elapsed Time");
   ("top_sql_cpu", "SQL ordered by CPU Time");
   ("wait_events", "Top.*Wait Events");
   ("io_statistics", "IOStat by");
   ("time_model_statistics", "Time Model Statistics")]%string.

Definition _extract_table_html (soup : Soup) (table_name : string)
  : res (option TableData) :=
  match lookup_literal table_name table_headers with
  | None => Ok None
  | Some header_pattern =>
      if is_empty header_pattern then Ok None
      else headings_loop (find_all ["h2"; "h3"; "a"]%string soup)
                         header_pattern table_name
  end.

Definition load_profile_line (line : string) : res (option Dict.t) :=
  if contains ":" line
  then
    let parts := split ":" line in
    if (2 <=? length parts)%nat
    then
      part0 ← index parts 0;
      part1 ← index parts 1;
      let metric := strip part0 in
      let values := words (strip part1) in
      if (2 <=? length values)%nat
      then
        value0 ← index values 0;
        per_second ← _normalize_value value0;
        per_transaction ←
          (if (1 <? length values)%nat
           then value1 ← index values 1; _normalize_value value1
           else Ok VNone);
        mret (Some [("Metric"%string, VStr metric);
                    ("Per Second"%string, per_second);
                    ("Per Transaction"%string, per_transaction)])
      else mret None
    else mret None
  else mret None.

Definition _extract_load_profile_text (content : string) : res (option TableData) :=
  match re_group1 "Load Profile\s*\n(.*?)(?:\n\n|\Z)" [DOTALL] content with
  | None => Ok None
  | Some section =>
      rows ← lines_loop load_profile_line (split newline section) [];
      mret (Some {| name := "load_profile";
                    headers := ["Metric"; "Per Second"; "Per Transaction"]%string;
                    rows := rows;
                    metadata := [] |})
  end.

Definition top_sql_line (line : string) : res (option Dict.t) :=
  if negb (is_empty (strip line))
  then
    let parts := words line in
    if (4 <=? length parts)%nat
    then
      part0 ← index parts 0;
      part1 ← index parts 1;
      elapsed ← _normalize_value part1;
      part2 ← index parts 2;
      cpu ← _normalize_value part2;
      part3 ← index parts 3;
      executions ← _normalize_value part3;
      mret (Some [("SQL ID"%string, VStr part0);
                  ("Elapsed Time"%string, elapsed);
                  ("CPU Time"%string, cpu);
                  ("Executions"%string, executions)])
    else mret None
  else mret None.

Definition _extract_top_sql_text (content : string) : res (option TableData) :=
  match re_group1 "SQL ordered by Elapsed Time\s*\n(.*?)(?:\n\n|\Z)" [DOTALL] content with
  | None => Ok None
  | Some section =>
      rows ← lines_loop top_sql_line (split newline section) [];
      mret (Some {| name := "top_sql_elapsed";
                    headers := ["SQL ID"; "Elapsed Time"; "CPU Time"; "Executions"]%string;
                    rows := rows;
                    metadata := [] |})
  end.

Definition wait_events_line (line : string) : res (option Dict.t) :=
  if negb (is_empty (strip line))
  then
    let parts := words line in
    if (4 <=? length parts)%nat
    then
      let event := join " " (drop_last_n 3 parts) in
      part_3 ← index parts (-3);
      waits ← _normalize_value part_3;
      part_2 ← index parts (-2);
      time ← _normalize_value part_2;
      part_1 ← index parts (-1);
      db_time ← _normalize_value part_1;
      mret (Some [("Event"%string, VStr event);
                  ("Waits"%string, waits);
                  ("Time(s)"%string, time);
                  ("% DB Time"%string, db_time)])
    else mret None
  else mret None.

Definition _extract_wait_events_text (content : string) : res (option TableData) :=
  match re_group1 "Top.*Wait Events\s*\n(.*?)(?:\n\n|\Z)" [DOTALL] content with
  | None => Ok None
  | Some section =>
      rows ← lines_loop wait_events_line (split newline section) [];
      mret (Some {| name := "wait_events";
                    headers := ["Event"; "Waits"; "Time(s)"; "% DB Time"]%string;
                    rows := rows;
                    metadata := [] |})
  end.

Definition _extract_table_text (_raw_content : string) (table_name : string)
  : res (option TableData) :=
  if String.eqb table_name "load_profile"
  then _extract_load_profile_text _raw_content
  else if String.eqb table_name "top_sql_elapsed"
  then _extract_top_sql_text _raw_content
  else if String.eqb table_name "wait_events"
  then _extract_wait_events_text _raw_content
  else Ok None.

Definition extract_table (soup : option Soup) (_raw_content : string)
    (table_name : string) : res (option TableData) :=
  match soup with
  | Some tree => _extract_table_html tree table_name
  | None => _extract_table_text _raw_content table_name
  end.

Definition table_names : list string :=
  ["load_profile"; "instance_efficiency"; "top_sql_elapsed"; "top_sql_cpu";
   "wait_events"; "io_statistics"; "time_model_statistics"]%string.

(** [_parse_html], run with [self.soup] set to [soup]. *)
Definition _parse_html (soup : Soup) (_raw_content : string) (self : Parser)
  : bool * Parser :=
  let self := set_metadata (extract_metadata (Some soup) _raw_content) self in
  store_tables (extract_table (Some soup) _raw_content) table_names self.

(** [_parse_text], run with [self.soup] still [None]. *)
Definition _parse_text (_raw_content : string) (self : Parser) : bool * Parser :=
  let content := _raw_content in
  let self := set_metadata (extract_metadata None _raw_content) self in
  match _extract_load_profile_text content with
  | Raise _ => (false, self)
  | Ok load_profile =>
      let self := store_section "load_profile" load_profile self in
      match _extract_top_sql_text content with
      | Raise _ => (false, self)
      | Ok top_sql =>
          let self := store_section "top_sql_elapsed" top_sql self in
          match _extract_wait_events_text content with
          | Raise _ => (false, self)
          | Ok wait_events =>
              let self := store_section "wait_events" wait_events self in
              (true, self)
          end
      end
  end.

(** [parse], on a parser that has parsed nothing yet; [read] is what
    [_read_file] returns, [None] when it raises. *)
Definition parse (read : option string) (self : Parser) : bool * Parser :=
  match read with
  | None => (false, self)
  | Some content =>
      if is_substring "<html" (PyText.lower content)
         || is_substring "<table" (PyText.lower content)
      then _parse_html (BeautifulSoup content) content self
      else _parse_text content self
  end.

End WithLibrary.
End AWRParser.

(** ** parsers/pg_profile_parser.py *)

Module PgProfileParser.
Import PyStr PyText BaseReportParser ReportParser.

Section WithLibrary.
Context `{Library}.

Definition _extract_metadata_html (soup : Soup) : ReportMetadata :=
  let step_div (st : string * string * string * string) (div : Element) :=
    let '(db_name, instance_name, version, pg_profile_version) := st in
    let text := elem_text div in
    let version := default version (re_group1 "PostgreSQL\s+([\d\.]+)" [] text) in
    let pg_profile_version :=
      default pg_profile_version (re_group1 "pg_profile\s+([\d\.]+)" [] text) in
    let db_name := default db_name (re_group1 "Database[:\s]+(\w+)" [] text) in
    let instance_name := default instance_name (re_group1 "Server[:\s]+(\w+)" [] text) in
    (db_name, instance_name, version, pg_profile_version) in
  let '(db_name, instance_name, version, pg_profile_version) :=
    foldl step_div ("Unknown"%string, "Unknown"%string, "Unknown"%string, "Unknown"%string)
          (find_all ["div"; "h1"; "h2"]%string soup) in
  let step_table (st : option Z * option Z) (table : Element) :=
    let '(start_time, end_time) := st in
    let text := elem_text table in
    let start_time :=
      match re_group1 "Start time[:\s]+(\d{4}-\d{2}-\d{2}\s+\d{2}:\d{2}:\d{2})" [] text with
      | Some g => match strptime g "%Y-%m-%d %H:%M:%S" with
                  | Some time => Some time
                  | None => start_time
                  end
      | None => start_time
      end in
    let end_time :=
      match re_group1 "End time[:\s]+(\d{4}-\d{2}-\d{2}\s+\d{2}:\d{2}:\d{2})" [] text with
      | Some g => match strptime g "%Y-%m-%d %H:%M:%S" with
                  | Some time => Some time
                  | None => end_time
                  end
      | None => end_time
      end in
    (start_time, end_time) in
  let '(start_time, end_time) :=
    foldl step_table (None, None) (find_all ["table"%string] soup) in
  let duration :=
    match start_time, end_time with
    | Some s, Some e => Some (minutes_between s e)
    | _, _ => None
    end in
  {| report_type := "postgresql_pg_profile";
     version := "PostgreSQL " +:+ version +:+ ", pg_profile " +:+ pg_profile_version;
     database_name := db_name;
     instance_name := instance_name;
     start_time := start_time;
     end_time := end_time;
     duration_minutes := duration |}.

Definition _extract_metadata_text (content : string) : ReportMetadata :=
  let version := default "Unknown"%string (re_group1 "PostgreSQL\s+([\d\.]+)" [] content) in
  let db_name := default "Unknown"%string (re_group1 "Database[:\s]+(\w+)" [] content) in
  let instance_name :=
    default "Unknown"%string (re_group1 "Server[:\s]+(\w+)" [] content) in
  {| report_type := "postgresql_pg_profile";
     version := version;
     database_name := db_name;
     instance_name := instance_name;
     start_time := None;
     end_time := None;
     duration_minutes := None |}.

Definition extract_metadata (soup : option Soup) (_raw_content : string)
  : ReportMetadata :=
  match soup with
  | Some tree => _extract_metadata_html tree
  | None => _extract_metadata_text _raw_content
  end.

Definition table_headers : list (string * string) :=
  [("general_statistics", "Cluster statistics");
   ("wait_events", "Wait event.*statistics");
   ("database_statistics", "Database statistics");
   ("queries_statistics", "Top.*SQL.*by.*elapsed");
   ("io_statistics", "I/O.*statistics");
   ("table_statistics", "Top.*tables");
   ("index_statistics", "Top.*indexes")]%string.

Definition _extract_table_html (soup : Soup) (table_name : string)
  : res (option TableData) :=
  match lookup_literal table_name table_headers with
  | None => Ok None
  | Some header_pattern =>
      if is_empty header_pattern then Ok None
      else headings_loop (find_all ["h2"; "h3"; "h4"; "a"]%string soup)
                         header_pattern table_name
  end.

Definition general_statistics_line (line : string) : res (option Dict.t) :=
  if contains ":" line
  then
    let parts := split_once ":" line in
    if (length parts =? 2)%nat
    then
      part0 ← index parts 0;
      part1 ← index parts 1;
      value ← _normalize_value (strip part1);
      mret (Some [("Metric"%string, VStr (strip part0)); ("Value"%string, value)])
    else mret None
  else mret None.

Definition _extract_general_statistics_text (content : string)
  : res (option TableData) :=
  match re_group1 "Cluster statistics\s*\n(.*?)(?:\n\n|\Z)" [DOTALL] content with
  | None => Ok None
  | Some section =>
      rows ← lines_loop general_statistics_line (split newline section) [];
      mret (Some {| name := "general_statistics";
                    headers := ["Metric"; "Value"]%string;
                    rows := rows;
                    metadata := [] |})
  end.

Definition wait_events_line (line : string) : res (option Dict.t) :=
  if negb (is_empty (strip line))
  then
    let parts := words line in
    if (4 <=? length parts)%nat
    then
      let event := join " " (drop_last_n 3 parts) in
      part_3 ← index parts (-3);
      count ← _normalize_value part_3;
      part_2 ← index parts (-2);
      time ← _normalize_value part_2;
      part_1 ← index parts (-1);
      total ← _normalize_value part_1;
      mret (Some [("Event"%string, VStr event);
                  ("Count"%string, count);
                  ("Time (ms)"%string, time);
                  ("% Total"%string, total)])
    else mret None
  else mret None.

Definition _extract_wait_events_text (content : string) : res (option TableData) :=
  match re_group1 "Wait event.*statistics\s*\n(.*?)(?:\n\n|\Z)" [DOTALL; IGNORECASE]
                  content with
  | None => Ok None
  | Some section =>
      rows ← lines_loop wait_events_line (split newline section) [];
      mret (Some {| name := "wait_events";
                    headers := ["Event"; "Count"; "Time (ms)"; "% Total"]%string;
                    rows := rows;
                    metadata := [] |})
  end.

Definition queries_line (line : string) : res (option Dict.t) :=
  if negb (is_empty (strip line))
  then
    let parts := words line in
    if (4 <=? length parts)%nat
    then
      part0 ← index parts 0;
      part1 ← index parts 1;
      calls ← _normalize_value part1;
      part2 ← index parts 2;
      total_time ← _normalize_value part2;
      part3 ← index parts 3;
      mean_time ← _normalize_value part3;
      mret (Some [("Query ID"%string, VStr part0);
                  ("Calls"%string, calls);
                  ("Total time"%string, total_time);
                  ("Mean time"%string, mean_time)])
    else mret None
  else mret None.

Definition _extract_queries_text (content : string) : res (option TableData) :=
  match re_group1 "Top.*SQL.*by.*elapsed\s*\n(.*?)(?:\n\n|\Z)" [DOTALL; IGNORECASE]
                  content with
  | None => Ok None
  | Some section =>
      rows ← lines_loop queries_line (split newline section) [];
      mret (Some {| name := "queries_statistics";
                    headers := ["Query ID"; "Calls"; "Total time"; "Mean time"]%string;
                    rows := rows;
                    metadata := [] |})
  end.

Definition _extract_table_text (_raw_content : string) (table_name : string)
  : res (option TableData) :=
  if String.eqb table_name "general_statistics"
  then _extract_general_statistics_text _raw_content
  else if String.eqb table_name "wait_events"
  then _extract_wait_events_text _raw_content
  else if String.eqb table_name "queries_statistics"
  then _extract_queries_text _raw_content
  else Ok None.

Definition extract_table (soup : option Soup) (_raw_content : string)
    (table_name : string) : res (option TableData) :=
  match soup with
  | Some tree => _extract_table_html tree table_name
  | None => _extract_table_text _raw_content table_name
  end.

Definition table_names : list string :=
  ["general_statistics"; "wait_events"; "database_statistics"; "queries_statistics";
   "io_statistics"; "table_statistics"; "index_statistics"]%string.

Definition _parse_html (soup : Soup) (_raw_content : string) (self : Parser)
  : bool * Parser :=
  let self := set_metadata (extract_metadata (Some soup) _raw_content) self in
  store_tables (extract_table (Some soup) _raw_content) table_names self.

Definition _parse_text (_raw_content : string) (self : Parser) : bool * Parser :=
  let content := _raw_content in
  let self := set_metadata (extract_metadata None _raw_content) self in
  match _extract_general_statistics_text content with
  | Raise _ => (false, self)
  | Ok general_stats =>
      let self := store_section "general_statistics" general_stats self in
      match _extract_wait_events_text content with
      | Raise _ => (false, self)
      | Ok wait_events =>
          let self := store_section "wait_events" wait_events self in
          match _extract_queries_text content with
          | Raise _ => (false, self)
          | Ok queries =>
              let self := store_section "queries_statistics" queries self in
              (true, self)
          end
      end
  end.

Definition parse (read : option string) (self : Parser) : bool * Parser :=
  match read with
  | None => (false, self)
  | Some content =>
      if is_substring "<html" (PyText.lower content)
         || is_substring "<table" (PyText.lower content)
      then _parse_html (BeautifulSoup content) content self
      else _parse_text content self
  end.

End WithLibrary.
End PgProfileParser.

(** ** app.py and gui/main_window.py: the choice of a parser

    [get_parser_for_file] of the web front end and
    [MainWindow._create_parser] are the same text; [content] is the text
    of the file, of which they read the first 5000 characters. *)

Inductive ParserClass : Type := AWRParserClass | PgProfileParserClass.

Definition get_parser_for_file (file_content : string) : ParserClass :=
  let content := PyText.take 5000 file_content in
  if PyStr.is_substring "AWR" content
     || PyStr.is_substring "Automatic Workload Repository" content
  then AWRParserClass
  else if PyStr.is_substring "pg_profile" content
          || PyStr.is_substring "PostgreSQL" content
  then PgProfileParserClass
  else AWRParserClass.

Definition _create_parser (file_content : string) : ParserClass :=
  let content := PyText.take 5000 file_content in
  if PyStr.is_substring "AWR" content
     || PyStr.is_substring "Automatic Workload Repository" content
  then AWRParserClass
  else if PyStr.is_substring "pg_profile" content
          || PyStr.is_substring "PostgreSQL" content
  then PgProfileParserClass
  else AWRParserClass.

(** [parser.parse()] for the parser of a class. *)
Definition parse_as `{Library} (c : ParserClass) (read : option string) (self : Parser)
  : bool * Parser :=
  match c with
  | AWRParserClass => AWRParser.parse read self
  | PgProfileParserClass => PgProfileParser.parse read self
  end.

Definition ALLOWED_EXTENSIONS : list string := ["html"; "txt"]%string.

Definition allowed_file (filename : string) : res bool :=
  if PyStr.contains "." filename
  then
    extension ← PyText.index (PyText.rsplit_once "." filename) 1;
    mret (bool_decide (PyText.lower extension ∈ ALLOWED_EXTENSIONS))
  else mret false.

(** ** utils/config_loader.py: loading and caching

    [yaml.safe_load] gives a tree of mappings, lists and scalars; the keys
    the loader looks up are strings.  The files are read through the path
    of a configuration name only, so the file system is what it holds for
    each name at the time of a call: nothing, a text that does not parse,
    or a tree. *)

Module ConfigFiles.

#[warnings="-register-all"] Inductive Yaml : Type :=
  | YNull
  | YBool (b : bool)
  | YInt (n : Z)
  | YFloat (f : spec_float)
  | YStr (s : string)
  | YList (l : list Yaml)
  | YMap (m : list (string * Yaml)).

Inductive FileState : Type :=
  | Missing
  | Malformed
  | Parses (config : Yaml).

Inductive error : Type :=
  | FileNotFoundError
  | YAMLError
  | KeyError
  | TypeError
  | AttributeError.

Inductive outcome (A : Type) : Type :=
  | Returns (a : A)
  | Raises (e : error).
Arguments Returns {A} a.
Arguments Raises {A} e.

(** [d[k]] for a string [k] *)
Definition subscript (d : Yaml) (k : string) : outcome Yaml :=
  match d with
  | YMap m =>
      match PyText.lookup_literal k m with
      | Some v => Returns v
      | None => Raises KeyError
      end
  | _ => Raises TypeError
  end.

(** [d.get(k, default)] *)
Definition get (d : Yaml) (k : string) (default : Yaml) : outcome Yaml :=
  match d with
  | YMap m =>
      match PyText.lookup_literal k m with
      | Some v => Returns v
      | None => Returns default
      end
  | _ => Raises AttributeError
  end.

(** The loader's state is its cache [_configs]; each method returns what
    the call returns or raises, and the cache after it. *)
Definition load_config (files : string -> FileState) (config_name : string)
    (_configs : gmap string Yaml) : outcome Yaml * gmap string Yaml :=
  match _configs !! config_name with
  | Some config => (Returns config, _configs)
  | None =>
      match files config_name with
      | Missing => (Raises FileNotFoundError, _configs)
      | Malformed => (Raises YAMLError, _configs)
      | Parses config => (Returns config, <[config_name := config]> _configs)
      end
  end.

Definition get_cross_platform_mapping (files : string -> FileState)
    (_configs : gmap string Yaml) : outcome Yaml * gmap string Yaml :=
  load_config files "cross_platform_mapping" _configs.

Definition get_default_comparison_settings (files : string -> FileState)
    (_configs : gmap string Yaml) : outcome Yaml * gmap string Yaml :=
  load_config files "default_comparison" _configs.

Definition get_metric_mapping (files : string -> FileState)
    (from_platform to_platform : string) (_configs : gmap string Yaml)
  : outcome Yaml * gmap string Yaml :=
  match get_cross_platform_mapping files _configs with
  | (Raises e, _configs) => (Raises e, _configs)
  | (Returns mapping_config, _configs) =>
      if String.eqb from_platform to_platform then (Returns (YMap []), _configs)
      else
        let mapping_key := (from_platform +:+ "_to_" +:+ to_platform)%string in
        match subscript mapping_config "metric_mapping" with
        | Raises e => (Raises e, _configs)
        | Returns mappings => (get mappings mapping_key (YMap []), _configs)
        end
  end.

Definition get_available_tables (files : string -> FileState) (report_type : string)
    (_configs : gmap string Yaml) : outcome Yaml * gmap string Yaml :=
  match get_cross_platform_mapping files _configs with
  | (Raises e, _configs) => (Raises e, _configs)
  | (Returns mapping_config, _configs) =>
      match subscript mapping_config "available_tables_by_report_type" with
      | Raises e => (Raises e, _configs)
      | Returns by_type => (get by_type report_type (YList []), _configs)
      end
  end.

Definition get_thresholds (files : string -> FileState) (comparison_type : string)
    (_configs : gmap string Yaml) : outcome Yaml * gmap string Yaml :=
  match get_default_comparison_settings files _configs with
  | (Raises e, _configs) => (Raises e, _configs)
  | (Returns settings, _configs) =>
      match subscript settings "thresholds" with
      | Raises e => (Raises e, _configs)
      | Returns thresholds => (get thresholds comparison_type (YMap []), _configs)
      end
  end.

Definition get_table_description (files : string -> FileState) (table_name : string)
    (_configs : gmap string Yaml) : outcome Yaml * gmap string Yaml :=
  match get_cross_platform_mapping files _configs with
  | (Raises e, _configs) => (Raises e, _configs)
  | (Returns mapping_config, _configs) =>
      match get mapping_config "table_descriptions" (YMap []) with
      | Raises e => (Raises e, _configs)
      | Returns descriptions => (get descriptions table_name (YStr table_name), _configs)
      end
  end.

End ConfigFiles.

(** * Definitions the statements use *)

(** The flags the classification block computes from a percent change. *)
Definition flags_of (percent_change : option spec_float) (thresholds : Thresholds)
  : bool * bool :=
  match percent_change with
  | Some p =>
      let abs_percent := PyFloat.abs p in
      if PyFloat.ge_int abs_percent (default 30 (critical_percent thresholds))
      then (false, true)
      else if PyFloat.ge_int abs_percent (default 15 (warning_percent thresholds))
           then (true, false)
           else (false, false)
  | None => (false, false)
  end.

Definition percent_of (base_num target_num : spec_float) : option spec_float :=
  if PyFloat.ne_int base_num 0
  then Some (PyFloat.mul
               (PyFloat.div (PyFloat.sub target_num base_num) (PyFloat.abs base_num))
               (PyFloat.of_Z 100))
  else None.

(** The float a decimal literal of the specification denotes. *)
Definition float_lit (s : string) : spec_float :=
  match PyNum.float_of_string s with
  | Ok f => f
  | Raise _ => S754_nan
  end.

(** Every character is white space ([s.isspace()], or [s] is empty). *)
Fixpoint all_space (s : string) : bool :=
  match s with
  | EmptyString => true
  | String c s' => PyStr.isspace c && all_space s'
  end.

(** No character is white space. *)
Fixpoint no_space (s : string) : bool :=
  match s with
  | EmptyString => true
  | String c s' => negb (PyStr.isspace c) && no_space s'
  end.


(** The last character of a string. *)
Fixpoint last_char (s : string) : option ascii :=
  match s with
  | EmptyString => None
  | String c EmptyString => Some c
  | String _ s' => last_char s'
  end.

(** The decimal numeral of a natural number, and the same with a comma
    before every group of three digits that is not the first. *)
Definition decimal (n : N) : string :=
  DecimalString.NilZero.string_of_uint (N.to_uint n).

Fixpoint with_commas (digits : string) : string :=
  match digits with
  | EmptyString => EmptyString
  | String c rest =>
      let r := String.length rest in
      if negb (Nat.eqb r 0) && Nat.eqb (r mod 3) 0
      then String c (String "," (with_commas rest))
      else String c (with_commas rest)
  end.



(** Every character is a decimal digit. *)
Fixpoint all_digits (s : string) : bool :=
  match s with
  | EmptyString => true
  | String c s' => PyStr.isdigit c && all_digits s'
  end.

(** The column names [_parse_html_table] reads off a table node. *)
Definition header_names (table : TableNode) : list string :=
  match table with
  | header_row :: _ => map (fun th => PyStr.strip (cell_text th)) header_row
  | [] => []
  end.

(** The test a data row passes to be kept: it has [td] cells, as many as
    the header row has cells. *)
Definition row_kept (hs : list string) (tr : TrNode) : bool :=
  negb (Nat.eqb (length (HtmlParser.find_all_td tr)) 0)
  && Nat.eqb (length (HtmlParser.find_all_td tr)) (length hs).

(** [row] is the dictionary built from the [td] cells of [tr]. *)
Definition row_of (hs : list string) (tr : TrNode) (row : Dict.t) : Prop :=
  HtmlParser.cells_loop hs (HtmlParser.find_all_td tr) [] = Ok row.

(** *** Same-engine alignment, as the specification words it *)

Section AlignmentSpec.
Variable float_repr : spec_float -> string.
Variable cfg : Config.

(** The target row a key is aligned with: the last target row, in the
    table's row order, whose stringified first value is the key. *)
Definition last_with_key (k : string) (target_rows : list Dict.t) : option Dict.t :=
  last (List.filter (fun r => String.eqb (_get_row_key float_repr r) k) target_rows).

(** A column of the baseline table gives an outcome for a pair of rows
    when it is classified numeric, present in both rows, and null in
    neither. *)
Definition comparable (base_row target_row : Dict.t) (h : string) : bool :=
  _is_numeric_column cfg h
  && Dict.mem h base_row && Dict.mem h target_row
  && negb (is_none (Dict.get h base_row))
  && negb (is_none (Dict.get h target_row)).

(** The metric-value pairs a pair of aligned rows hands to value diffing. *)
Definition row_pairs (hs : list string) (base_row target_row : Dict.t)
  : list (string * PyVal * PyVal) :=
  map (fun h => (h, Dict.get h base_row, Dict.get h target_row))
      (List.filter (comparable base_row target_row) hs).

(** The pairs of one baseline row: those with its aligned target row, none
    when no target row has its key. *)
Definition pairs_of_row (base_table target_table : TableData) (base_row : Dict.t)
  : list (string * PyVal * PyVal) :=
  match last_with_key (_get_row_key float_repr base_row) (rows target_table) with
  | Some target_row => row_pairs (headers base_table) base_row target_row
  | None => []
  end.

Definition aligned_pairs (base_table target_table : TableData)
  : list (string * PyVal * PyVal) :=
  flat_map (pairs_of_row base_table target_table) (rows base_table).

End AlignmentSpec.

(** Value diffing of one metric-value pair. *)
Definition diff_pair (thresholds : Thresholds) (p : string * PyVal * PyVal)
  : res ComparisonResult :=
  let '(h, b, t) := p in _compare_values h b t thresholds.

(** A table with other rows. *)
Definition with_rows (t : TableData) (rs : list Dict.t) : TableData :=
  {| name := name t; headers := headers t; rows := rs; metadata := metadata t |}.

(** *** Cross-engine comparison, as the specification words it *)

Section CrossSpec.
Variable cfg : Config.

(** A common column is compared when it is classified numeric and each
    side has a value that is not null in it. *)
Definition qualifying (base_table target_table : TableData) (h : string) : bool :=
  _is_numeric_column cfg h
  && negb (Nat.eqb (length (column_values h (rows base_table))) 0)
  && negb (Nat.eqb (length (column_values h (rows target_table))) 0).

(** The column names compared, in the order the loop visits them. *)
Definition cross_columns (base_table target_table : TableData) : list string :=
  List.filter (qualifying base_table target_table)
              (common_headers base_table target_table).

(** The outcome of one column: the two means, then value diffing. *)
Definition diff_means (thresholds : Thresholds) (base_table target_table : TableData)
    (h : string) : res ComparisonResult :=
  base_avg ← average (column_values h (rows base_table));
  target_avg ← average (column_values h (rows target_table));
  _compare_values h base_avg target_avg thresholds.

End CrossSpec.

(** A configuration with no thresholds, ignored columns or descriptions
    set: the engine then uses its defaults. *)
Definition empty_config : Config :=
  {| cfg_thresholds := ∅; cfg_ignored_columns := None; cfg_table_descriptions := ∅ |}.

(** A table of one column, one row per value. *)
Definition one_column (table : string) (column : string) (values : list PyVal)
  : TableData :=
  {| name := table; headers := [column];
     rows := map (fun v => [(column, v)]) values; metadata := [] |}.

(** The thresholds an empty configuration gives: the engine's defaults. *)
Definition default_thresholds : Thresholds :=
  {| warning_percent := None; critical_percent := None |}.

(** Two tables of an I/O statistics section; one baseline cell holds the
    text ["N/A"], which [_normalize_value] leaves a string. *)
Definition io_base : TableData :=
  {| name := "io_statistics"; headers := ["Name"; "Reads"]%string;
     rows := [[("Name"%string, VStr "data"); ("Reads"%string, VInt 10)];
              [("Name"%string, VStr "temp"); ("Reads"%string, VStr "N/A")]];
     metadata := [] |}.

Definition io_target : TableData :=
  {| name := "io_statistics"; headers := ["Name"; "Reads"]%string;
     rows := [[("Name"%string, VStr "data"); ("Reads"%string, VInt 12)];
              [("Name"%string, VStr "temp"); ("Reads"%string, VInt 14)]];
     metadata := [] |}.

(** *** Table selection, as the specification words it *)

Section SelectionSpec.
Variable float_repr : spec_float -> string.
Variable cfg : Config.

(** A model holds a table under the identifier, with at least one row. *)
Definition present (p : Parser) (table_name : string) : bool :=
  table_truthy (get_table p table_name).

(** The identifiers of a selection that both models hold: the tables
    compared. *)
Definition compared_tables (base_parser target_parser : Parser)
    (selected : list string) : list string :=
  List.filter (fun n => present base_parser n && present target_parser n) selected.

(** The outcomes of a table in a comparison mode. *)
Definition table_outcomes (comparison_type : ComparisonType) (thresholds : Thresholds)
    (base_table target_table : TableData) : res (list ComparisonResult) :=
  match comparison_type with
  | CROSS_PLATFORM => _compare_cross_platform cfg base_table target_table thresholds
  | _ => _compare_same_platform float_repr cfg base_table target_table thresholds
  end.

(** What one selected identifier contributes: the comparison of its two
    tables when both models hold it, nothing otherwise. *)
Definition table_step (base_parser target_parser : Parser) (thresholds : Thresholds)
    (comparison_type : ComparisonType) (table_name : string)
  : res (option TableComparison) :=
  match get_table base_parser table_name, get_table target_parser table_name with
  | Some base_table, Some target_table =>
      if TableData_truthy base_table && TableData_truthy target_table
      then _compare_tables float_repr cfg table_name base_table target_table
                           thresholds comparison_type
      else Ok None
  | _, _ => Ok None
  end.

(** The selection [compare_reports] loops over. *)
Definition selection (base_parser target_parser : Parser)
    (selected_tables : option (list string)) : list string :=
  match selected_tables with
  | None => _get_common_tables base_parser target_parser
  | Some l => l
  end.

End SelectionSpec.

(** Two parsed reports: the baseline holds a load profile and wait events,
    the target a load profile only. *)
Definition sample_metadata : ReportMetadata :=
  {| report_type := "oracle_awr"; version := "19c"; database_name := "PROD";
     instance_name := "PROD1"; start_time := None; end_time := None;
     duration_minutes := None |}.

Definition load_profile (per_second : Z) : TableData :=
  {| name := "load_profile"; headers := ["Metric"; "Per Second"]%string;
     rows := [[("Metric"%string, VStr "DB Time"); ("Per Second"%string, VInt per_second)]];
     metadata := [] |}.

Definition sample_base : Parser :=
  {| parser_metadata := Some sample_metadata;
     tables := {[ "load_profile"%string := load_profile 1000;
                  "wait_events"%string :=
                    one_column "wait_events" "Waits" [VInt 5] ]} |}.

Definition sample_target : Parser :=
  {| parser_metadata := Some sample_metadata;
     tables := {[ "load_profile"%string := load_profile 1300 ]} |}.

(** A [repr] for the samples, none of whose row keys is a float. *)
Definition sample_repr (f : spec_float) : string := "".

(** A markup table whose two header cells carry the same text, and one
    whose data row starts with a [th] cell. *)
Definition cell (tag : CellTag) (text : string) : Cell :=
  {| cell_tag := tag; cell_text := text |}.

Definition twin_header_table : TableNode :=
  [[cell TH "Waits"; cell TH "Waits"]; [cell TD "10"; cell TD "20"]].

Definition row_header_table : TableNode :=
  [[cell TH "Reads"; cell TH "Writes"];
   [cell TH "data"; cell TD "1"; cell TD "2"];
   [cell TD "temp"; cell TD "3"; cell TD "4"]].

(** All the outcomes of a list of table comparisons. *)
Definition all_outcomes (tcs : list TableComparison) : list ComparisonResult :=
  flat_map comparisons tcs.



(** Neither flag of the outcome is set. *)
Definition unflagged (o : ComparisonResult) : bool :=
  negb (is_warning o) && negb (is_critical o).


(** Both thresholds, with the engine's defaults for those not set, are
    positive. *)
Definition positive_thresholds (thr : Thresholds) : Prop :=
  0 < default 15 (warning_percent thr) /\ 0 < default 30 (critical_percent thr).
(** The value [_parse_html_table] stores for a cell; the normaliser raises
    on no string. *)
Definition cell_value (c : Cell) : PyVal :=
  match BaseReportParser._normalize_value (PyStr.strip (cell_text c)) with
  | Ok v => v
  | Raise _ => VNone
  end.

(** The last of the cells that stand under the column name [h]. *)
Definition last_cell_under (h : string) (hs : list string) (cells : list Cell)
  : option Cell :=
  snd <$> last (List.filter (fun p => String.eqb (fst p) h) (combine hs cells)).

(** The names of a list, each once, in the order of their first
    occurrences. *)
Fixpoint first_occurrences (hs : list string) : list string :=
  match hs with
  | [] => []
  | h :: hs' => h :: List.filter (fun x => negb (String.eqb x h)) (first_occurrences hs')
  end.

(** A row holds exactly the columns [hs], in their order, and a null in
    none of them. *)
Definition full_row (hs : list string) (row : Dict.t) : Prop :=
  Dict.keys row = hs /\ Forall (fun v => v <> VNone) (Dict.values row).

(** The [report_type] the parsers of a class write in their metadata. *)
Definition class_report_type (c : ParserClass) : string :=
  match c with
  | AWRParserClass => "oracle_awr"
  | PgProfileParserClass => "postgresql_pg_profile"
  end.

(** The table names the parsers of a class can store. *)
Definition class_table_names (c : ParserClass) : list string :=
  match c with
  | AWRParserClass => AWRParser.table_names
  | PgProfileParserClass => PgProfileParser.table_names
  end.

(** A library for the examples: every pattern is found, its group is the
    whole text, no date is read and a document has no element. *)
Definition sample_library : Library := {|
  re_search _ _ _ := true;
  re_group1 _ _ text := Some text;
  strptime _ _ := None;
  BeautifulSoup _ := []
|}.

(** What holds of the tables a parser has stored: each is stored under its
    own name, one of the names given, has a row, and every row maps only
    columns of the table. *)
Definition stored_tables_ok (names : list string) (p : Parser) : Prop :=
  forall k t, tables p !! k = Some t ->
    In k names /\ name t = k /\ rows t <> []
    /\ (forall row, In row (rows t) ->
          forall x, In x (Dict.keys row) -> In x (headers t)).

(** What an extractor returns: nothing, or a table of the name asked for
    whose rows map columns of the table. *)
Definition extracted_ok (n : string) (r : res (option TableData)) : Prop :=
  exists o, r = Ok o
            /\ forall t, o = Some t ->
                 name t = n
                 /\ forall row, In row (rows t) ->
                      forall x, In x (Dict.keys row) -> In x (headers t).

(** ** comparison/comparison_engine.py: [ComparisonResult.get_indicator]

    The arrows are written as the source writes them; a literal with
    characters beyond code point 255 stands for its UTF-8 bytes, and no
    operation modelled here looks inside such a literal. *)

Definition get_indicator (self : ComparisonResult) : string :=
  match absolute_change self with
  | None => "="
  | Some change =>
      match PyFloat.cmp_int change 0 with
      | Some Gt => "↑"
      | Some Lt => "↓"
      | _ => "="
      end
  end.

(** ** report_generator/report_generator.py *)

Module ReportGenerator.

Fixpoint zeros (n : nat) : string :=
  match n with
  | O => EmptyString
  | S n' => String "0" (zeros n')
  end.

(** [f"{x:.<digits>f}"]: the decimal numeral with [digits] digits after
    the point nearest to the float, ties to the even one; the sign is
    kept when the digits are all zero. *)
Definition format_fixed (digits : nat) (x : spec_float) : string :=
  let sign (s : bool) : string := if s then "-" else "" in
  let scale := 10 ^ Z.of_nat digits in
  let numeral (s : bool) (q : Z) : string :=
    let fraction := decimal (Z.to_N (q mod scale)) in
    sign s +:+ decimal (Z.to_N (q / scale)) +:+ "."
    +:+ zeros (digits - String.length fraction) +:+ fraction in
  match x with
  | S754_nan => "nan"
  | S754_infinity s => sign s +:+ "inf"
  | S754_zero s => sign s +:+ "0." +:+ zeros digits
  | S754_finite s m e =>
      if 0 <=? e then numeral s (Zpos m * 2 ^ e * scale)
      else
        let num := Zpos m * scale in
        let den := 2 ^ (- e) in
        let q := num / den in
        let r := num mod den in
        let q := if (den <? 2 * r) || ((2 * r =? den) && Z.odd q) then q + 1 else q in
        numeral s q
  end.

(** [f"{n:,}"] *)
Definition format_grouped (n : Z) : string :=
  (if n <? 0 then "-"%string else ""%string) +:+ with_commas (decimal (Z.abs_N n)).

(** The last branch prints [str(value)[:10]]; the values left for it are
    the texts, which [str] returns as they are. *)
Definition _format_value (value : PyVal) : string :=
  match value with
  | VNone => "N/A"
  | VFloat f => format_fixed 2 f
  | VInt n => format_grouped n
  | VStr s => PyText.take 10 s
  end.

(** The body of the inner loop of [_generate_csv_report]: the line of one
    outcome. *)
Definition csv_status (comp : ComparisonResult) : string :=
  if is_critical comp then "КРИТИЧЕСКОЕ"
  else if is_warning comp then "ПРЕДУПРЕЖДЕНИЕ"
  else "OK".

Definition csv_line (table_comp : TableComparison) (comp : ComparisonResult) : string :=
  let status := csv_status comp in
  let change :=
    match percent_change comp with
    | Some p => format_fixed 2 p
    | None => "N/A"%string
    end in
  let line := table_description table_comp +:+ "," +:+ metric_name comp +:+ "," in
  let line := line +:+ _format_value (base_value comp) +:+ ","
              +:+ _format_value (target_value comp) +:+ "," in
  let line := line +:+ change +:+ "," +:+ status in
  line.

Fixpoint csv_comparisons_loop (table_comp : TableComparison) (comps : list ComparisonResult)
    (lines : list string) : list string :=
  match comps with
  | [] => lines
  | comp :: comps' =>
      csv_comparisons_loop table_comp comps'
                           (lines ++ [csv_line table_comp comp])
  end.

Fixpoint csv_tables_loop (table_comparisons : list TableComparison) (lines : list string) : list string :=
  match table_comparisons with
  | [] => lines
  | table_comp :: rest =>
      csv_tables_loop rest
        (csv_comparisons_loop table_comp (comparisons table_comp) lines)
  end.

(** The lines of the report, and the report: the lines joined by line
    feeds. *)
Definition csv_lines (data : ReportComparison) : list string :=
  csv_tables_loop (rc_table_comparisons data)
    ["Таблица,Метрика,Базовый,Целевой,Изменение (%),Статус"%string].

Definition _generate_csv_report (data : ReportComparison) : string :=
  PyText.join (String PyText.newline EmptyString) (csv_lines data).

End ReportGenerator.

(** How often a character occurs in a string, and the number of fields a
    line has when read as comma-separated. *)
Fixpoint count_char (c : ascii) (s : string) : nat :=
  match s with
  | EmptyString => 0
  | String d s' => (if Ascii.eqb d c then 1 else 0) + count_char c s'
  end.

Definition csv_fields (line : string) : nat := length (PyText.split "," line).


(** The value is an integer written with four digits or more. *)
Definition four_digits (v : PyVal) : Prop :=
  match v with
  | VInt n => (4 <= String.length (decimal (Z.abs_N n)))%nat
  | _ => False
  end.

(** The text printed for a value holds no comma. *)
Definition prints_no_comma (v : PyVal) : Prop :=
  match v with
  | VInt n => (String.length (decimal (Z.abs_N n)) <= 3)%nat
  | VStr s => count_char "," (PyText.take 10 s) = 0%nat
  | _ => True
  end.

(** A lookup that has returned returns the same from the cache it left,
    whatever the files have become. *)
Definition stable
    (lookup : (string -> ConfigFiles.FileState) -> gmap string ConfigFiles.Yaml ->
              ConfigFiles.outcome ConfigFiles.Yaml * gmap string ConfigFiles.Yaml)
  : Prop :=
  forall files c y c',
    lookup files c = (ConfigFiles.Returns y, c') ->
    forall files', lookup files' c' = (ConfigFiles.Returns y, c').

(** Every cell a row holds under the column is null or an integer. *)
Definition integer_column (h : string) (rs : list Dict.t) : Prop :=
  Forall (fun row => match Dict.get h row with
                     | VNone | VInt _ => True
                     | _ => False
                     end) rs.

(** The integers of a list of values, summed from [acc]. *)
Fixpoint int_total (acc : Z) (vs : list PyVal) : Z :=
  match vs with
  | [] => acc
  | VInt n :: vs' => int_total (acc + n) vs'
  | _ :: vs' => int_total acc vs'
  end.

(** * Properties *)

(** ** Float comparisons against an [int] *)

Lemma ge_int_nan_free (x : spec_float) (n : Z) :
  PyFloat.is_nan x = false ->
  PyFloat.int_gt n x = negb (PyFloat.ge_int x n).
Proof.
  intros Hnan. unfold PyFloat.int_gt, PyFloat.ge_int.
  destruct (PyFloat.cmp_int x n) as [[]|] eqn:E; try reflexivity.
  destruct x; try discriminate E. discriminate Hnan.
Qed.

Lemma ge_int_nan (x : spec_float) (n : Z) :
  PyFloat.is_nan x = true -> PyFloat.ge_int x n = false /\ PyFloat.int_gt n x = false.
Proof. destruct x; simpl; try discriminate; intros _; split; reflexivity. Qed.

(** [n > x >= w] is how the [elif] branch reads: not [x >= n], and [x >= w]. *)
Lemma warning_band (x : spec_float) (w c : Z) :
  negb (PyFloat.ge_int x c) && PyFloat.ge_int x w
  = PyFloat.int_gt c x && PyFloat.ge_int x w.
Proof.
  destruct (PyFloat.is_nan x) eqn:Hnan.
  - destruct (ge_int_nan x w Hnan) as [-> _].
    rewrite !andb_false_r. reflexivity.
  - rewrite (ge_int_nan_free x c Hnan). reflexivity.
Qed.

(** ** Value diffing *)

Lemma _compare_values_numbers name bv tv thr b t :
  py_float bv = Ok b -> py_float tv = Ok t ->
  _compare_values name bv tv thr =
    Ok {| metric_name := name; base_value := bv; target_value := tv;
          absolute_change := Some (PyFloat.sub t b);
          percent_change := percent_of b t;
          is_warning := fst (flags_of (percent_of b t) thr);
          is_critical := snd (flags_of (percent_of b t) thr) |}.
Proof.
  intros Hb Ht. unfold _compare_values. rewrite Hb, Ht. simpl.
  unfold percent_of, flags_of.
  destruct (PyFloat.ne_int b 0); simpl; [|reflexivity].
  destruct (PyFloat.ge_int _ _); [reflexivity|].
  destruct (PyFloat.ge_int _ _); reflexivity.
Qed.

Lemma _compare_values_not_number name bv tv thr :
  (py_float bv = Raise ValueError \/ py_float bv = Raise TypeError
   \/ (is_ok (py_float bv) = true
       /\ (py_float tv = Raise ValueError \/ py_float tv = Raise TypeError))) ->
  _compare_values name bv tv thr = Ok (not_quantifiable name bv tv).
Proof.
  unfold _compare_values.
  intros [H|[H|[Hok [H|H]]]]; try (rewrite H; reflexivity);
    destruct (py_float bv) as [b|e]; try discriminate; rewrite H; reflexivity.
Qed.

Lemma _compare_values_overflow name bv tv thr :
  (py_float bv = Raise OverflowError
   \/ (is_ok (py_float bv) = true /\ py_float tv = Raise OverflowError)) ->
  _compare_values name bv tv thr = Raise OverflowError.
Proof.
  unfold _compare_values.
  intros [H|[Hok H]]; [rewrite H; reflexivity|].
  destruct (py_float bv) as [b|e]; try discriminate; rewrite H; reflexivity.
Qed.

(** Whatever the pair, the flags of an outcome are the classification of
    its percent change. *)
Lemma _compare_values_flags name bv tv thr r :
  _compare_values name bv tv thr = Ok r ->
  is_warning r = fst (flags_of (percent_change r) thr)
  /\ is_critical r = snd (flags_of (percent_change r) thr).
Proof.
  intros H.
  destruct (py_float bv) as [b|eb] eqn:Hb.
  - destruct (py_float tv) as [t|et] eqn:Ht.
    + rewrite (_compare_values_numbers name bv tv thr b t Hb Ht) in H.
      injection H as <-. simpl. split; reflexivity.
    + unfold _compare_values in H. rewrite Hb, Ht in H. simpl in H.
      destruct et; try discriminate H; injection H as <-; split; reflexivity.
  - unfold _compare_values in H. rewrite Hb in H. simpl in H.
    destruct eb; try discriminate H; injection H as <-; split; reflexivity.
Qed.

(** C1 (the code at the failing input): a cell that holds a 1 followed by
    400 zeros is normalised to the integer 10^400, and value diffing of an
    integer too large for a float raises [OverflowError], whatever the
    other value and the thresholds are; the [except (ValueError, TypeError)]
    clause lets it through, so no outcome with null changes is produced. *)
Theorem compare_values_huge_integer_raises :
  BaseReportParser._normalize_value (decimal (10 ^ 400)) = Ok (VInt (10 ^ 400))
  /\ (forall (name : string) (tv : PyVal) (thr : Thresholds),
        _compare_values name (VInt (10 ^ 400)) tv thr = Raise OverflowError)
  /\ (forall (name : string) (thr : Thresholds),
        _compare_values name (VInt 1) (VInt (10 ^ 400)) thr = Raise OverflowError).
Proof.
  split; [vm_compute; reflexivity|]. split.
  - intros name tv thr. apply _compare_values_overflow. left.
    vm_compute. reflexivity.
  - intros name thr. apply _compare_values_overflow. right.
    split; vm_compute; reflexivity.
Qed.

(** C2: for an outcome with a percent change [p] under thresholds [W] and
    [C], [is_critical] is [|p| >= C], [is_warning] is [C > |p| >= W], the two
    flags are never both set; and with [W = 15], [C = 30] a percent change
    of magnitude 30 is critical, one of 29.999 is a warning only, one of
    14.999 is neither. *)
Theorem classification_by_thresholds (name : string) (bv tv : PyVal)
    (W C : Z) (r : ComparisonResult) (p : spec_float) :
  _compare_values name bv tv
    {| warning_percent := Some W; critical_percent := Some C |} = Ok r ->
  percent_change r = Some p ->
  is_critical r = PyFloat.ge_int (PyFloat.abs p) C
  /\ is_warning r = PyFloat.int_gt C (PyFloat.abs p) && PyFloat.ge_int (PyFloat.abs p) W
  /\ is_warning r && is_critical r = false
  /\ (W = 15 -> C = 30 ->
      (PyFloat.abs p = float_lit "30" ->
         is_critical r = true /\ is_warning r = false)
      /\ (PyFloat.abs p = float_lit "29.999" ->
         is_warning r = true /\ is_critical r = false)
      /\ (PyFloat.abs p = float_lit "14.999" ->
         is_warning r = false /\ is_critical r = false)).
Proof.
  intros H Hp.
  destruct (_compare_values_flags _ _ _ _ _ H) as [Hw Hc].
  rewrite Hp in Hw, Hc. simpl in Hw, Hc.
  assert (Hc' : is_critical r = PyFloat.ge_int (PyFloat.abs p) C).
  { rewrite Hc. destruct (PyFloat.ge_int _ C); [reflexivity|].
    destruct (PyFloat.ge_int _ W); reflexivity. }
  assert (Hw' : is_warning r
                = negb (PyFloat.ge_int (PyFloat.abs p) C)
                  && PyFloat.ge_int (PyFloat.abs p) W).
  { rewrite Hw. destruct (PyFloat.ge_int _ C); [reflexivity|].
    destruct (PyFloat.ge_int _ W); reflexivity. }
  split; [exact Hc'|]. split; [rewrite Hw'; apply warning_band|].
  split.
  { rewrite Hw', Hc'.
    destruct (PyFloat.ge_int _ C), (PyFloat.ge_int _ W); reflexivity. }
  intros -> ->. rewrite Hw', Hc'.
  split; [|split]; intros Habs; rewrite Habs; vm_compute; split; reflexivity.
Qed.

Lemma classification_by_thresholds_witness :
  exists r p,
    _compare_values "Per Second" (VInt 1000) (VInt 1300)
      {| warning_percent := Some 15; critical_percent := Some 30 |} = Ok r
    /\ percent_change r = Some p
    /\ PyFloat.abs p = float_lit "30"
    /\ is_critical r = true /\ is_warning r = false.
Proof.
  eexists. eexists.
  split; [vm_compute; reflexivity|].
  split; [reflexivity|].
  split; [vm_compute; reflexivity|].
  refine (proj1 (proj2 (proj2 (proj2
    (classification_by_thresholds "Per Second" (VInt 1000) (VInt 1300) 15 30
       _ _ _ _))) eq_refl eq_refl) _);
    vm_compute; reflexivity.
Defined.

(** The three magnitudes of C2 are reached by value diffing itself. *)
Example percent_30_critical :
  exists r, _compare_values "m" (VInt 1000) (VInt 1300)
              {| warning_percent := Some 15; critical_percent := Some 30 |} = Ok r
            /\ option_map PyFloat.abs (percent_change r) = Some (float_lit "30")
            /\ is_critical r = true /\ is_warning r = false.
Proof. eexists. repeat split; vm_compute; reflexivity. Qed.

Example percent_29_999_warning :
  exists r, _compare_values "m" (VInt 100000) (VInt 129999)
              {| warning_percent := Some 15; critical_percent := Some 30 |} = Ok r
            /\ option_map PyFloat.abs (percent_change r) = Some (float_lit "29.999")
            /\ is_critical r = false /\ is_warning r = true.
Proof. eexists. repeat split; vm_compute; reflexivity. Qed.

Example percent_14_999_neither :
  exists r, _compare_values "m" (VInt 100000) (VInt 114999)
              {| warning_percent := Some 15; critical_percent := Some 30 |} = Ok r
            /\ option_map PyFloat.abs (percent_change r) = Some (float_lit "14.999")
            /\ is_critical r = false /\ is_warning r = false.
Proof. eexists. repeat split; vm_compute; reflexivity. Qed.

(** ** Strings *)

Section StringFacts.
Import PyStr.

Lemma append_cons (c : ascii) (a b : string) :
  String c a +:+ b = String c (a +:+ b).
Proof. reflexivity. Qed.










Lemma last_char_cons (x : ascii) (s : string) (c : ascii) :
  last_char s = Some c -> last_char (String x s) = Some c.
Proof. intros H. simpl. destruct s; [discriminate H|exact H]. Qed.

Lemma all_space_lstrip (s : string) : all_space s = true -> lstrip s = "".
Proof.
  induction s as [|c s IH]; simpl; [reflexivity|].
  intros [Hc Hs]%andb_prop. rewrite Hc. apply IH, Hs.
Qed.

Lemma all_space_strip (s : string) : all_space s = true -> strip s = "".
Proof. intros H. unfold strip. rewrite (all_space_lstrip s H). reflexivity. Qed.



End StringFacts.

(** ** The number scanners *)

Section ScannerFacts.
Import PyStr PyNum.













(** The two builtins raise nothing but [ValueError]. *)
Lemma int_of_string_raises (s : string) (e : exn) :
  int_of_string s = Raise e -> e = ValueError.
Proof.
  unfold int_of_string. destruct (i_phase _); intros H;
    first [discriminate H | injection H as <-; reflexivity].
Qed.

Lemma float_of_string_raises (s : string) (e : exn) :
  float_of_string s = Raise e -> e = ValueError.
Proof.
  unfold float_of_string. destruct (special s); [discriminate|].
  destruct (faccepts _); intros H;
    first [discriminate H | injection H as <-; reflexivity].
Qed.

End ScannerFacts.

(** ** Decimal numerals *)

Section DecimalFacts.
Import PyStr PyNum.




Lemma all_digits_uint (d : Decimal.uint) :
  all_digits (DecimalString.NilEmpty.string_of_uint d) = true.
Proof. induction d; simpl; try reflexivity; exact IHd. Qed.

Lemma all_digits_decimal (n : N) : all_digits (decimal n) = true.
Proof.
  unfold decimal, DecimalString.NilZero.string_of_uint.
  destruct (N.to_uint n) eqn:E; try reflexivity;
    rewrite <- E; apply all_digits_uint.
Qed.


Lemma isdigit_not_comma (c : ascii) : isdigit c = true -> Ascii.eqb c "," = false.
Proof.
  intros H. destruct (Ascii.eqb c ",") eqn:E; [|reflexivity].
  apply Ascii.eqb_eq in E. subst c. discriminate H.
Qed.







End DecimalFacts.

(** ** Value normalisation *)

Section NormalizeFacts.
Import PyStr PyNum BaseReportParser.

Lemma float_attempt (s : string) :
  (exists f, (f ← float_of_string s; mret (VFloat f)) = Ok (VFloat f))
  \/ (f ← float_of_string s; mret (VFloat f)) = (Raise ValueError : res PyVal).
Proof.
  destruct (float_of_string s) as [f|e] eqn:E.
  - left. exists f. reflexivity.
  - right. rewrite (float_of_string_raises s e E). reflexivity.
Qed.

Lemma int_attempt (s : string) :
  (exists n, (n ← int_of_string s; mret (VInt n)) = Ok (VInt n))
  \/ (n ← int_of_string s; mret (VInt n)) = (Raise ValueError : res PyVal).
Proof.
  destruct (int_of_string s) as [n|e] eqn:E.
  - left. exists n. reflexivity.
  - right. rewrite (int_of_string_raises s e E). reflexivity.
Qed.

Lemma multipliers_convert :
  Forall (fun cm => PyFloat.of_int (snd cm) = Ok (PyFloat.of_Z (snd cm))) multipliers.
Proof. repeat constructor. Qed.

(** The suffix loop returns a float, or the string it was given. *)
Lemma suffix_loop_cases (ms : list (ascii * Z)) (value value_clean : string) :
  Forall (fun cm => PyFloat.of_int (snd cm) = Ok (PyFloat.of_Z (snd cm))) ms ->
  (exists f, suffix_loop ms value value_clean = Ok (VFloat f))
  \/ suffix_loop ms value value_clean = Ok (VStr value).
Proof.
  induction 1 as [|[c m] ms Hm Hms IH]; [right; reflexivity|].
  cbn [suffix_loop]. destruct (endswith c value_clean); [|exact IH].
  destruct (float_of_string (drop_last value_clean)) as [f|e] eqn:E.
  - left. exists (PyFloat.mul f (PyFloat.of_Z m)).
    unfold float_mul_int. simpl in Hm. rewrite Hm. reflexivity.
  - rewrite (float_of_string_raises _ e E). exact IH.
Qed.

Lemma blank_test (s : string) :
  is_empty s || is_empty (strip s) = is_empty (strip s).
Proof. destruct s; reflexivity. Qed.

(** The outcomes of [_normalize_value], by its four exits. *)
Lemma _normalize_value_cases (s : string) :
  (is_empty (strip s) = true /\ _normalize_value s = Ok VNone)
  \/ (is_empty (strip s) = false
      /\ ((exists n, _normalize_value s = Ok (VInt n))
          \/ (exists f, _normalize_value s = Ok (VFloat f))
          \/ _normalize_value s = Ok (VStr (strip s)))).
Proof.
  unfold _normalize_value. rewrite blank_test.
  destruct (is_empty (strip s)); [left; split; reflexivity|].
  right. split; [reflexivity|]. cbv zeta.
  assert (Hrest :
    (exists f, (if endswith "%" (strip s)
                then except_ValueError
                       (f ← float_of_string (remove_char "," (drop_last (strip s)));
                        mret (VFloat f))
                       (suffix_loop multipliers (strip s) (remove_char "," (strip s)))
                else suffix_loop multipliers (strip s) (remove_char "," (strip s)))
               = Ok (VFloat f))
    \/ (if endswith "%" (strip s)
        then except_ValueError
               (f ← float_of_string (remove_char "," (drop_last (strip s)));
                mret (VFloat f))
               (suffix_loop multipliers (strip s) (remove_char "," (strip s)))
        else suffix_loop multipliers (strip s) (remove_char "," (strip s)))
       = Ok (VStr (strip s))).
  { pose proof (suffix_loop_cases multipliers (strip s) (remove_char "," (strip s))
                  multipliers_convert) as Hloop.
    destruct (endswith "%" (strip s)); [|exact Hloop].
    destruct (float_attempt (remove_char "," (drop_last (strip s)))) as [[f ->]| ->].
    - left. exists f. reflexivity.
    - exact Hloop. }
  destruct (contains "." (remove_char "," (strip s))).
  - destruct (float_attempt (remove_char "," (strip s))) as [[f ->]| ->].
    + right. left. exists f. reflexivity.
    + right. exact Hrest.
  - destruct (int_attempt (remove_char "," (strip s))) as [[n ->]| ->].
    + left. exists n. reflexivity.
    + right. exact Hrest.
Qed.







End NormalizeFacts.

Section NormalizeSpec.
Import PyStr PyNum BaseReportParser.

Lemma lstrip_empty_all_space (s : string) : lstrip s = "" -> all_space s = true.
Proof.
  induction s as [|c s IH]; [reflexivity|].
  simpl. destruct (isspace c); [exact IH|discriminate].
Qed.

Lemma strip_empty_all_space (s : string) :
  is_empty (strip s) = true <-> all_space s = true.
Proof.
  split.
  - unfold strip. intros H. apply lstrip_empty_all_space.
    destruct (lstrip s) as [|c r] eqn:E; [reflexivity|].
    exfalso. simpl in H.
    assert (isspace c = false) as Hc.
    { clear H. induction s as [|x s IH]; [discriminate E|].
      simpl in E. destruct (isspace x) eqn:Hx; [exact (IH E)|].
      injection E as -> _. exact Hx. }
    rewrite Hc in H. discriminate H.
  - intros H. rewrite (all_space_strip s H). reflexivity.
Qed.

Lemma _normalize_value_not_blank (s : string) :
  all_space s = false ->
  (exists n, _normalize_value s = Ok (VInt n))
  \/ (exists f, _normalize_value s = Ok (VFloat f))
  \/ _normalize_value s = Ok (VStr (strip s)).
Proof.
  intros H.
  destruct (_normalize_value_cases s) as [[E _]|[_ Hrest]]; [|exact Hrest].
  apply strip_empty_all_space in E. congruence.
Qed.


End NormalizeSpec.

(** ** Markup tables *)

Section HtmlFacts.
Import HtmlParser.

Lemma _normalize_value_ok (s : string) :
  exists v, BaseReportParser._normalize_value s = Ok v.
Proof.
  destruct (_normalize_value_cases s) as [[_ H]|[_ [[n H]|[[f H]|H]]]];
    rewrite H; eexists; reflexivity.
Qed.

Lemma Dict_keys_set (k : string) (v : PyVal) (d : Dict.t) (x : string) :
  In x (Dict.keys (Dict.set k v d)) <-> x = k \/ In x (Dict.keys d).
Proof.
  induction d as [|[k' v'] d IH]; simpl.
  - split; [intros [<-|[]]; left; reflexivity|intros [->|[]]; left; reflexivity].
  - destruct (String.eqb k' k) eqn:E; simpl.
    + apply String.eqb_eq in E. subst k'. intuition congruence.
    + rewrite IH. intuition congruence.
Qed.

(** With as many cells as headers the loop stores one value per header, and
    raises nothing. *)
Lemma cells_loop_keys (hs : list string) (cells : list Cell) (acc : Dict.t) :
  length cells = length hs ->
  exists row, cells_loop hs cells acc = Ok row
              /\ forall x, In x (Dict.keys row) <-> In x hs \/ In x (Dict.keys acc).
Proof.
  revert hs acc. induction cells as [|cell cells IH]; intros hs acc Hlen.
  - destruct hs; [|discriminate Hlen]. exists acc. split; [reflexivity|simpl; tauto].
  - destruct hs as [|h hs]; [discriminate Hlen|].
    injection Hlen as Hlen. cbn [cells_loop].
    destruct (_normalize_value_ok (PyStr.strip (cell_text cell))) as [v ->].
    cbn [mbind res_bind].
    destruct (IH hs (Dict.set h v acc) Hlen) as (row & Hrow & Hkeys).
    exists row. split; [exact Hrow|].
    intros x. rewrite Hkeys, Dict_keys_set. simpl. intuition congruence.
Qed.

Lemma data_rows_loop_spec (hs : list string) (trs : list TrNode) (acc : list Dict.t) :
  exists rows', data_rows_loop hs trs acc = Ok (acc ++ rows')
                /\ Forall2 (row_of hs) (List.filter (row_kept hs) trs) rows'.
Proof.
  revert acc. induction trs as [|tr trs IH]; intros acc.
  - exists []. split; [rewrite app_nil_r; reflexivity|constructor].
  - cbn [data_rows_loop List.filter]. fold (row_kept hs tr).
    destruct (row_kept hs tr) eqn:Hk.
    + assert (length (find_all_td tr) = length hs) as Hlen.
      { unfold row_kept in Hk. apply andb_prop in Hk as [_ Hk].
        apply Nat.eqb_eq, Hk. }
      destruct (cells_loop_keys hs (find_all_td tr) [] Hlen) as (row & Hrow & _).
      rewrite Hrow. cbn [mbind res_bind].
      destruct (IH (acc ++ [row])) as (rows' & Hloop & Hall).
      exists (row :: rows'). split.
      * rewrite Hloop, <- app_assoc. reflexivity.
      * constructor; [exact Hrow|exact Hall].
    + apply IH.
Qed.

Lemma rows_of_keys (hs : list string) (trs : list TrNode) (rs : list Dict.t) :
  Forall2 (row_of hs) trs rs ->
  (forall tr, In tr trs -> length (find_all_td tr) = length hs) ->
  forall row, In row rs -> forall x, In x (Dict.keys row) <-> In x hs.
Proof.
  induction 1 as [|tr row' trs rs Hof Hall IH]; intros Hlen row Hrow; [destruct Hrow|].
  destruct Hrow as [<-|Hrow].
  - destruct (cells_loop_keys hs (find_all_td tr) [] (Hlen tr (or_introl eq_refl)))
      as (r & Hr & Hkeys).
    unfold row_of in Hof. rewrite Hr in Hof. injection Hof as ->.
    intros x. rewrite Hkeys. simpl. tauto.
  - apply IH; [|exact Hrow]. intros tr' Hin'. apply Hlen. right. exact Hin'.
Qed.


End HtmlFacts.

(** ** Loops in the result monad *)

Section MonadFacts.
Context {A B : Type}.

Lemma bind_mret {C : Type} (m : res C) : (x ← m; mret x) = m.
Proof. destruct m; reflexivity. Qed.

Lemma mapM_cons_ok (f : A -> res B) (x : A) (l : list A) (y : B) :
  f x = Ok y -> mapM f (x :: l) = (k ← mapM f l; mret (y :: k)).
Proof. intros H. cbn [mapM]. rewrite H. reflexivity. Qed.

Lemma mapM_cons_raise (f : A -> res B) (x : A) (l : list A) (e : exn) :
  f x = Raise e -> mapM f (x :: l) = Raise e.
Proof. intros H. cbn [mapM]. rewrite H. reflexivity. Qed.

Lemma mapM_app_res (f : A -> res B) (l1 l2 : list A) :
  mapM f (l1 ++ l2) = (a ← mapM f l1; b ← mapM f l2; mret (a ++ b)).
Proof.
  induction l1 as [|x l1 IH].
  - cbn [app mapM mret res_ret mbind res_bind]. symmetry. apply bind_mret.
  - cbn [app]. destruct (f x) as [y|e] eqn:E.
    + rewrite !(mapM_cons_ok _ _ _ _ E), IH.
      destruct (mapM f l1) as [a|e]; [|reflexivity].
      cbn [mbind res_bind mret res_ret].
      destruct (mapM f l2); reflexivity.
    + rewrite !(mapM_cons_raise _ _ _ _ E). reflexivity.
Qed.


Lemma mapM_ok_inv (f : A -> res B) (l : list A) (outs : list B) :
  mapM f l = Ok outs -> Forall2 (fun x o => f x = Ok o) l outs.
Proof.
  revert outs. induction l as [|x l IH]; intros outs H.
  - injection H as <-. constructor.
  - cbn [mapM] in H. destruct (f x) as [y|e] eqn:E; [|discriminate H].
    cbn [mbind res_bind] in H.
    destruct (mapM f l) as [k|e]; [|discriminate H].
    injection H as <-. constructor; [exact E|apply IH; reflexivity].
Qed.

End MonadFacts.

(** ** Same-engine comparison *)

Section SamePlatformFacts.
Variable float_repr : spec_float -> string.
Variable cfg : Config.

Lemma Dict_get_mem (h : string) (row : Dict.t) :
  is_none (Dict.get h row) = false -> Dict.mem h row = true.
Proof.
  unfold Dict.get, Dict.mem. destruct (Dict.lookup h row); [reflexivity|discriminate].
Qed.

(** The two nested tests of the loop are the [comparable] test. *)
Lemma comparable_code (base_row target_row : Dict.t) (h : string) :
  comparable cfg base_row target_row h
  = Dict.mem h target_row && _is_numeric_column cfg h
    && (negb (is_none (Dict.get h base_row))
        && negb (is_none (Dict.get h target_row))).
Proof.
  unfold comparable.
  destruct (is_none (Dict.get h base_row)) eqn:Eb.
  - destruct (_is_numeric_column cfg h), (Dict.mem h base_row),
      (Dict.mem h target_row), (is_none (Dict.get h target_row)); reflexivity.
  - rewrite (Dict_get_mem h base_row Eb).
    destruct (_is_numeric_column cfg h), (Dict.mem h target_row),
      (is_none (Dict.get h target_row)); reflexivity.
Qed.

Lemma headers_loop_spec (hs : list string) (base_row target_row : Dict.t)
    (thr : Thresholds) (acc : list ComparisonResult) :
  headers_loop cfg hs base_row target_row thr acc
  = (l ← mapM (diff_pair thr) (row_pairs cfg hs base_row target_row);
     mret (acc ++ l)).
Proof.
  revert acc. induction hs as [|h hs IH]; intros acc.
  - cbn. rewrite app_nil_r. reflexivity.
  - cbn [headers_loop]. unfold row_pairs. cbn [List.filter].
    rewrite comparable_code.
    destruct (Dict.mem h target_row && _is_numeric_column cfg h).
    + destruct (negb (is_none (Dict.get h base_row))
                && negb (is_none (Dict.get h target_row))).
      * cbn [andb map].
        destruct (_compare_values h (Dict.get h base_row) (Dict.get h target_row) thr)
          as [c|e] eqn:E.
        -- rewrite (mapM_cons_ok (diff_pair thr)
                      (h, Dict.get h base_row, Dict.get h target_row) _ c E).
           cbn [mbind res_bind]. rewrite IH. unfold row_pairs.
           destruct (mapM _ _) as [k|e]; [|reflexivity].
           cbn [mbind res_bind mret res_ret]. rewrite <- app_assoc. reflexivity.
        -- rewrite (mapM_cons_raise (diff_pair thr)
                      (h, Dict.get h base_row, Dict.get h target_row) _ e E).
           reflexivity.
      * cbn [andb]. apply IH.
    + cbn [andb]. apply IH.
Qed.

Lemma row_pairs_empty_target (hs : list string) (base_row : Dict.t) :
  row_pairs cfg hs base_row [] = [].
Proof.
  unfold row_pairs. induction hs as [|h hs IH]; [reflexivity|].
  cbn [List.filter]. unfold comparable at 1. cbn [Dict.mem Dict.lookup].
  rewrite andb_false_r. cbn [andb]. exact IH.
Qed.

(** The index built from the target rows maps a key to the last row that
    has it. *)
Lemma row_index_snoc (rs : list Dict.t) (r : Dict.t) :
  row_index float_repr (rs ++ [r])
  = <[_get_row_key float_repr r := r]> (row_index float_repr rs).
Proof. unfold row_index. rewrite foldl_app. reflexivity. Qed.

Lemma row_index_lookup (rs : list Dict.t) (k : string) :
  row_index float_repr rs !! k = last_with_key float_repr k rs.
Proof.
  unfold last_with_key.
  induction rs as [|r rs IH] using rev_ind; [reflexivity|].
  rewrite row_index_snoc, List.filter_app. cbn [List.filter].
  destruct (String.eqb (_get_row_key float_repr r) k) eqn:E.
  - apply String.eqb_eq in E. rewrite E, lookup_insert_eq, last_snoc. reflexivity.
  - apply String.eqb_neq in E. rewrite lookup_insert_ne by exact E.
    rewrite app_nil_r. exact IH.
Qed.

Lemma rows_loop_spec (base_table target_table : TableData) (brs : list Dict.t)
    (thr : Thresholds) (acc : list ComparisonResult) :
  rows_loop float_repr cfg brs (headers base_table)
            (row_index float_repr (rows target_table)) thr acc
  = (l ← mapM (diff_pair thr)
              (flat_map (pairs_of_row float_repr cfg base_table target_table) brs);
     mret (acc ++ l)).
Proof.
  revert acc. induction brs as [|br brs IH]; intros acc.
  - cbn. rewrite app_nil_r. reflexivity.
  - cbn [rows_loop flat_map]. rewrite mapM_app_res.
    assert (pairs_of_row float_repr cfg base_table target_table br
            = match row_index float_repr (rows target_table)
                    !! _get_row_key float_repr br with
              | Some tr => row_pairs cfg (headers base_table) br tr
              | None => []
              end) as ->
      by (unfold pairs_of_row; rewrite row_index_lookup; reflexivity).
    destruct (row_index float_repr (rows target_table) !! _) as [tr|].
    + destruct tr as [|kv tr'].
      * cbn [Dict.truthy]. rewrite row_pairs_empty_target.
        cbn [mapM mbind res_bind mret res_ret]. rewrite IH.
        destruct (mapM _ _); reflexivity.
      * cbn [Dict.truthy]. rewrite headers_loop_spec.
        destruct (mapM (diff_pair thr) (row_pairs _ _ _ _)) as [l1|e]; [|reflexivity].
        cbn [mbind res_bind mret res_ret]. rewrite IH.
        destruct (mapM _ _) as [l2|e]; [|reflexivity].
        cbn [mbind res_bind mret res_ret]. rewrite app_assoc. reflexivity.
    + cbn [mapM mbind res_bind mret res_ret]. rewrite IH.
      destruct (mapM _ _); reflexivity.
Qed.

Lemma _compare_same_platform_spec (base_table target_table : TableData)
    (thr : Thresholds) :
  _compare_same_platform float_repr cfg base_table target_table thr
  = mapM (diff_pair thr) (aligned_pairs float_repr cfg base_table target_table).
Proof.
  unfold _compare_same_platform. rewrite rows_loop_spec.
  unfold aligned_pairs. cbn [app]. apply bind_mret.
Qed.

End SamePlatformFacts.

Section SamePlatformSpec.
Variable float_repr : spec_float -> string.
Variable cfg : Config.






Lemma row_pairs_In (hs : list string) (base_row target_row : Dict.t)
    (h : string) (b t : PyVal) :
  In (h, b, t) (row_pairs cfg hs base_row target_row)
  <-> In h hs /\ comparable cfg base_row target_row h = true
      /\ b = Dict.get h base_row /\ t = Dict.get h target_row.
Proof.
  unfold row_pairs. rewrite in_map_iff. split.
  - intros (h' & Heq & Hin). injection Heq as -> <- <-.
    apply filter_In in Hin as [Hin Hc]. repeat split; assumption.
  - intros (Hin & Hc & -> & ->). exists h. split; [reflexivity|].
    apply filter_In. split; assumption.
Qed.


(** End-to-end scenario 1 of the specification. *)
Example same_platform_scenario_1 :
  let row v := [("Metric"%string, VStr "DB Time"); ("Per Second"%string, VInt v)] in
  let table v := {| name := "load_profile"; headers := ["Metric"; "Per Second"]%string;
                    rows := [row v]; metadata := [] |} in
  cfg_ignored_columns cfg = None ->
  exists r,
    _compare_same_platform float_repr cfg (table 1000) (table 1300)
      {| warning_percent := Some 15; critical_percent := Some 30 |} = Ok [r]
    /\ metric_name r = "Per Second"%string
    /\ absolute_change r = Some (float_lit "300")
    /\ percent_change r = Some (float_lit "30.0")
    /\ is_critical r = true /\ is_warning r = false.
Proof.
  intros row table Hcfg. eexists.
  unfold _compare_same_platform. subst row table. cbn [rows headers rows_loop].
  unfold row_index, _get_row_key. cbn [foldl Dict.values map snd py_str].
  rewrite lookup_insert_eq. cbn [Dict.truthy headers_loop].
  unfold _is_numeric_column. rewrite Hcfg.
  split; [vm_compute; reflexivity|].
  repeat split; vm_compute; reflexivity.
Qed.


End SamePlatformSpec.

(** ** Cross-engine comparison *)

Section CrossPlatformFacts.
Variable cfg : Config.


Lemma common_headers_In (base_table target_table : TableData) (h : string) :
  In h (common_headers base_table target_table)
  <-> In h (headers base_table) /\ In h (headers target_table).
Proof.
  unfold common_headers.
  rewrite <- list_elem_of_In, elem_of_elements, elem_of_intersection,
    !elem_of_list_to_set, !list_elem_of_In.
  reflexivity.
Qed.

Lemma common_loop_spec (hs : list string) (base_table target_table : TableData)
    (thr : Thresholds) (acc : list ComparisonResult) :
  common_loop cfg hs base_table target_table thr acc
  = (l ← mapM (diff_means thr base_table target_table)
              (List.filter (qualifying cfg base_table target_table) hs);
     mret (acc ++ l)).
Proof.
  revert acc. induction hs as [|h hs IH]; intros acc.
  - cbn. rewrite app_nil_r. reflexivity.
  - cbn [common_loop List.filter]. unfold qualifying at 1.
    destruct (_is_numeric_column cfg h); [|cbn [andb]; apply IH].
    cbn [andb].
    destruct (negb _ && negb _); [|apply IH].
    assert (forall K : ComparisonResult -> res (list ComparisonResult),
              (base_avg ← average (column_values h (rows base_table));
               target_avg ← average (column_values h (rows target_table));
               comparison ← _compare_values h base_avg target_avg thr;
               K comparison)
              = (comparison ← diff_means thr base_table target_table h;
                 K comparison)) as Hstep.
    { intros K. unfold diff_means.
      destruct (average (column_values h (rows base_table))); [|reflexivity].
      destruct (average (column_values h (rows target_table))); reflexivity. }
    rewrite Hstep.
    destruct (diff_means thr base_table target_table h) as [c|e] eqn:E.
    + rewrite (mapM_cons_ok _ h _ c E). cbn [mbind res_bind].
      rewrite IH. destruct (mapM _ _) as [k|e]; [|reflexivity].
      cbn [mbind res_bind mret res_ret]. rewrite <- app_assoc. reflexivity.
    + rewrite (mapM_cons_raise _ h _ e E). reflexivity.
Qed.

Lemma _compare_cross_platform_spec (base_table target_table : TableData)
    (thr : Thresholds) :
  _compare_cross_platform cfg base_table target_table thr
  = mapM (diff_means thr base_table target_table)
         (cross_columns cfg base_table target_table).
Proof.
  unfold _compare_cross_platform. rewrite common_loop_spec.
  unfold cross_columns. cbn [app]. apply bind_mret.
Qed.


Lemma cross_columns_In (base_table target_table : TableData) (h : string) :
  In h (cross_columns cfg base_table target_table)
  <-> In h (headers base_table) /\ In h (headers target_table)
      /\ _is_numeric_column cfg h = true
      /\ column_values h (rows base_table) <> []
      /\ column_values h (rows target_table) <> [].
Proof.
  unfold cross_columns, qualifying.
  rewrite filter_In, common_headers_In, !andb_true_iff, !negb_true_iff,
    !Nat.eqb_neq, !length_zero_iff_nil.
  tauto.
Qed.


(** A mean that can be computed is a float. *)
Lemma average_float (vs : list PyVal) (v : PyVal) :
  average vs = Ok v -> exists f, v = VFloat f.
Proof.
  unfold average. destruct (py_sum vs) as [s|e]; [|discriminate].
  cbn [mbind res_bind]. unfold py_truediv_len.
  destruct s as [|a|f|s]; try discriminate.
  - destruct (PyFloat.int_truediv _ _) as [q|e]; [|discriminate].
    intros H. injection H as <-. eexists. reflexivity.
  - destruct (PyFloat.of_int _) as [g|e]; [|discriminate].
    intros H. injection H as <-. eexists. reflexivity.
Qed.

Lemma of_int_cases (n : Z) :
  PyFloat.of_int n = Ok (PyFloat.of_Z n) \/ PyFloat.of_int n = Raise OverflowError.
Proof. unfold PyFloat.of_int. destruct (PyFloat.is_infinite _); [right|left]; reflexivity. Qed.





End CrossPlatformFacts.

Section CrossPlatformSpec.





(** C6 (the code at the failing input): with a text cell in a numeric
    column the cross-engine comparison raises [TypeError] out of the
    averaging, where the same-engine comparison of the same tables records
    the pair as an outcome with null changes; and a text cell that [float]
    can read, such as "1e5", is compared as a number. *)
Theorem cross_platform_string_column_raises :
  BaseReportParser._normalize_value "N/A" = Ok (VStr "N/A")
  /\ _compare_cross_platform empty_config io_base io_target default_thresholds
     = Raise TypeError
  /\ (forall float_repr,
        exists o1 o2,
          _compare_same_platform float_repr empty_config io_base io_target
            default_thresholds = Ok [o1; o2]
          /\ o2 = not_quantifiable "Reads" (VStr "N/A") (VInt 14))
  /\ BaseReportParser._normalize_value "1e5" = Ok (VStr "1e5")
  /\ (exists o, _compare_values "Reads" (VStr "1e5") (VInt 100000) default_thresholds
                = Ok o
                /\ absolute_change o = Some (float_lit "0")).
Proof.
  split; [vm_compute; reflexivity|].
  split; [vm_compute; reflexivity|].
  split.
  { intros float_repr. eexists. eexists.
    unfold _compare_same_platform, io_base, io_target. cbn [rows headers rows_loop].
    unfold row_index, _get_row_key. cbn [foldl Dict.values map snd py_str].
    rewrite lookup_insert_ne by discriminate. rewrite lookup_insert_eq.
    rewrite lookup_insert_eq.
    split; [vm_compute; reflexivity|reflexivity]. }
  split; [vm_compute; reflexivity|].
  eexists. split; vm_compute; reflexivity.
Qed.

End CrossPlatformSpec.

(** ** Reports *)

Section ReportFacts.
Variable float_repr : spec_float -> string.
Variable cfg : Config.

Lemma _compare_tables_spec (n : string) (bt tt : TableData) (thr : Thresholds)
    (ct : ComparisonType) :
  _compare_tables float_repr cfg n bt tt thr ct
  = (cs ← table_outcomes float_repr cfg ct thr bt tt;
     mret (match cs with
           | [] => None
           | _ :: _ =>
               Some {| table_name := n;
                       table_description := ConfigLoader.get_table_description cfg n;
                       base_table := bt; target_table := tt; comparisons := cs |}
           end)).
Proof.
  unfold _compare_tables, table_outcomes. destruct ct.
  - destruct (_compare_same_platform float_repr cfg bt tt thr) as [[|c cs]|e];
      reflexivity.
  - destruct (_compare_same_platform float_repr cfg bt tt thr) as [[|c cs]|e];
      reflexivity.
  - destruct (_compare_cross_platform cfg bt tt thr) as [[|c cs]|e]; reflexivity.
Qed.

Lemma tables_loop_spec (sel : list string) (b t : Parser) (thr : Thresholds)
    (ct : ComparisonType) (acc : list TableComparison) :
  tables_loop float_repr cfg sel b t thr ct acc
  = (l ← mapM (table_step float_repr cfg b t thr ct) sel; mret (acc ++ omap id l)).
Proof.
  revert acc. induction sel as [|n sel IH]; intros acc.
  - cbn. rewrite app_nil_r. reflexivity.
  - cbn [tables_loop].
    assert (forall acc', tables_loop float_repr cfg sel b t thr ct acc'
              = (k ← mapM (table_step float_repr cfg b t thr ct) sel;
                 mret (acc' ++ omap id k))) as IH' by exact IH.
    assert (table_step float_repr cfg b t thr ct n = Ok None ->
            tables_loop float_repr cfg sel b t thr ct acc
            = (l ← mapM (table_step float_repr cfg b t thr ct) (n :: sel);
               mret (acc ++ omap id l))) as Hskip.
    { intros E. rewrite (mapM_cons_ok _ n _ None E), IH.
      destruct (mapM _ sel); reflexivity. }
    destruct (get_table b n) as [bt|] eqn:Eb;
      [|apply Hskip; unfold table_step; rewrite Eb; reflexivity].
    destruct (get_table t n) as [tt|] eqn:Et;
      [|apply Hskip; unfold table_step; rewrite Eb, Et; reflexivity].
    destruct (TableData_truthy bt && TableData_truthy tt) eqn:Etr;
      [|apply Hskip; unfold table_step; rewrite Eb, Et, Etr; reflexivity].
    assert (table_step float_repr cfg b t thr ct n
            = _compare_tables float_repr cfg n bt tt thr ct) as Hstep
      by (unfold table_step; rewrite Eb, Et, Etr; reflexivity).
    destruct (_compare_tables float_repr cfg n bt tt thr ct) as [[c|]|e] eqn:Ec.
    + cbn [mbind res_bind]. rewrite (mapM_cons_ok _ n _ (Some c) Hstep), IH.
      destruct (mapM _ sel) as [k|]; [|reflexivity].
      cbn. rewrite <- app_assoc. reflexivity.
    + cbn [mbind res_bind]. apply Hskip, Hstep.
    + cbn [mbind res_bind]. rewrite (mapM_cons_raise _ n _ e Hstep). reflexivity.
Qed.

Lemma table_outcomes_no_rows (ct : ComparisonType) (thr : Thresholds)
    (bt tt : TableData) :
  rows bt = [] \/ rows tt = [] ->
  table_outcomes float_repr cfg ct thr bt tt = Ok [].
Proof.
  intros H.
  assert (_compare_same_platform float_repr cfg bt tt thr = Ok []) as Hsame.
  { rewrite _compare_same_platform_spec. unfold aligned_pairs.
    destruct H as [H|H].
    - rewrite H. reflexivity.
    - assert (flat_map (pairs_of_row float_repr cfg bt tt) (rows bt) = []) as ->;
        [|reflexivity].
      induction (rows bt) as [|br brs IH]; [reflexivity|].
      cbn [flat_map]. rewrite IH. unfold pairs_of_row. rewrite H. reflexivity. }
  assert (_compare_cross_platform cfg bt tt thr = Ok []) as Hcross.
  { rewrite _compare_cross_platform_spec. unfold cross_columns.
    assert (List.filter (qualifying cfg bt tt) (common_headers bt tt) = []) as ->;
      [|reflexivity].
    induction (common_headers bt tt) as [|h hs IH]; [reflexivity|].
    cbn [List.filter]. unfold qualifying at 1.
    destruct H as [H|H]; rewrite H; cbn [column_values map List.filter length Nat.eqb negb];
      rewrite ?andb_false_r; exact IH. }
  destruct ct; assumption.
Qed.

Lemma TableData_truthy_false (t : TableData) :
  TableData_truthy t = false -> rows t = [].
Proof.
  unfold TableData_truthy, TableData_len. destruct (rows t); [reflexivity|discriminate].
Qed.

(** What a selected identifier contributes, read back from its result. *)
Lemma table_step_some (b t : Parser) (thr : Thresholds) (ct : ComparisonType)
    (n : string) (tc : TableComparison) :
  table_step float_repr cfg b t thr ct n = Ok (Some tc) ->
  table_name tc = n
  /\ get_table b n = Some (base_table tc)
  /\ get_table t n = Some (target_table tc)
  /\ table_outcomes float_repr cfg ct thr (base_table tc) (target_table tc)
     = Ok (comparisons tc)
  /\ comparisons tc <> [].
Proof.
  unfold table_step.
  destruct (get_table b n) as [bt|]; [|discriminate].
  destruct (get_table t n) as [tt|]; [|discriminate].
  destruct (_ && _); [|discriminate].
  rewrite _compare_tables_spec.
  destruct (table_outcomes float_repr cfg ct thr bt tt) as [[|c cs]|e] eqn:E;
    try discriminate.
  intros H. injection H as <-. cbn. repeat split; [exact E|discriminate].
Qed.

Lemma table_step_none (b t : Parser) (thr : Thresholds) (ct : ComparisonType)
    (n : string) (bt tt : TableData) :
  table_step float_repr cfg b t thr ct n = Ok None ->
  get_table b n = Some bt -> get_table t n = Some tt ->
  table_outcomes float_repr cfg ct thr bt tt = Ok [].
Proof.
  unfold table_step. intros H Hb Ht. rewrite Hb, Ht in H.
  destruct (TableData_truthy bt && TableData_truthy tt) eqn:Etr.
  - rewrite _compare_tables_spec in H.
    destruct (table_outcomes float_repr cfg ct thr bt tt) as [[|c cs]|e];
      [reflexivity|discriminate H|discriminate H].
  - apply table_outcomes_no_rows.
    apply andb_false_iff in Etr as [E|E]; [left|right];
      apply TableData_truthy_false, E.
Qed.

Lemma table_step_absent (b t : Parser) (thr : Thresholds) (ct : ComparisonType)
    (n : string) :
  present b n && present t n = false ->
  table_step float_repr cfg b t thr ct n = Ok None.
Proof.
  unfold present, table_step, table_truthy.
  destruct (get_table b n) as [bt|]; [|reflexivity].
  destruct (get_table t n) as [tt|]; [|reflexivity].
  intros ->. reflexivity.
Qed.

Lemma Forall2_In_r {X Y : Type} (P : X -> Y -> Prop) (xs : list X) (ys : list Y) (y : Y) :
  Forall2 P xs ys -> In y ys -> exists x, In x xs /\ P x y.
Proof.
  induction 1 as [|x y' xs ys Hxy Hrest IH]; intros Hin; [destruct Hin|].
  destruct Hin as [<-|Hin].
  - exists x. split; [left; reflexivity|exact Hxy].
  - destruct (IH Hin) as (x' & Hx' & HP). exists x'. split; [right; exact Hx'|exact HP].
Qed.

Lemma Forall2_In_l {X Y : Type} (P : X -> Y -> Prop) (xs : list X) (ys : list Y) (x : X) :
  Forall2 P xs ys -> In x xs -> exists y, In y ys /\ P x y.
Proof.
  induction 1 as [|x' y xs ys Hxy Hrest IH]; intros Hin; [destruct Hin|].
  destruct Hin as [<-|Hin].
  - exists y. split; [left; reflexivity|exact Hxy].
  - destruct (IH Hin) as (y' & Hy' & HP). exists y'. split; [right; exact Hy'|exact HP].
Qed.

Lemma In_omap_id {X : Type} (l : list (option X)) (x : X) :
  In x (omap id l) <-> In (Some x) l.
Proof.
  rewrite <- !list_elem_of_In, list_elem_of_omap. split.
  - intros (o & Ho & Hid). unfold id in Hid. subst o. exact Ho.
  - intros H. exists (Some x). split; [exact H|reflexivity].
Qed.

(** The result of a comparison call, read back through the loop. *)
Lemma compare_reports_inv (b t : Parser) (sel : option (list string))
    (r : ReportComparison) :
  compare_reports float_repr cfg b t sel = Ok r ->
  exists l,
    mapM (table_step float_repr cfg b t (rc_thresholds r) (rc_comparison_type r))
         (selection b t sel) = Ok l
    /\ rc_table_comparisons r = omap id l
    /\ rc_summary r = _generate_summary (rc_table_comparisons r).
Proof.
  unfold compare_reports.
  destruct (metadata_of b) as [mb|]; [|discriminate].
  destruct (metadata_of t) as [mt|]; [|discriminate].
  cbn [mbind res_bind]. rewrite tables_loop_spec.
  fold (selection b t sel).
  destruct (mapM _ (selection b t sel)) as [l|] eqn:El; [|discriminate].
  cbn [mbind res_bind mret res_ret app]. intros H. injection H as <-.
  cbn [rc_thresholds rc_comparison_type rc_table_comparisons rc_summary].
  exists l. repeat split. exact El.
Qed.

End ReportFacts.

Section ReportSpec.

(** C8: in the result of a comparison call the summary counts the
    TableDiffs present; a TableDiff is present exactly for the selected
    tables that produced at least one outcome: each one present holds the
    outcomes of a selected table of both models, at least one, and each
    selected table of both models with at least one outcome has its
    TableDiff; a table one model lacks, or one with no outcome, has none. *)
Theorem table_diffs_have_outcomes (float_repr : spec_float -> string) (cfg : Config)
    (b t : Parser) (sel : option (list string)) (r : ReportComparison) :
  compare_reports float_repr cfg b t sel = Ok r ->
  total_tables (rc_summary r) = length (rc_table_comparisons r)
  /\ Forall (fun tc => comparisons tc <> []) (rc_table_comparisons r)
  /\ (forall tc, In tc (rc_table_comparisons r) ->
        In (table_name tc) (selection b t sel)
        /\ get_table b (table_name tc) = Some (base_table tc)
        /\ get_table t (table_name tc) = Some (target_table tc)
        /\ table_outcomes float_repr cfg (rc_comparison_type r) (rc_thresholds r)
             (base_table tc) (target_table tc) = Ok (comparisons tc))
  /\ (forall n bt tt cs,
        In n (selection b t sel) ->
        get_table b n = Some bt -> get_table t n = Some tt ->
        table_outcomes float_repr cfg (rc_comparison_type r) (rc_thresholds r) bt tt
        = Ok cs ->
        cs <> [] ->
        exists tc, In tc (rc_table_comparisons r)
                   /\ table_name tc = n /\ base_table tc = bt /\ target_table tc = tt
                   /\ comparisons tc = cs)
  /\ (forall n, get_table b n = None \/ get_table t n = None ->
        forall tc, In tc (rc_table_comparisons r) -> table_name tc <> n)
  /\ (forall n bt tt,
        get_table b n = Some bt -> get_table t n = Some tt ->
        table_outcomes float_repr cfg (rc_comparison_type r) (rc_thresholds r) bt tt
        = Ok [] ->
        forall tc, In tc (rc_table_comparisons r) -> table_name tc <> n).
Proof.
  intros H.
  destruct (compare_reports_inv float_repr cfg b t sel r H) as (l & Hl & Htc & Hsum).
  apply mapM_ok_inv in Hl.
  assert (forall tc, In tc (rc_table_comparisons r) ->
            exists n, In n (selection b t sel)
                      /\ table_step float_repr cfg b t (rc_thresholds r)
                           (rc_comparison_type r) n = Ok (Some tc)) as Hback.
  { intros tc Hin. rewrite Htc in Hin. apply In_omap_id in Hin.
    apply (Forall2_In_r _ _ _ _ Hl Hin). }
  assert (forall tc, In tc (rc_table_comparisons r) ->
            In (table_name tc) (selection b t sel)
            /\ get_table b (table_name tc) = Some (base_table tc)
            /\ get_table t (table_name tc) = Some (target_table tc)
            /\ table_outcomes float_repr cfg (rc_comparison_type r) (rc_thresholds r)
                 (base_table tc) (target_table tc) = Ok (comparisons tc)
            /\ comparisons tc <> []) as Hin_spec.
  { intros tc Hin. destruct (Hback tc Hin) as (n & Hn & Hstep).
    destruct (table_step_some _ _ _ _ _ _ _ _ Hstep) as (<- & Hb & Ht & Ho & Hne).
    repeat split; assumption. }
  split; [rewrite Hsum; reflexivity|].
  split; [apply Forall_forall; intros tc Hin%list_elem_of_In; apply (Hin_spec tc Hin)|].
  split; [intros tc Hin; destruct (Hin_spec tc Hin) as (? & ? & ? & ? & _);
          repeat split; assumption|].
  split.
  { intros n bt tt cs Hn Hb Ht Ho Hne.
    destruct (Forall2_In_l _ _ _ _ Hl Hn) as ([tc|] & Hy & Hstep).
    - exists tc.
      destruct (table_step_some _ _ _ _ _ _ _ _ Hstep) as (Hname & Hb' & Ht' & Ho' & _).
      assert (base_table tc = bt) as Ebt by congruence.
      assert (target_table tc = tt) as Ett by congruence.
      assert (comparisons tc = cs) as Ecs by (rewrite Ebt, Ett in Ho'; congruence).
      rewrite Htc. split; [apply In_omap_id, Hy|]. repeat split; assumption.
    - rewrite (table_step_none _ _ _ _ _ _ _ _ _ Hstep Hb Ht) in Ho.
      injection Ho as <-. destruct (Hne eq_refl). }
  split.
  { intros n Habsent tc Hin Hname.
    destruct (Hin_spec tc Hin) as (_ & Hb & Ht & _). rewrite Hname in Hb, Ht.
    destruct Habsent as [E|E]; [rewrite E in Hb|rewrite E in Ht]; discriminate. }
  intros n bt tt Hb Ht Ho tc Hin Hname.
  destruct (Hin_spec tc Hin) as (_ & Hb' & Ht' & Ho' & Hne). rewrite Hname in Hb', Ht'.
  assert (base_table tc = bt) as Ebt by congruence.
  assert (target_table tc = tt) as Ett by congruence.
  rewrite Ebt, Ett in Ho'. apply Hne. congruence.
Qed.

(** End-to-end scenario 4: the wait events exist in the baseline only. *)
Lemma table_diffs_have_outcomes_witness :
  exists r,
    compare_reports sample_repr empty_config sample_base sample_target
      (Some ["load_profile"; "wait_events"]%string) = Ok r
    /\ total_tables (rc_summary r) = 1%nat
    /\ map table_name (rc_table_comparisons r) = ["load_profile"%string]
    /\ total_tables (rc_summary r) = length (rc_table_comparisons r).
Proof.
  eexists.
  split; [vm_compute; reflexivity|].
  split; [reflexivity|]. split; [reflexivity|].
  refine (proj1 (table_diffs_have_outcomes sample_repr empty_config sample_base
                   sample_target (Some ["load_profile"; "wait_events"]%string) _ _)).
  vm_compute. reflexivity.
Defined.

End ReportSpec.

Section SelectionFacts.
Variable float_repr : spec_float -> string.
Variable cfg : Config.

Lemma _get_common_tables_In (b t : Parser) (n : string) :
  In n (_get_common_tables b t)
  <-> is_Some (get_table b n) /\ is_Some (get_table t n).
Proof.
  unfold _get_common_tables, get_available_tables, get_table.
  rewrite <- list_elem_of_In, elem_of_elements, elem_of_intersection,
    !elem_of_list_to_set, !elem_of_elements, !elem_of_dom.
  reflexivity.
Qed.

Lemma _get_common_tables_NoDup (b t : Parser) : NoDup (_get_common_tables b t).
Proof. unfold _get_common_tables. apply NoDup_elements. Qed.

(** Leaving out the identifiers that contribute nothing changes nothing. *)
Lemma mapM_skip {X Y : Type} (f : X -> res (option Y)) (p : X -> bool)
    (xs : list X) (acc : list Y) :
  (forall x, p x = false -> f x = Ok None) ->
  (k ← mapM f xs; mret (acc ++ omap id k))
  = (k ← mapM f (List.filter p xs); mret (acc ++ omap id k)).
Proof.
  intros Hskip. revert acc. induction xs as [|x xs IH]; intros acc; [reflexivity|].
  cbn [List.filter]. destruct (p x) eqn:Ep.
  - destruct (f x) as [o|e] eqn:E.
    + rewrite !(mapM_cons_ok f x _ o E).
      specialize (IH (acc ++ omap id [o])).
      destruct (mapM f xs) as [k|e1]; destruct (mapM f (List.filter p xs)) as [k'|e2];
        cbn [mbind res_bind mret res_ret] in IH |- *;
        try discriminate IH; try exact IH; try reflexivity.
      * injection IH as IH. f_equal.
        change (o :: k) with ([o] ++ k). change (o :: k') with ([o] ++ k').
        rewrite !omap_app, !app_assoc. exact IH.
    + rewrite !(mapM_cons_raise f x _ e E). reflexivity.
  - rewrite (mapM_cons_ok f x _ None (Hskip x Ep)). rewrite <- IH.
    destruct (mapM f xs); reflexivity.
Qed.

Lemma compare_reports_selection (b t : Parser) (l l' : list string) :
  (forall thr ct,
     tables_loop float_repr cfg l b t thr ct []
     = tables_loop float_repr cfg l' b t thr ct []) ->
  compare_reports float_repr cfg b t (Some l)
  = compare_reports float_repr cfg b t (Some l').
Proof.
  intros H. unfold compare_reports.
  destruct (metadata_of b); [|reflexivity].
  destruct (metadata_of t); [|reflexivity].
  cbn [mbind res_bind]. rewrite H. reflexivity.
Qed.

Lemma tables_loop_compared (b t : Parser) (l : list string) (thr : Thresholds)
    (ct : ComparisonType) (acc : list TableComparison) :
  tables_loop float_repr cfg l b t thr ct acc
  = (k ← mapM (table_step float_repr cfg b t thr ct) (compared_tables b t l);
     mret (acc ++ omap id k)).
Proof.
  rewrite tables_loop_spec. unfold compared_tables. apply mapM_skip.
  intros n Hn. apply table_step_absent, Hn.
Qed.

Lemma compared_tables_idem (b t : Parser) (l : list string) :
  compared_tables b t (compared_tables b t l) = compared_tables b t l.
Proof.
  unfold compared_tables. induction l as [|n l IH]; [reflexivity|].
  cbn [List.filter]. destruct (present b n && present t n) eqn:E; [|exact IH].
  cbn [List.filter]. rewrite E, IH. reflexivity.
Qed.

End SelectionFacts.

Section SelectionSpecification.

(** C9 as stated fails: given an empty selection the call compares no
    table, though "load_profile" is present in both models; only an
    unspecified selection stands for the tables of both. *)
Lemma empty_selection_compares_nothing :
  _get_common_tables sample_base sample_target = ["load_profile"%string]
  /\ (exists r, compare_reports sample_repr empty_config sample_base sample_target
                  (Some []) = Ok r
                /\ rc_table_comparisons r = []
                /\ total_tables (rc_summary r) = 0%nat)
  /\ (exists r, compare_reports sample_repr empty_config sample_base sample_target
                  None = Ok r
                /\ map table_name (rc_table_comparisons r) = ["load_profile"%string]).
Proof.
  split; [vm_compute; reflexivity|].
  split; eexists; (split; [vm_compute; reflexivity|]); repeat split.
Qed.

(** C9 (amended): an unspecified selection stands for the identifiers
    present in both models, each once; a given selection, the empty one
    too, is used as it is: its identifiers are visited in order, those
    that both models hold with rows are compared, the others are skipped
    without error, and the empty list compares nothing. *)
Theorem table_selection (float_repr : spec_float -> string) (cfg : Config)
    (b t : Parser) :
  compare_reports float_repr cfg b t None
  = compare_reports float_repr cfg b t (Some (_get_common_tables b t))
  /\ NoDup (_get_common_tables b t)
  /\ (forall n, In n (_get_common_tables b t)
                <-> is_Some (get_table b n) /\ is_Some (get_table t n))
  /\ (forall l thr ct acc,
        tables_loop float_repr cfg l b t thr ct acc
        = (k ← mapM (table_step float_repr cfg b t thr ct) (compared_tables b t l);
           mret (acc ++ omap id k)))
  /\ (forall l n, In n (compared_tables b t l)
                  <-> In n l /\ present b n = true /\ present t n = true)
  /\ (forall l, compare_reports float_repr cfg b t (Some l)
                = compare_reports float_repr cfg b t (Some (compared_tables b t l)))
  /\ (forall n thr ct,
        present b n && present t n = false ->
        table_step float_repr cfg b t thr ct n = Ok None)
  /\ (forall n thr ct,
        present b n && present t n = true ->
        exists bt tt,
          get_table b n = Some bt /\ get_table t n = Some tt
          /\ table_step float_repr cfg b t thr ct n
             = _compare_tables float_repr cfg n bt tt thr ct)
  /\ (forall r, compare_reports float_repr cfg b t (Some []) = Ok r ->
                rc_table_comparisons r = []
                /\ total_tables (rc_summary r) = 0%nat)
  /\ (is_Some (parser_metadata b) -> is_Some (parser_metadata t) ->
      exists r, compare_reports float_repr cfg b t (Some []) = Ok r).
Proof.
  split; [reflexivity|].
  split; [apply _get_common_tables_NoDup|].
  split; [apply _get_common_tables_In|].
  split; [intros l thr ct acc; apply tables_loop_compared|].
  split.
  { intros l n. unfold compared_tables. rewrite filter_In, andb_true_iff. reflexivity. }
  split.
  { intros l. apply compare_reports_selection. intros thr ct.
    rewrite (tables_loop_compared float_repr cfg b t l),
      (tables_loop_compared float_repr cfg b t (compared_tables b t l)),
      compared_tables_idem.
    reflexivity. }
  split; [intros n thr ct; apply table_step_absent|].
  split.
  { intros n thr ct Hp. unfold present, table_truthy in Hp. unfold table_step.
    destruct (get_table b n) as [bt|]; [|discriminate Hp].
    destruct (get_table t n) as [tt|];
      [|rewrite andb_false_r in Hp; discriminate Hp].
    exists bt, tt. rewrite Hp. repeat split. }
  split.
  { intros r H. unfold compare_reports in H.
    destruct (metadata_of b); [|discriminate H].
    destruct (metadata_of t); [|discriminate H].
    cbn in H. injection H as <-. split; reflexivity. }
  intros [mb Hb] [mt Ht]. unfold compare_reports, metadata_of.
  rewrite Hb, Ht. cbn. eexists. reflexivity.
Qed.

End SelectionSpecification.

(** ** Further properties of the engine *)

Section Further.

Lemma py_float_raises (v : PyVal) (e : exn) :
  py_float v = Raise e -> e = ValueError \/ e = TypeError \/ e = OverflowError.
Proof.
  destruct v as [|n|f|s]; simpl.
  - intros H. injection H as <-. right. left. reflexivity.
  - unfold PyFloat.of_int. destruct (PyFloat.is_infinite _); [|discriminate].
    intros H. injection H as <-. right. right. reflexivity.
  - discriminate.
  - intros H. left. apply (float_of_string_raises s e H).
Qed.

(** Value diffing has three exits: the outcome of two numbers, the outcome
    with null changes for a pair that is not one, and [OverflowError] for
    an integer out of float range met before any other failure. *)
Theorem value_diffing_cases (name : string) (bv tv : PyVal) (thr : Thresholds) :
  (exists b t,
     py_float bv = Ok b /\ py_float tv = Ok t
     /\ _compare_values name bv tv thr
        = Ok {| metric_name := name; base_value := bv; target_value := tv;
                absolute_change := Some (PyFloat.sub t b);
                percent_change := percent_of b t;
                is_warning := fst (flags_of (percent_of b t) thr);
                is_critical := snd (flags_of (percent_of b t) thr) |})
  \/ ((py_float bv = Raise ValueError \/ py_float bv = Raise TypeError
       \/ (is_ok (py_float bv) = true
           /\ (py_float tv = Raise ValueError \/ py_float tv = Raise TypeError)))
      /\ _compare_values name bv tv thr = Ok (not_quantifiable name bv tv))
  \/ ((py_float bv = Raise OverflowError
       \/ (is_ok (py_float bv) = true /\ py_float tv = Raise OverflowError))
      /\ _compare_values name bv tv thr = Raise OverflowError).
Proof.
  destruct (py_float bv) as [b|eb] eqn:Hb.
  - destruct (py_float tv) as [t|et] eqn:Ht.
    + left. exists b, t. split; [reflexivity|]. split; [reflexivity|].
      apply _compare_values_numbers; assumption.
    + destruct (py_float_raises tv et Ht) as [->|[->| ->]].
      * right. left. split; [right; right; split; [reflexivity|left; reflexivity]|].
        apply _compare_values_not_number. right. right. rewrite Hb, Ht.
        split; [reflexivity|left; reflexivity].
      * right. left. split; [right; right; split; [reflexivity|right; reflexivity]|].
        apply _compare_values_not_number. right. right. rewrite Hb, Ht.
        split; [reflexivity|right; reflexivity].
      * right. right. split; [right; split; reflexivity|].
        apply _compare_values_overflow. right. rewrite Hb, Ht. split; reflexivity.
  - destruct (py_float_raises bv eb Hb) as [->|[->| ->]].
    + right. left. split; [left; reflexivity|].
      apply _compare_values_not_number. left. exact Hb.
    + right. left. split; [right; left; reflexivity|].
      apply _compare_values_not_number. right. left. exact Hb.
    + right. right. split; [left; reflexivity|].
      apply _compare_values_overflow. left. exact Hb.
Qed.

(** For two numbers the percent change is null exactly when the baseline
    is zero, whatever the target is, and then neither flag is set. *)
Theorem percent_change_null_at_zero (name : string) (bv tv : PyVal)
    (thr : Thresholds) (b t : spec_float) :
  py_float bv = Ok b -> py_float tv = Ok t ->
  exists r,
    _compare_values name bv tv thr = Ok r
    /\ absolute_change r = Some (PyFloat.sub t b)
    /\ (percent_change r = None <-> PyFloat.cmp_int b 0 = Some Eq)
    /\ (percent_change r = None -> is_warning r = false /\ is_critical r = false).
Proof.
  intros Hb Ht. eexists.
  split; [apply (_compare_values_numbers name bv tv thr b t Hb Ht)|].
  cbn [absolute_change percent_change is_warning is_critical].
  split; [reflexivity|]. split.
  - unfold percent_of, PyFloat.ne_int.
    destruct (PyFloat.cmp_int b 0) as [[]|]; split; try discriminate; reflexivity.
  - intros ->. split; reflexivity.
Qed.

Lemma percent_change_null_at_zero_witness :
  exists r,
    _compare_values "Waits" (VInt 0) (VInt 5) default_thresholds = Ok r
    /\ absolute_change r = Some (float_lit "5")
    /\ percent_change r = None.
Proof.
  destruct (percent_change_null_at_zero "Waits" (VInt 0) (VInt 5) default_thresholds
              (float_lit "0") (float_lit "5")) as (r & Hr & Ha & Hp & _).
  - vm_compute. reflexivity.
  - vm_compute. reflexivity.
  - exists r. split; [exact Hr|]. split; [exact Ha|]. apply Hp. reflexivity.
Defined.

Lemma sum_nat_from (l : list nat) (acc : nat) :
  foldl Nat.add acc l = (acc + foldl Nat.add 0 l)%nat.
Proof.
  revert acc. induction l as [|x l IH]; intros acc; cbn [foldl].
  - rewrite Nat.add_0_r. reflexivity.
  - rewrite (IH (acc + x)%nat), (IH (0 + x)%nat). lia.
Qed.

Lemma sum_nat_cons (x : nat) (l : list nat) :
  sum_nat (x :: l) = (x + sum_nat l)%nat.
Proof. unfold sum_nat. cbn [foldl]. rewrite sum_nat_from. reflexivity. Qed.

Lemma sum_nat_lengths {X : Type} (f : TableComparison -> list X)
    (tcs : list TableComparison) :
  sum_nat (map (fun tc => length (f tc)) tcs) = length (flat_map f tcs).
Proof.
  induction tcs as [|tc tcs IH]; [reflexivity|].
  cbn [map flat_map]. rewrite sum_nat_cons, IH, length_app. reflexivity.
Qed.

Lemma flat_map_filter {X Y : Type} (f : X -> list Y) (p : Y -> bool) (l : list X) :
  flat_map (fun x => List.filter p (f x)) l = List.filter p (flat_map f l).
Proof.
  induction l as [|x l IH]; [reflexivity|].
  cbn [flat_map]. rewrite List.filter_app, IH. reflexivity.
Qed.

(** The summary counts the TableDiffs, their outcomes, the critical ones
    and the warnings that are not critical; an outcome is counted at most
    once as an issue. *)
Theorem summary_counts (tcs : list TableComparison) :
  let s := _generate_summary tcs in
  total_tables s = length tcs
  /\ total_comparisons s = length (all_outcomes tcs)
  /\ critical_count s = length (List.filter is_critical (all_outcomes tcs))
  /\ warning_count s
     = length (List.filter (fun c => is_warning c && negb (is_critical c))
                           (all_outcomes tcs))
  /\ (critical_count s + warning_count s <= total_comparisons s)%nat
  /\ (has_issues s = true <-> (0 < critical_count s + warning_count s)%nat).
Proof.
  cbv zeta. unfold _generate_summary, all_outcomes.
  cbn [total_tables total_comparisons critical_count warning_count has_issues].
  unfold get_critical_count, get_warning_count.
  rewrite (sum_nat_lengths comparisons).
  rewrite (sum_nat_lengths (fun tc => List.filter is_critical (comparisons tc))).
  rewrite (sum_nat_lengths
             (fun tc => List.filter (fun c => is_warning c && negb (is_critical c))
                                    (comparisons tc))).
  rewrite !flat_map_filter.
  split; [reflexivity|]. split; [reflexivity|]. split; [reflexivity|].
  split; [reflexivity|]. split.
  - induction (flat_map comparisons tcs) as [|c cs IH]; [reflexivity|].
    cbn [List.filter length]. destruct (is_critical c), (is_warning c);
      cbn [andb negb length]; lia.
  - rewrite orb_true_iff, !negb_true_iff, !Nat.eqb_neq. lia.
Qed.

(** Two header cells with the same text: the row holds the name once, with
    the value of the later cell. *)
Theorem duplicate_header_last_wins :
  HtmlParser._parse_html_table twin_header_table "wait_events"
  = Ok {| name := "wait_events"; headers := ["Waits"; "Waits"]%string;
          rows := [[("Waits"%string, VInt 20)]]; metadata := [] |}.
Proof. vm_compute. reflexivity. Qed.

(** The cells counted in a data row are its [td] elements: a row of one
    [th] and two [td] cells under a header of two cells is kept, a row of
    three [td] cells is dropped. *)
Theorem data_row_cells_are_td :
  HtmlParser._parse_html_table row_header_table "io_statistics"
  = Ok {| name := "io_statistics"; headers := ["Reads"; "Writes"]%string;
          rows := [[("Reads"%string, VInt 1); ("Writes"%string, VInt 2)]];
          metadata := [] |}.
Proof. vm_compute. reflexivity. Qed.

(** The comparison mode is cross-engine exactly when the two report types
    differ, and the thresholds are read under the key of the mode. *)
Theorem comparison_mode (cfg : Config) (base_type target_type : string) :
  (_determine_comparison_type base_type target_type = CROSS_PLATFORM
   <-> base_type <> target_type)
  /\ (base_type = target_type ->
      _get_thresholds cfg (_determine_comparison_type base_type target_type)
      = ConfigLoader.get_thresholds cfg "same_platform")
  /\ (base_type <> target_type ->
      _get_thresholds cfg (_determine_comparison_type base_type target_type)
      = ConfigLoader.get_thresholds cfg "cross_platform").
Proof.
  unfold _determine_comparison_type.
  destruct (String.eqb_spec base_type target_type) as [E|E].
  - split; [|split]; [|intros _|intros H; destruct (H E)].
    + split; [|intros H; destruct (H E)].
      destruct (PyStr.is_substring _ _); discriminate.
    + destruct (PyStr.is_substring _ _); reflexivity.
  - split; [|split]; [|intros H; destruct (E H)|intros _; reflexivity].
    split; [intros _; exact E|reflexivity].
Qed.



End Further.

(** ** A report compared with itself *)

Section SelfComparison.

Lemma of_Z_100 : PyFloat.of_Z 100 = S754_finite false 7036874417766400 (-46).
Proof. vm_compute. reflexivity. Qed.

Lemma sub_diag_finite (s : bool) (m : positive) (e : Z) :
  PyFloat.sub (S754_finite s m e) (S754_finite s m e) = S754_zero false.
Proof. unfold PyFloat.sub, SFsub. rewrite Z.sub_diag. reflexivity. Qed.

(** A value against itself: the change is a zero or not a number, and no
    positive threshold is reached. *)
Lemma flags_of_same (b : spec_float) (thr : Thresholds) :
  positive_thresholds thr -> flags_of (percent_of b b) thr = (false, false).
Proof.
  intros [Hw Hc]. destruct b as [s|s| |s m e].
  - reflexivity.
  - destruct s; reflexivity.
  - reflexivity.
  - unfold percent_of. destruct (PyFloat.ne_int _ 0); [|reflexivity].
    rewrite sub_diag_finite, of_Z_100. cbn [flags_of].
    unfold PyFloat.ge_int. cbn.
    destruct (default 30 (critical_percent thr)); try discriminate Hc.
    destruct (default 15 (warning_percent thr)); try discriminate Hw.
    reflexivity.
Qed.


(** A loop whose steps return a result with a property, or raise one fixed
    exception, returns results that all have it, or raises that exception. *)
Lemma mapM_Forall_or_raise {X Y : Type} (f : X -> res Y) (P : Y -> Prop)
    (E : exn -> Prop) (l : list X) :
  (forall x, In x l ->
     (exists y, f x = Ok y /\ P y) \/ (exists e, f x = Raise e /\ E e)) ->
  (exists ys, mapM f l = Ok ys /\ Forall P ys)
  \/ (exists e, mapM f l = Raise e /\ E e).
Proof.
  induction l as [|x l IH]; intros H.
  - left. exists []. split; [reflexivity|constructor].
  - destruct (H x (or_introl eq_refl)) as [(y & Hy & HP)|(e & He & HE)].
    + rewrite (mapM_cons_ok f x l y Hy).
      destruct IH as [(ys & Hys & Hall)|(e & He & HE)].
      * intros x' Hx'. apply H. right. exact Hx'.
      * left. exists (y :: ys). rewrite Hys. split; [reflexivity|].
        constructor; assumption.
      * right. exists e. rewrite He. split; [reflexivity|exact HE].
    + right. exists e. rewrite (mapM_cons_raise f x l e He). split; [reflexivity|exact HE].
Qed.




End SelfComparison.

(** ** Exceptions of the engine *)

Section EngineErrors.
Variable float_repr : spec_float -> string.
Variable cfg : Config.



Lemma py_add_raises (a b : PyVal) (e : exn) :
  py_add a b = Raise e -> e = TypeError \/ e = OverflowError.
Proof.
  destruct a as [|x|f|s], b as [|y|g|u]; cbn [py_add];
    try (intros H; injection H as <-; left; reflexivity); try discriminate.
  - destruct (of_int_cases x) as [-> | ->]; [discriminate|].
    intros H. injection H as <-. right. reflexivity.
  - destruct (of_int_cases y) as [-> | ->]; [discriminate|].
    intros H. injection H as <-. right. reflexivity.
Qed.

Lemma sum_from_raises (vs : list PyVal) (acc : PyVal) (e : exn) :
  sum_from acc vs = Raise e -> e = TypeError \/ e = OverflowError.
Proof.
  revert acc. induction vs as [|v vs IH]; intros acc; [discriminate|].
  cbn [sum_from]. destruct (py_add acc v) as [a|e'] eqn:E.
  - apply IH.
  - intros H. injection H as ->. apply (py_add_raises acc v e E).
Qed.

Lemma average_raises (vs : list PyVal) (e : exn) :
  average vs = Raise e -> e = TypeError \/ e = OverflowError.
Proof.
  unfold average, py_sum. destruct (sum_from (VInt 0) vs) as [s|e'] eqn:E.
  - cbn [mbind res_bind]. destruct s as [|a|f|s]; cbn [py_truediv_len].
    + intros H. injection H as <-. left. reflexivity.
    + unfold PyFloat.int_truediv.
      destruct a; [discriminate|..];
        (destruct (Z.of_nat (length vs)); [discriminate|..]);
        (destruct (PyFloat.is_infinite _); [|discriminate]);
        intros H; injection H as <-; right; reflexivity.
    + destruct (of_int_cases (Z.of_nat (length vs))) as [-> | ->]; [discriminate|].
      intros H. injection H as <-. right. reflexivity.
    + intros H. injection H as <-. left. reflexivity.
  - intros H. injection H as ->. apply (sum_from_raises vs _ e E).
Qed.





End EngineErrors.

Section EngineErrorsSpec.


End EngineErrorsSpec.

Section SelfComparisonSpec.





(** Cross-engine comparison of two tables whose common columns hold the
    same non-null values, under positive thresholds: no outcome is
    flagged, whatever the rows' keys and order of columns are; or the call
    raises, [TypeError] on a text cell and [OverflowError] on a number out
    of float range. *)
Theorem cross_platform_same_columns (cfg : Config) (base_table target_table : TableData)
    (thr : Thresholds) :
  positive_thresholds thr ->
  (forall h, In h (headers base_table) -> In h (headers target_table) ->
             column_values h (rows base_table) = column_values h (rows target_table)) ->
  (exists outs,
     _compare_cross_platform cfg base_table target_table thr = Ok outs
     /\ Forall (fun o => unflagged o = true /\ base_value o = target_value o) outs)
  \/ _compare_cross_platform cfg base_table target_table thr = Raise TypeError
  \/ _compare_cross_platform cfg base_table target_table thr = Raise OverflowError.
Proof.
  intros Hthr Hcols. rewrite _compare_cross_platform_spec.
  destruct (mapM_Forall_or_raise (diff_means thr base_table target_table)
              (fun o => unflagged o = true /\ base_value o = target_value o)
              (fun e => e = TypeError \/ e = OverflowError)
              (cross_columns cfg base_table target_table))
    as [H|(e & He & [->| ->])];
    [|left; exact H|right; left; exact He|right; right; exact He].
  intros h Hin. apply cross_columns_In in Hin as (Hb & Ht & _).
  unfold diff_means. rewrite <- (Hcols h Hb Ht).
  destruct (average (column_values h (rows base_table))) as [v|e] eqn:E.
  - cbn [mbind res_bind]. destruct (average_float _ _ E) as [f ->].
    left. eexists.
    split; [apply (_compare_values_numbers h (VFloat f) (VFloat f) thr f f);
            reflexivity|].
    unfold unflagged. cbn [is_warning is_critical base_value target_value].
    rewrite (flags_of_same f thr Hthr). split; reflexivity.
  - right. exists e. split; [reflexivity|apply (average_raises _ _ E)].
Qed.

Lemma cross_platform_same_columns_witness :
  exists outs,
    _compare_cross_platform empty_config
      (one_column "wait_events" "Time" [VInt 100; VInt 200])
      (one_column "wait_events" "Time" [VInt 100; VInt 200]) default_thresholds = Ok outs
    /\ Forall (fun o => unflagged o = true /\ base_value o = target_value o) outs.
Proof.
  destruct (cross_platform_same_columns empty_config
              (one_column "wait_events" "Time" [VInt 100; VInt 200])
              (one_column "wait_events" "Time" [VInt 100; VInt 200]) default_thresholds)
    as [H|[H|H]].
  - split; reflexivity.
  - intros h _ _. reflexivity.
  - exact H.
  - vm_compute in H. discriminate H.
  - vm_compute in H. discriminate H.
Defined.

End SelfComparisonSpec.

(** ** Markup tables: repeated column names, header cells in data rows *)

Section HtmlMore.
Import HtmlParser.

Lemma Dict_lookup_set_eq (k : string) (v : PyVal) (d : Dict.t) :
  Dict.lookup k (Dict.set k v d) = Some v.
Proof.
  induction d as [|[k' v'] d IH]; cbn [Dict.set Dict.lookup].
  - rewrite String.eqb_refl. reflexivity.
  - destruct (String.eqb k' k) eqn:E; cbn [Dict.lookup]; rewrite E; [reflexivity|exact IH].
Qed.

Lemma Dict_lookup_set_ne (k k' : string) (v : PyVal) (d : Dict.t) :
  k <> k' -> Dict.lookup k' (Dict.set k v d) = Dict.lookup k' d.
Proof.
  intros Hne. induction d as [|[k0 v0] d IH]; cbn [Dict.set Dict.lookup].
  - rewrite (proj2 (String.eqb_neq k k') Hne). reflexivity.
  - destruct (String.eqb_spec k0 k) as [->|E]; cbn [Dict.lookup].
    + rewrite (proj2 (String.eqb_neq k k') Hne). reflexivity.
    + rewrite IH. reflexivity.
Qed.

Lemma Dict_keys_set_order (k : string) (v : PyVal) (d : Dict.t) :
  Dict.keys (Dict.set k v d)
  = if Dict.mem k d then Dict.keys d else Dict.keys d ++ [k].
Proof.
  unfold Dict.mem. induction d as [|[k' v'] d IH]; cbn [Dict.set Dict.lookup]; [reflexivity|].
  destruct (String.eqb k' k) eqn:E; [reflexivity|].
  unfold Dict.keys in *. cbn [map fst]. rewrite IH.
  destruct (Dict.lookup k d); reflexivity.
Qed.

Lemma cell_value_ok (c : Cell) :
  BaseReportParser._normalize_value (PyStr.strip (cell_text c)) = Ok (cell_value c).
Proof.
  unfold cell_value.
  destruct (_normalize_value_ok (PyStr.strip (cell_text c))) as [v ->]. reflexivity.
Qed.

Lemma cells_loop_lookup (hs : list string) (cells : list Cell) (acc row : Dict.t)
    (h : string) :
  length cells = length hs ->
  cells_loop hs cells acc = Ok row ->
  Dict.lookup h row
  = match last_cell_under h hs cells with
    | Some c => Some (cell_value c)
    | None => Dict.lookup h acc
    end.
Proof.
  revert hs acc. induction cells as [|c cells IH]; intros hs acc Hlen Hrow.
  - destruct hs; [|discriminate Hlen]. injection Hrow as <-. reflexivity.
  - destruct hs as [|h0 hs]; [discriminate Hlen|]. injection Hlen as Hlen.
    cbn [cells_loop] in Hrow. rewrite cell_value_ok in Hrow. cbn [mbind res_bind] in Hrow.
    rewrite (IH hs _ Hlen Hrow). unfold last_cell_under.
    cbn [combine List.filter fst].
    destruct (String.eqb_spec h0 h) as [->|Hne].
    + rewrite last_cons.
      destruct (last (List.filter _ (combine hs cells))) as [[h' c']|]; [reflexivity|].
      cbn. apply Dict_lookup_set_eq.
    + destruct (last (List.filter _ (combine hs cells))) as [[h' c']|]; [reflexivity|].
      cbn. apply Dict_lookup_set_ne, Hne.
Qed.

Lemma filter_filter_comm {X : Type} (p q : X -> bool) (l : list X) :
  List.filter p (List.filter q l) = List.filter (fun x => q x && p x) l.
Proof.
  induction l as [|x l IH]; [reflexivity|].
  cbn [List.filter]. destruct (q x); cbn [List.filter andb]; [|exact IH].
  destruct (p x); rewrite IH; reflexivity.
Qed.

Lemma cells_loop_key_order (hs : list string) (cells : list Cell) (acc row : Dict.t) :
  length cells = length hs ->
  cells_loop hs cells acc = Ok row ->
  Dict.keys row
  = Dict.keys acc ++ List.filter (fun x => negb (Dict.mem x acc)) (first_occurrences hs).
Proof.
  revert hs acc. induction cells as [|c cells IH]; intros hs acc Hlen Hrow.
  - destruct hs; [|discriminate Hlen]. injection Hrow as <-. cbn. rewrite app_nil_r.
    reflexivity.
  - destruct hs as [|h hs]; [discriminate Hlen|]. injection Hlen as Hlen.
    cbn [cells_loop] in Hrow. rewrite cell_value_ok in Hrow. cbn [mbind res_bind] in Hrow.
    rewrite (IH hs _ Hlen Hrow), Dict_keys_set_order.
    cbn [first_occurrences List.filter]. rewrite filter_filter_comm.
    assert (forall x, Dict.mem x (Dict.set h (cell_value c) acc)
                      = Dict.mem x acc || String.eqb x h) as Hmem.
    { intros x. unfold Dict.mem. destruct (String.eqb_spec x h) as [->|Hne].
      - rewrite Dict_lookup_set_eq, orb_true_r. reflexivity.
      - rewrite Dict_lookup_set_ne by congruence. rewrite orb_false_r. reflexivity. }
    destruct (Dict.mem h acc) eqn:Eh; cbn [negb]; [|rewrite <- app_assoc; cbn [app]];
      f_equal; [|f_equal]; apply List.filter_ext_in; intros x _; rewrite Hmem.
    + destruct (String.eqb_spec x h) as [->|Hne]; [rewrite Eh; reflexivity|].
      rewrite orb_false_r. cbn [negb]. rewrite andb_true_l. reflexivity.
    + destruct (String.eqb x h), (Dict.mem x acc); reflexivity.
Qed.

Lemma first_occurrences_In (hs : list string) (x : string) :
  In x (first_occurrences hs) <-> In x hs.
Proof.
  induction hs as [|h hs IH]; [reflexivity|].
  cbn [first_occurrences In]. rewrite filter_In, IH, negb_true_iff, String.eqb_neq.
  destruct (String.eqb_spec x h) as [->|Hne]; [tauto|].
  split; [intros [H|[H _]]; [left; exact H|right; exact H]
         |intros [H|H]; [left; exact H|right; split; [exact H|exact Hne]]].
Qed.

Lemma first_occurrences_length (hs : list string) :
  (length (first_occurrences hs) <= length hs)%nat
  /\ (length (first_occurrences hs) = length hs <-> NoDup hs).
Proof.
  induction hs as [|h hs [IHle IHeq]]; [split; [reflexivity|split; [constructor|reflexivity]]|].
  cbn [first_occurrences length].
  pose proof (List.filter_length_le (fun x => negb (String.eqb x h)) (first_occurrences hs))
    as Hf.
  split; [lia|]. rewrite NoDup_cons. split.
  - intros Heq. assert (length (first_occurrences hs) = length hs) as Hl by lia.
    split; [|apply IHeq, Hl].
    intros Hin%list_elem_of_In%first_occurrences_In.
    assert (length (List.filter (fun x => negb (String.eqb x h)) (first_occurrences hs))
            < length (first_occurrences hs))%nat; [|lia].
    clear -Hin. induction (first_occurrences hs) as [|y l IH]; [destruct Hin|].
    cbn [List.filter length]. destruct (String.eqb_spec y h) as [->|Hne]; cbn [negb length].
    + pose proof (List.filter_length_le (fun x => negb (String.eqb x h)) l). lia.
    + destruct Hin as [E|Hin]; [destruct (Hne E)|]. specialize (IH Hin). lia.
  - intros [Hnot Hnd]. apply IHeq in Hnd. rewrite <- Hnd. f_equal.
    f_equal. clear -Hnot.
    assert (forall x, In x (first_occurrences hs) -> x <> h) as Hall.
    { intros x Hx ->. apply Hnot, list_elem_of_In, first_occurrences_In, Hx. }
    induction (first_occurrences hs) as [|y l IH]; [reflexivity|].
    cbn [List.filter]. rewrite (proj2 (String.eqb_neq y h) (Hall y (or_introl eq_refl))).
    cbn [negb]. f_equal. apply IH. intros x Hx. apply Hall. right. exact Hx.
Qed.

Lemma data_rows_loop_td (hs : list string) (trs : list TrNode) (acc : list Dict.t) :
  data_rows_loop hs (map find_all_td trs) acc = data_rows_loop hs trs acc.
Proof.
  revert acc. induction trs as [|tr trs IH]; intros acc; [reflexivity|].
  cbn [map data_rows_loop].
  assert (find_all_td (find_all_td tr) = find_all_td tr) as ->.
  { unfold find_all_td. induction tr as [|c tr IHtr]; [reflexivity|].
    cbn [List.filter]. destruct (is_td c) eqn:E; [|exact IHtr].
    cbn [List.filter]. rewrite E, IHtr. reflexivity. }
  destruct (_ && _); [|apply IH].
  destruct (cells_loop hs (find_all_td tr) []); [|reflexivity].
  cbn [mbind res_bind]. apply IH.
Qed.

End HtmlMore.

Section HtmlMoreSpec.
Import HtmlParser.

(** When column names repeat in the header row, a row built from as many
    cells holds each name once, at the place of its first occurrence, with
    the value of the last cell that stands under it; so the row has as many
    entries as the table has columns only if the names are distinct. *)
Theorem repeated_headers_keep_last (hs : list string) (cells : list Cell) :
  length cells = length hs ->
  exists row,
    cells_loop hs cells [] = Ok row
    /\ Dict.keys row = first_occurrences hs
    /\ (forall h, Dict.lookup h row = cell_value <$> last_cell_under h hs cells)
    /\ (length row <= length hs)%nat
    /\ (length row = length hs <-> NoDup hs).
Proof.
  intros Hlen. destruct (cells_loop_keys hs cells [] Hlen) as (row & Hrow & _).
  exists row. split; [exact Hrow|].
  assert (Dict.keys row = first_occurrences hs) as Hkeys.
  { rewrite (cells_loop_key_order hs cells [] row Hlen Hrow). cbn [Dict.keys map app].
    induction (first_occurrences hs) as [|x l IH]; [reflexivity|].
    cbn. f_equal. exact IH. }
  split; [exact Hkeys|]. split.
  - intros h. rewrite (cells_loop_lookup hs cells [] row h Hlen Hrow).
    destruct (last_cell_under h hs cells); reflexivity.
  - assert (length row = length (first_occurrences hs)) as ->.
    { rewrite <- Hkeys. unfold Dict.keys. rewrite length_map. reflexivity. }
    apply first_occurrences_length.
Qed.

Lemma repeated_headers_keep_last_witness :
  exists row,
    cells_loop ["Waits"; "Waits"]%string [cell TD "10"; cell TD "20"] [] = Ok row
    /\ row = [("Waits"%string, VInt 20)].
Proof.
  destruct (repeated_headers_keep_last ["Waits"; "Waits"]%string
              [cell TD "10"; cell TD "20"]) as (row & Hrow & _).
  - reflexivity.
  - exists row. split; [exact Hrow|].
    vm_compute in Hrow. injection Hrow as <-. reflexivity.
Defined.

(** The header row gives one column per cell, [th] or [td]; in the data
    rows only the [td] cells are read: dropping every [th] cell of every
    data row changes nothing of the table extracted, and a table whose
    header row has no cell gets no row. *)
Theorem data_rows_read_td_only (header_row : TrNode) (trs : list TrNode)
    (table_name : string) :
  _parse_html_table (header_row :: trs) table_name
  = _parse_html_table (header_row :: map find_all_td trs) table_name
  /\ (exists t, _parse_html_table (header_row :: trs) table_name = Ok t
                /\ length (headers t) = length header_row
                /\ (header_row = [] -> rows t = [])).
Proof.
  split.
  - unfold _parse_html_table. cbn [tail]. rewrite data_rows_loop_td. reflexivity.
  - unfold _parse_html_table. cbn [tail].
    destruct (data_rows_loop_spec
                (map (fun th => PyStr.strip (cell_text th)) header_row) trs [])
      as (rows' & -> & Hall).
    cbn [mbind res_bind mret res_ret app]. eexists. split; [reflexivity|].
    cbn [headers rows]. split; [apply length_map|].
    intros ->. cbn [map] in Hall.
    assert (List.filter (row_kept []) trs = []) as Hnone.
    { clear Hall. induction trs as [|tr trs IH]; [reflexivity|].
      cbn [List.filter]. unfold row_kept at 1. cbn [length].
      destruct (length (find_all_td tr)); cbn; exact IH. }
    rewrite Hnone in Hall. inversion Hall. reflexivity.
Qed.

End HtmlMoreSpec.

(** ** Strings split into fields *)

Section TextFacts.
Import PyStr PyText.

Lemma index_In {A : Type} (l : list A) (i : Z) (x : A) :
  index l i = Ok x -> In x l.
Proof.
  unfold index. destruct (_ && _); [|discriminate].
  destruct (nth_error l _) as [y|] eqn:E; [|discriminate].
  intros H. injection H as <-. apply (nth_error_In _ _ E).
Qed.

Lemma index_in_range {A : Type} (l : list A) (i : Z) :
  - Z.of_nat (length l) <= i < Z.of_nat (length l) ->
  exists x, index l i = Ok x.
Proof.
  intros Hi. unfold index.
  set (j := if i <? 0 then Z.of_nat (length l) + i else i).
  assert (0 <= j < Z.of_nat (length l)) as Hj.
  { subst j. destruct (Z.ltb_spec i 0); lia. }
  assert ((0 <=? j) && (j <? Z.of_nat (length l)) = true) as ->.
  { apply andb_true_iff. split; [apply Z.leb_le|apply Z.ltb_lt]; lia. }
  destruct (nth_error l (Z.to_nat j)) as [x|] eqn:E; [exists x; reflexivity|].
  apply nth_error_None in E. lia.
Qed.

Lemma words_cons_not_space (c : ascii) (s : string) :
  isspace c = false ->
  exists w ws, words (String c s) = w :: ws.
Proof.
  intros Hc. cbn [words]. rewrite Hc.
  destruct s as [|d s']; [eexists; eexists; reflexivity|].
  destruct (isspace d); [eexists; eexists; reflexivity|].
  destruct (words (String d s')); eexists; eexists; reflexivity.
Qed.

(** The fields of [s.split()] are not empty and hold no white space. *)
Lemma words_fields (s : string) :
  Forall (fun w => is_empty w = false /\ no_space w = true) (words s).
Proof.
  induction s as [|c s IH]; [constructor|].
  cbn [words]. destruct (isspace c) eqn:Hc; [exact IH|].
  destruct s as [|d s'].
  - constructor; [|constructor]. split; [reflexivity|]. cbn. rewrite Hc. reflexivity.
  - destruct (isspace d) eqn:Hd.
    + constructor; [|exact IH]. split; [reflexivity|]. cbn. rewrite Hc. reflexivity.
    + destruct (words_cons_not_space d s' Hd) as (w & ws & Hw).
      rewrite Hw in IH |- *. inversion IH as [|? ? [_ Hns] Hrest]; subst.
      constructor; [|exact Hrest]. split; [reflexivity|].
      cbn [no_space]. rewrite Hc, Hns. reflexivity.
Qed.

Lemma words_all_space (s : string) : words s = [] <-> all_space s = true.
Proof.
  induction s as [|c s IH]; [split; reflexivity|].
  cbn [all_space]. destruct (isspace c) eqn:Hc.
  - cbn [words]. rewrite Hc. exact IH.
  - destruct (words_cons_not_space c s Hc) as (w & ws & ->).
    split; discriminate.
Qed.

Lemma field_not_blank (w : string) :
  is_empty w = false -> no_space w = true -> all_space w = false.
Proof.
  destruct w as [|c w]; [discriminate|]. intros _ H. cbn in H |- *.
  destruct (isspace c); [discriminate H|reflexivity].
Qed.

(** A field is normalised to a value that is not null. *)
Lemma _normalize_value_field (w : string) :
  is_empty w = false -> no_space w = true ->
  exists v, BaseReportParser._normalize_value w = Ok v /\ v <> VNone.
Proof.
  intros He Hs.
  destruct (_normalize_value_not_blank w (field_not_blank w He Hs))
    as [[n ->]|[[f ->]| ->]]; eexists; (split; [reflexivity|discriminate]).
Qed.

Lemma split_not_nil (sep : ascii) (s : string) : split sep s <> [].
Proof.
  induction s as [|c s IH]; [discriminate|].
  cbn [split]. destruct (Ascii.eqb c sep); [discriminate|].
  destruct (split sep s); discriminate.
Qed.

Lemma split_length (sep : ascii) (s : string) :
  contains sep s = true -> (2 <= length (split sep s))%nat.
Proof.
  induction s as [|c s IH]; [discriminate|].
  cbn [contains split]. destruct (Ascii.eqb c sep) eqn:E.
  - intros _. pose proof (split_not_nil sep s). destruct (split sep s); [congruence|].
    cbn. lia.
  - cbn [orb]. intros H. specialize (IH H).
    destruct (split sep s); cbn in *; lia.
Qed.

Lemma split_once_length (sep : ascii) (s : string) :
  length (split_once sep s) = if contains sep s then 2%nat else 1%nat.
Proof.
  induction s as [|c s IH]; [reflexivity|].
  cbn [contains split_once]. destruct (Ascii.eqb c sep); [reflexivity|].
  cbn [orb]. destruct (split_once sep s); [destruct (contains sep s); discriminate IH|].
  exact IH.
Qed.

End TextFacts.

(** ** Rows read from the lines of a text report *)

Section TextRows.
Import PyStr PyText BaseReportParser ReportParser.

Lemma lines_loop_Forall (body : string -> res (option Dict.t)) (P : Dict.t -> Prop)
    (lines : list string) (acc : list Dict.t) :
  (forall line, exists o, body line = Ok o /\ forall row, o = Some row -> P row) ->
  Forall P acc ->
  exists rows, lines_loop body lines acc = Ok rows /\ Forall P rows.
Proof.
  intros Hbody. revert acc. induction lines as [|line lines IH]; intros acc Hacc.
  - exists acc. split; [reflexivity|exact Hacc].
  - cbn [lines_loop]. destruct (Hbody line) as (o & -> & Ho). cbn [mbind res_bind].
    destruct o as [row|]; [|apply IH, Hacc].
    apply IH. apply Forall_app. split; [exact Hacc|].
    constructor; [apply Ho; reflexivity|constructor].
Qed.

Lemma lines_loop_spec (body : string -> res (option Dict.t)) (lines : list string)
    (acc : list Dict.t) :
  lines_loop body lines acc = (l ← mapM body lines; mret (acc ++ omap id l)).
Proof.
  revert acc. induction lines as [|line lines IH]; intros acc.
  - cbn. rewrite app_nil_r. reflexivity.
  - cbn [lines_loop mapM]. destruct (body line) as [[row|]|e]; cbn [mbind res_bind];
      [| |reflexivity]; rewrite IH; destruct (mapM body lines) as [l|e]; try reflexivity.
    cbn. rewrite <- app_assoc. reflexivity.
Qed.

(** A field of a list of fields, read at an index in range, is normalised
    to a value that is not null. *)
Lemma field_at (parts : list string) (i : Z) :
  Forall (fun w => is_empty w = false /\ no_space w = true) parts ->
  - Z.of_nat (length parts) <= i < Z.of_nat (length parts) ->
  exists w v, index parts i = Ok w /\ _normalize_value w = Ok v /\ v <> VNone.
Proof.
  intros Hall Hi. destruct (index_in_range parts i Hi) as [w Hw].
  pose proof (index_In parts i w Hw) as Hin.
  rewrite Forall_forall in Hall. destruct (Hall w (proj2 (list_elem_of_In _ _) Hin)) as [He Hs].
  destruct (_normalize_value_field w He Hs) as (v & Hv & Hne).
  exists w, v. repeat split; assumption.
Qed.

Ltac read_field parts i :=
  let w := fresh "w" in
  let v := fresh "v" in
  let Hw := fresh "Hw" in
  let Hv := fresh "Hv" in
  let Hne := fresh "Hne" in
  destruct (field_at parts i) as (w & v & Hw & Hv & Hne);
  [apply words_fields|lia|];
  rewrite Hw; cbn [mbind res_bind]; rewrite Hv; cbn [mbind res_bind].

Ltac read_index parts i w :=
  let Hw := fresh "Hw" in
  destruct (index_in_range parts i) as (w & Hw); [lia|];
  rewrite Hw; cbn [mbind res_bind].

Ltac full_row_done :=
  cbn [mret res_ret]; eexists; split; [reflexivity|];
  let row := fresh "row" in
  let Hrow := fresh "Hrow" in
  intros row Hrow; injection Hrow as <-;
  split; [reflexivity|]; repeat constructor; try assumption; discriminate.

Ltac no_row := eexists; split; [reflexivity|]; discriminate.

Lemma top_sql_line_spec (line : string) :
  exists o, AWRParser.top_sql_line line = Ok o
            /\ forall row, o = Some row ->
                 full_row ["SQL ID"; "Elapsed Time"; "CPU Time"; "Executions"]%string row.
Proof.
  unfold AWRParser.top_sql_line.
  destruct (negb (is_empty (strip line))); [|no_row].
  destruct (Nat.leb_spec 4 (length (words line))) as [Hlen|_]; [|no_row].
  read_index (words line) 0 first_field. read_field (words line) 1.
  read_field (words line) 2. read_field (words line) 3. full_row_done.
Qed.

Lemma queries_line_spec (line : string) :
  exists o, PgProfileParser.queries_line line = Ok o
            /\ forall row, o = Some row ->
                 full_row ["Query ID"; "Calls"; "Total time"; "Mean time"]%string row.
Proof.
  unfold PgProfileParser.queries_line.
  destruct (negb (is_empty (strip line))); [|no_row].
  destruct (Nat.leb_spec 4 (length (words line))) as [Hlen|_]; [|no_row].
  read_index (words line) 0 first_field. read_field (words line) 1.
  read_field (words line) 2. read_field (words line) 3. full_row_done.
Qed.

Lemma awr_wait_events_line_spec (line : string) :
  exists o, AWRParser.wait_events_line line = Ok o
            /\ forall row, o = Some row ->
                 full_row ["Event"; "Waits"; "Time(s)"; "% DB Time"]%string row.
Proof.
  unfold AWRParser.wait_events_line.
  destruct (negb (is_empty (strip line))); [|no_row].
  destruct (Nat.leb_spec 4 (length (words line))) as [Hlen|_]; [|no_row].
  cbv zeta. read_field (words line) (-3). read_field (words line) (-2).
  read_field (words line) (-1). full_row_done.
Qed.

Lemma pg_wait_events_line_spec (line : string) :
  exists o, PgProfileParser.wait_events_line line = Ok o
            /\ forall row, o = Some row ->
                 full_row ["Event"; "Count"; "Time (ms)"; "% Total"]%string row.
Proof.
  unfold PgProfileParser.wait_events_line.
  destruct (negb (is_empty (strip line))); [|no_row].
  destruct (Nat.leb_spec 4 (length (words line))) as [Hlen|_]; [|no_row].
  cbv zeta. read_field (words line) (-3). read_field (words line) (-2).
  read_field (words line) (-1). full_row_done.
Qed.

Lemma load_profile_line_spec (line : string) :
  exists o, AWRParser.load_profile_line line = Ok o
            /\ forall row, o = Some row ->
                 full_row ["Metric"; "Per Second"; "Per Transaction"]%string row.
Proof.
  unfold AWRParser.load_profile_line.
  destruct (contains ":" line) eqn:Hc; [|no_row].
  pose proof (split_length ":" line Hc) as Hlen.
  destruct (Nat.leb_spec 2 (length (split ":" line))) as [_|Hlt]; [|lia].
  read_index (split ":" line) 0 metric. read_index (split ":" line) 1 rest. cbv zeta.
  destruct (Nat.leb_spec 2 (length (words (strip rest)))) as [Hlen2|_]; [|no_row].
  read_field (words (strip rest)) 0.
  destruct (Nat.ltb_spec 1 (length (words (strip rest)))) as [_|Hlt]; [|lia].
  read_field (words (strip rest)) 1. full_row_done.
Qed.

Lemma general_statistics_line_spec (line : string) :
  exists o, PgProfileParser.general_statistics_line line = Ok o
            /\ forall row, o = Some row ->
                 Dict.keys row = ["Metric"; "Value"]%string
                 /\ Dict.get "Metric" row <> VNone.
Proof.
  unfold PgProfileParser.general_statistics_line.
  destruct (contains ":" line) eqn:Hc; [|no_row].
  pose proof (split_once_length ":" line) as Hlen. rewrite Hc in Hlen.
  rewrite Hlen. cbn [Nat.eqb].
  read_index (split_once ":" line) 0 metric. read_index (split_once ":" line) 1 rest.
  destruct (_normalize_value_ok (strip rest)) as [v ->]. cbn [mbind res_bind mret res_ret].
  eexists. split; [reflexivity|]. intros row Hrow. injection Hrow as <-.
  split; [reflexivity|]. cbn. discriminate.
Qed.

(** The table a section extractor builds from the lines of its section. *)
Lemma section_table (body : string -> res (option Dict.t)) (P : Dict.t -> Prop)
    (section : option string) (n : string) (hs : list string) :
  (forall line, exists o, body line = Ok o /\ forall row, o = Some row -> P row) ->
  exists o,
    match section with
    | None => Ok None
    | Some text =>
        rows ← lines_loop body (split newline text) [];
        mret (Some {| name := n; headers := hs; rows := rows; metadata := [] |})
    end = Ok o
    /\ forall t, o = Some t -> name t = n /\ headers t = hs /\ Forall P (rows t).
Proof.
  intros Hbody. destruct section as [text|]; [|eexists; split; [reflexivity|discriminate]].
  destruct (lines_loop_Forall body P (split newline text) [] Hbody ltac:(constructor))
    as (rows & -> & Hrows).
  cbn [mbind res_bind mret res_ret]. eexists. split; [reflexivity|].
  intros t Ht. injection Ht as <-. repeat split. exact Hrows.
Qed.

End TextRows.

Section TextRowsSpec.
Import PyStr PyText BaseReportParser ReportParser.

Lemma awr_text_table `{Library} (content table_name : string) :
  exists o, AWRParser._extract_table_text content table_name = Ok o
            /\ forall t, o = Some t ->
                 name t = table_name /\ Forall (full_row (headers t)) (rows t).
Proof.
  unfold AWRParser._extract_table_text.
  destruct (String.eqb_spec table_name "load_profile") as [->|_].
  { destruct (section_table AWRParser.load_profile_line _
                (re_group1 "Load Profile\s*\n(.*?)(?:\n\n|\Z)" [DOTALL] content)
                "load_profile" ["Metric"; "Per Second"; "Per Transaction"]%string
                load_profile_line_spec) as (o & Ho & Ht).
    exists o. split; [exact Ho|]. intros t E. destruct (Ht t E) as (Hn & Hh & Hr).
    rewrite Hh. split; assumption. }
  destruct (String.eqb_spec table_name "top_sql_elapsed") as [->|_].
  { destruct (section_table AWRParser.top_sql_line _
                (re_group1 "SQL ordered by Elapsed Time\s*\n(.*?)(?:\n\n|\Z)" [DOTALL]
                           content)
                "top_sql_elapsed"
                ["SQL ID"; "Elapsed Time"; "CPU Time"; "Executions"]%string
                top_sql_line_spec) as (o & Ho & Ht).
    exists o. split; [exact Ho|]. intros t E. destruct (Ht t E) as (Hn & Hh & Hr).
    rewrite Hh. split; assumption. }
  destruct (String.eqb_spec table_name "wait_events") as [->|_].
  { destruct (section_table AWRParser.wait_events_line _
                (re_group1 "Top.*Wait Events\s*\n(.*?)(?:\n\n|\Z)" [DOTALL] content)
                "wait_events" ["Event"; "Waits"; "Time(s)"; "% DB Time"]%string
                awr_wait_events_line_spec) as (o & Ho & Ht).
    exists o. split; [exact Ho|]. intros t E. destruct (Ht t E) as (Hn & Hh & Hr).
    rewrite Hh. split; assumption. }
  eexists. split; [reflexivity|discriminate].
Qed.

Lemma pg_text_table `{Library} (content table_name : string) :
  exists o, PgProfileParser._extract_table_text content table_name = Ok o
            /\ forall t, o = Some t ->
                 name t = table_name
                 /\ Forall (fun row => Dict.keys row = headers t) (rows t)
                 /\ (table_name <> "general_statistics"%string ->
                     Forall (full_row (headers t)) (rows t)).
Proof.
  unfold PgProfileParser._extract_table_text.
  destruct (String.eqb_spec table_name "general_statistics") as [->|Hne].
  { destruct (section_table PgProfileParser.general_statistics_line _
                (re_group1 "Cluster statistics\s*\n(.*?)(?:\n\n|\Z)" [DOTALL] content)
                "general_statistics" ["Metric"; "Value"]%string
                general_statistics_line_spec) as (o & Ho & Ht).
    exists o. split; [exact Ho|]. intros t E. destruct (Ht t E) as (Hn & Hh & Hr).
    rewrite Hh. split; [exact Hn|]. split; [|intros Hx; destruct (Hx eq_refl)].
    apply (Forall_impl _ _ _ Hr). intros row [Hk _]. exact Hk. }
  destruct (String.eqb_spec table_name "wait_events") as [->|_].
  { destruct (section_table PgProfileParser.wait_events_line _
                (re_group1 "Wait event.*statistics\s*\n(.*?)(?:\n\n|\Z)"
                           [DOTALL; IGNORECASE] content)
                "wait_events" ["Event"; "Count"; "Time (ms)"; "% Total"]%string
                pg_wait_events_line_spec) as (o & Ho & Ht).
    exists o. split; [exact Ho|]. intros t E. destruct (Ht t E) as (Hn & Hh & Hr).
    rewrite Hh. split; [exact Hn|]. split; [|intros _; exact Hr].
    apply (Forall_impl _ _ _ Hr). intros row [Hk _]. exact Hk. }
  destruct (String.eqb_spec table_name "queries_statistics") as [->|_].
  { destruct (section_table PgProfileParser.queries_line _
                (re_group1 "Top.*SQL.*by.*elapsed\s*\n(.*?)(?:\n\n|\Z)"
                           [DOTALL; IGNORECASE] content)
                "queries_statistics"
                ["Query ID"; "Calls"; "Total time"; "Mean time"]%string
                queries_line_spec) as (o & Ho & Ht).
    exists o. split; [exact Ho|]. intros t E. destruct (Ht t E) as (Hn & Hh & Hr).
    rewrite Hh. split; [exact Hn|]. split; [|intros _; exact Hr].
    apply (Forall_impl _ _ _ Hr). intros row [Hk _]. exact Hk. }
  eexists. split; [reflexivity|].
  discriminate.
Qed.


End TextRowsSpec.

(** ** Markup reports *)

Section ParseFacts.
Import PyStr PyText BaseReportParser ReportParser.

Lemma _parse_html_table_ok (table : TableNode) (n : string) :
  exists t, HtmlParser._parse_html_table table n = Ok t
            /\ name t = n
            /\ forall row, In row (rows t) ->
                 forall x, In x (Dict.keys row) <-> In x (headers t).
Proof.
  unfold HtmlParser._parse_html_table. fold (header_names table).
  destruct (data_rows_loop_spec (header_names table) (tail table) [])
    as (rows' & Hloop & Hall).
  rewrite Hloop. cbn [mbind res_bind mret res_ret app].
  eexists. split; [reflexivity|]. cbn [name headers rows]. split; [reflexivity|].
  intros row Hrow. apply (rows_of_keys _ _ _ Hall); [|exact Hrow].
  intros tr [_ Hk]%filter_In.
  unfold row_kept in Hk. apply andb_prop in Hk as [_ Hk]. apply Nat.eqb_eq, Hk.
Qed.

Lemma headings_loop_ok `{Library} (headings : list Element) (pattern n : string) :
  extracted_ok n (headings_loop headings pattern n).
Proof.
  induction headings as [|heading headings IH].
  - exists None. split; [reflexivity|discriminate].
  - cbn [headings_loop]. destruct (re_search _ _ _); [|exact IH].
    destruct (elem_next_table heading) as [table|]; [|exact IH].
    destruct (_parse_html_table_ok table n) as (t & -> & Hn & Hk).
    cbn [mbind res_bind mret res_ret]. eexists. split; [reflexivity|].
    intros t' E. injection E as <-. split; [exact Hn|].
    intros row Hrow x Hx. apply (Hk row Hrow x), Hx.
Qed.

Lemma _extract_table_html_awr `{Library} (soup : Soup) (n : string) :
  extracted_ok n (AWRParser._extract_table_html soup n).
Proof.
  unfold AWRParser._extract_table_html.
  destruct (lookup_literal n _) as [pattern|];
    [|exists None; split; [reflexivity|discriminate]].
  destruct (is_empty pattern); [exists None; split; [reflexivity|discriminate]|].
  apply headings_loop_ok.
Qed.

Lemma _extract_table_html_pg `{Library} (soup : Soup) (n : string) :
  extracted_ok n (PgProfileParser._extract_table_html soup n).
Proof.
  unfold PgProfileParser._extract_table_html.
  destruct (lookup_literal n _) as [pattern|];
    [|exists None; split; [reflexivity|discriminate]].
  destruct (is_empty pattern); [exists None; split; [reflexivity|discriminate]|].
  apply headings_loop_ok.
Qed.

Lemma full_row_keys (hs : list string) (rows : list Dict.t) :
  Forall (fun row => Dict.keys row = hs) rows ->
  forall row, In row rows -> forall x, In x (Dict.keys row) -> In x hs.
Proof.
  intros Hall row Hrow x Hx. rewrite Forall_forall in Hall.
  rewrite <- (Hall row (proj2 (list_elem_of_In _ _) Hrow)). exact Hx.
Qed.

Lemma _extract_table_text_awr `{Library} (content n : string) :
  extracted_ok n (AWRParser._extract_table_text content n).
Proof.
  destruct (awr_text_table content n) as (o & Ho & Ht).
  exists o. split; [exact Ho|]. intros t E. destruct (Ht t E) as [Hn Hr].
  split; [exact Hn|]. apply full_row_keys.
  apply (Forall_impl _ _ _ Hr). intros row [Hk _]. exact Hk.
Qed.

Lemma _extract_table_text_pg `{Library} (content n : string) :
  extracted_ok n (PgProfileParser._extract_table_text content n).
Proof.
  destruct (pg_text_table content n) as (o & Ho & Ht).
  exists o. split; [exact Ho|]. intros t E. destruct (Ht t E) as (Hn & Hr & _).
  split; [exact Hn|]. apply full_row_keys, Hr.
Qed.

Lemma set_table_ok (names : list string) (k : string) (t : TableData) (p : Parser) :
  stored_tables_ok names p -> In k names -> name t = k -> rows t <> [] ->
  (forall row, In row (rows t) -> forall x, In x (Dict.keys row) -> In x (headers t)) ->
  stored_tables_ok names (set_table k t p).
Proof.
  intros Hp Hk Hn Hr Hkeys k' t'. unfold set_table. cbn [tables].
  destruct (decide (k = k')) as [<-|Hne].
  - rewrite lookup_insert_eq. intros E. injection E as <-. repeat split; assumption.
  - rewrite lookup_insert_ne by exact Hne. apply Hp.
Qed.

Lemma TableData_truthy_rows (t : TableData) :
  TableData_truthy t = true -> rows t <> [].
Proof.
  unfold TableData_truthy, TableData_len. destruct (rows t); [discriminate|discriminate].
Qed.

Lemma store_tables_ok (extract : string -> res (option TableData))
    (allowed names : list string) (p : Parser) :
  (forall n, extracted_ok n (extract n)) ->
  (forall n, In n names -> In n allowed) ->
  stored_tables_ok allowed p ->
  exists p', store_tables extract names p = (true, p')
             /\ parser_metadata p' = parser_metadata p
             /\ stored_tables_ok allowed p'.
Proof.
  intros Hex. revert p. induction names as [|n names IH]; intros p Hsub Hp.
  - exists p. split; [reflexivity|]. split; [reflexivity|exact Hp].
  - cbn [store_tables]. destruct (Hex n) as (o & -> & Ho).
    assert (forall n', In n' names -> In n' allowed) as Hsub'
      by (intros n' Hn'; apply Hsub; right; exact Hn').
    destruct o as [t|]; [|apply IH; assumption].
    destruct (TableData_truthy t && negb (TableData_is_empty t)) eqn:E;
      [|apply IH; assumption].
    apply andb_prop in E as [E _]. destruct (Ho t eq_refl) as [Hn Hk].
    destruct (IH (set_table n t p) Hsub') as (p' & Hp' & Hm & Hok).
    + apply set_table_ok; [exact Hp|apply Hsub; left; reflexivity|exact Hn| |exact Hk].
      apply TableData_truthy_rows, E.
    + exists p'. split; [exact Hp'|]. split; [exact Hm|exact Hok].
Qed.

Lemma store_section_ok (allowed : list string) (k : string)
    (r : res (option TableData)) (p : Parser) :
  extracted_ok k r -> In k allowed -> stored_tables_ok allowed p ->
  exists o, r = Ok o
            /\ parser_metadata (store_section k o p) = parser_metadata p
            /\ stored_tables_ok allowed (store_section k o p).
Proof.
  intros (o & -> & Ho) Hk Hp. exists o. split; [reflexivity|].
  unfold store_section. destruct o as [t|]; [|split; [reflexivity|exact Hp]].
  destruct (TableData_truthy t) eqn:E; [|split; [reflexivity|exact Hp]].
  split; [reflexivity|]. destruct (Ho t eq_refl) as [Hn Hkeys].
  apply set_table_ok; [exact Hp|exact Hk|exact Hn| |exact Hkeys].
  apply TableData_truthy_rows, E.
Qed.

Lemma stored_tables_ok_metadata (names : list string) (m : ReportMetadata) (p : Parser) :
  stored_tables_ok names p -> stored_tables_ok names (set_metadata m p).
Proof. intros Hp k t. apply Hp. Qed.

Lemma new_parser_ok (names : list string) : stored_tables_ok names new_parser.
Proof. intros k t H. unfold new_parser in H. cbn in H. rewrite lookup_empty in H. discriminate H. Qed.

End ParseFacts.

Section ParseSpec.
Import PyStr PyText BaseReportParser ReportParser.

Lemma awr_metadata_type `{Library} (soup : option Soup) (content : string) :
  report_type (AWRParser.extract_metadata soup content) = "oracle_awr"%string.
Proof.
  destruct soup as [tree|]; [|reflexivity].
  unfold AWRParser.extract_metadata, AWRParser._extract_metadata_html.
  destruct (foldl _ _ _) as [[[[db inst] ver] st] en]. reflexivity.
Qed.

Lemma pg_metadata_type `{Library} (soup : option Soup) (content : string) :
  report_type (PgProfileParser.extract_metadata soup content)
  = "postgresql_pg_profile"%string.
Proof.
  destruct soup as [tree|]; [|reflexivity].
  unfold PgProfileParser.extract_metadata, PgProfileParser._extract_metadata_html.
  destruct (foldl _ _ (find_all ["div"; "h1"; "h2"]%string tree)) as [[[db inst] ver] pv].
  destruct (foldl _ _ (find_all ["table"%string] tree)) as [st en]. reflexivity.
Qed.

Lemma awr_parse_ok `{Library} (content : string) :
  exists p, AWRParser.parse (Some content) new_parser = (true, p)
            /\ (exists m, parser_metadata p = Some m
                          /\ report_type m = "oracle_awr"%string)
            /\ stored_tables_ok AWRParser.table_names p.
Proof.
  unfold AWRParser.parse. destruct (_ || _).
  - unfold AWRParser._parse_html.
    destruct (store_tables_ok
                (AWRParser.extract_table (Some (BeautifulSoup content)) content)
                AWRParser.table_names AWRParser.table_names
                (set_metadata
                   (AWRParser.extract_metadata (Some (BeautifulSoup content)) content)
                   new_parser))
      as (p & Hp & Hm & Hok).
    + intros n. apply _extract_table_html_awr.
    + intros n Hn. exact Hn.
    + apply stored_tables_ok_metadata, new_parser_ok.
    + exists p. split; [exact Hp|]. split; [|exact Hok].
      rewrite Hm. eexists. split; [reflexivity|apply awr_metadata_type].
  - unfold AWRParser._parse_text. cbv zeta.
    set (p0 := set_metadata (AWRParser.extract_metadata None content) new_parser).
    assert (stored_tables_ok AWRParser.table_names p0) as H0
      by apply stored_tables_ok_metadata, new_parser_ok.
    destruct (store_section_ok AWRParser.table_names "load_profile"
                (AWRParser._extract_load_profile_text content) p0)
      as (o1 & -> & Hm1 & H1);
      [apply (_extract_table_text_awr content "load_profile")
      |cbn; tauto|exact H0|].
    destruct (store_section_ok AWRParser.table_names "top_sql_elapsed"
                (AWRParser._extract_top_sql_text content) _
                (_extract_table_text_awr content "top_sql_elapsed") ltac:(cbn; tauto) H1)
      as (o2 & -> & Hm2 & H2).
    destruct (store_section_ok AWRParser.table_names "wait_events"
                (AWRParser._extract_wait_events_text content) _
                (_extract_table_text_awr content "wait_events") ltac:(cbn; tauto) H2)
      as (o3 & -> & Hm3 & H3).
    eexists. split; [reflexivity|]. split; [|exact H3].
    rewrite Hm3, Hm2, Hm1. eexists. split; [reflexivity|apply awr_metadata_type].
Qed.

Lemma pg_parse_ok `{Library} (content : string) :
  exists p, PgProfileParser.parse (Some content) new_parser = (true, p)
            /\ (exists m, parser_metadata p = Some m
                          /\ report_type m = "postgresql_pg_profile"%string)
            /\ stored_tables_ok PgProfileParser.table_names p.
Proof.
  unfold PgProfileParser.parse. destruct (_ || _).
  - unfold PgProfileParser._parse_html.
    destruct (store_tables_ok
                (PgProfileParser.extract_table (Some (BeautifulSoup content)) content)
                PgProfileParser.table_names PgProfileParser.table_names
                (set_metadata
                   (PgProfileParser.extract_metadata (Some (BeautifulSoup content)) content)
                   new_parser))
      as (p & Hp & Hm & Hok).
    + intros n. apply _extract_table_html_pg.
    + intros n Hn. exact Hn.
    + apply stored_tables_ok_metadata, new_parser_ok.
    + exists p. split; [exact Hp|]. split; [|exact Hok].
      rewrite Hm. eexists. split; [reflexivity|apply pg_metadata_type].
  - unfold PgProfileParser._parse_text. cbv zeta.
    set (p0 := set_metadata (PgProfileParser.extract_metadata None content) new_parser).
    assert (stored_tables_ok PgProfileParser.table_names p0) as H0
      by apply stored_tables_ok_metadata, new_parser_ok.
    destruct (store_section_ok PgProfileParser.table_names "general_statistics"
                (PgProfileParser._extract_general_statistics_text content) p0)
      as (o1 & -> & Hm1 & H1);
      [apply (_extract_table_text_pg content "general_statistics")
      |cbn; tauto|exact H0|].
    destruct (store_section_ok PgProfileParser.table_names "wait_events"
                (PgProfileParser._extract_wait_events_text content) _
                (_extract_table_text_pg content "wait_events") ltac:(cbn; tauto) H1)
      as (o2 & -> & Hm2 & H2).
    destruct (store_section_ok PgProfileParser.table_names "queries_statistics"
                (PgProfileParser._extract_queries_text content) _
                (_extract_table_text_pg content "queries_statistics")
                ltac:(cbn; tauto) H2)
      as (o3 & -> & Hm3 & H3).
    eexists. split; [reflexivity|]. split; [|exact H3].
    rewrite Hm3, Hm2, Hm1. eexists. split; [reflexivity|apply pg_metadata_type].
Qed.

Lemma parse_as_ok `{Library} (c : ParserClass) (content : string) :
  exists p, parse_as c (Some content) new_parser = (true, p)
            /\ (exists m, parser_metadata p = Some m
                          /\ report_type m = class_report_type c)
            /\ stored_tables_ok (class_table_names c) p.
Proof. destruct c; [apply awr_parse_ok|apply pg_parse_ok]. Qed.

(** A parser of either class, run on a file it can read, returns [True]
    whatever the text and the libraries give: it raises nothing inside.
    It leaves metadata of its class's report type, and every table it has
    stored is stored under its own name, one of the class's table names,
    has at least one row, and has rows that map only columns of the table.
    On a file it cannot read it returns [False] and stores nothing. *)
Theorem parsed_reports_hold_their_tables `{Library} (c : ParserClass) (content : string) :
  (exists p, parse_as c (Some content) new_parser = (true, p)
             /\ (exists m, parser_metadata p = Some m
                           /\ report_type m = class_report_type c)
             /\ stored_tables_ok (class_table_names c) p)
  /\ parse_as c None new_parser = (false, new_parser).
Proof. split; [apply parse_as_ok|destruct c; reflexivity]. Qed.




End ParseSpec.

(** ** Values printed in a report *)

Section FormatFacts.
Import PyStr PyNum BaseReportParser ReportGenerator.




Lemma count_char_app (c : ascii) (a b : string) :
  count_char c (a +:+ b) = (count_char c a + count_char c b)%nat.
Proof.
  induction a as [|x a IH]; [reflexivity|].
  rewrite append_cons. cbn [count_char]. rewrite IH. lia.
Qed.

Lemma csv_fields_count (s : string) : csv_fields s = S (count_char "," s).
Proof.
  unfold csv_fields. induction s as [|c s IH]; [reflexivity|].
  cbn [PyText.split count_char]. destruct (Ascii.eqb c ","); cbn [length].
  - rewrite IH. reflexivity.
  - destruct (PyText.split "," s) as [|p ps]; [discriminate IH|]. exact IH.
Qed.

Lemma count_comma_digits (s : string) :
  all_digits s = true -> count_char "," s = 0%nat.
Proof.
  induction s as [|c s IH]; [reflexivity|].
  intros [Hc Hs]%andb_prop. cbn [count_char].
  rewrite (isdigit_not_comma c Hc), (IH Hs). reflexivity.
Qed.

Lemma count_comma_zeros (n : nat) : count_char "," (zeros n) = 0%nat.
Proof. induction n as [|n IH]; [reflexivity|exact IH]. Qed.

Lemma count_comma_fixed (digits : nat) (x : spec_float) :
  count_char "," (format_fixed digits x) = 0%nat.
Proof.
  assert (forall (s : bool) (q : Z),
            count_char ","
              ((if s then "-" else "") +:+ decimal (Z.to_N (q / 10 ^ Z.of_nat digits))
               +:+ "." +:+ zeros (digits - String.length
                                             (decimal (Z.to_N (q mod 10 ^ Z.of_nat digits))))
               +:+ decimal (Z.to_N (q mod 10 ^ Z.of_nat digits)))%string = 0%nat)
    as Hnum.
  { intros s q. rewrite !count_char_app, count_comma_zeros,
      !(count_comma_digits _ (all_digits_decimal _)).
    destruct s; reflexivity. }
  unfold format_fixed. destruct x as [s|s| |s m e].
  - rewrite !count_char_app, count_comma_zeros. destruct s; reflexivity.
  - destruct s; reflexivity.
  - reflexivity.
  - destruct (0 <=? e); [apply Hnum|]. cbv zeta. apply Hnum.
Qed.

(** The separators [with_commas] adds: none up to three digits, at least
    one from four digits on. *)
Lemma count_comma_grouped (s : string) :
  all_digits s = true ->
  (count_char "," (with_commas s) = 0%nat <-> (String.length s <= 3)%nat).
Proof.
  intros Hd. split.
  - induction s as [|c s IH]; [cbn; lia|].
    apply andb_prop in Hd as [Hc Hs]. cbn [with_commas String.length].
    destruct (negb (String.length s =? 0)%nat && (String.length s mod 3 =? 0)%nat) eqn:E.
    + cbn [count_char]. rewrite (isdigit_not_comma c Hc).
      change (Ascii.eqb "," ",") with true. cbn. intros H0. discriminate H0.
    + cbn [count_char]. rewrite (isdigit_not_comma c Hc). cbn [Nat.add].
      intros H0. specialize (IH Hs H0).
      destruct s as [|c1 [|c2 [|c3 [|c4 s]]]]; cbn in E, IH |- *;
        try discriminate E; lia.
  - intros Hlen.
    destruct s as [|c1 [|c2 [|c3 [|c4 s]]]]; cbn in Hlen; try lia; cbn in Hd;
      repeat match goal with
             | H : _ && _ = true |- _ => apply andb_prop in H as [? H]
             end;
      cbn [with_commas String.length Nat.eqb negb andb Nat.modulo count_char];
      cbn; repeat match goal with
                  | H : isdigit ?c = true |- _ =>
                      rewrite (isdigit_not_comma c H); clear H
                  end; reflexivity.
Qed.

End FormatFacts.

Section FormatSpec.
Import PyStr PyNum BaseReportParser ReportGenerator.




Lemma prints_no_comma_spec (v : PyVal) :
  count_char "," (_format_value v) = 0%nat <-> prints_no_comma v.
Proof.
  destruct v as [|n|f|s]; cbn [_format_value prints_no_comma].
  - split; [intros _; exact I|reflexivity].
  - unfold format_grouped. rewrite count_char_app.
    rewrite <- (count_comma_grouped _ (all_digits_decimal (Z.abs_N n))).
    destruct (n <? 0); cbn; reflexivity.
  - rewrite count_comma_fixed. split; [intros _; exact I|reflexivity].
  - reflexivity.
Qed.

Lemma csv_status_no_comma (o : ComparisonResult) :
  count_char "," (csv_status o) = 0%nat.
Proof. unfold csv_status. destruct (is_critical o), (is_warning o); vm_compute; reflexivity. Qed.

(** The CSV report quotes nothing: the line of an outcome has the six
    fields of the heading, and one more for every comma in the table
    description, the metric name and the two printed values.  A printed
    value holds a comma exactly when it is an integer of four digits or
    more, or a text with a comma among its first ten characters. *)
Theorem csv_line_fields (tc : TableComparison) (o : ComparisonResult) :
  csv_fields (csv_line tc o)
  = (6 + count_char "," (table_description tc) + count_char "," (metric_name o)
     + count_char "," (_format_value (base_value o))
     + count_char "," (_format_value (target_value o)))%nat
  /\ (forall v, count_char "," (_format_value v) = 0%nat <-> prints_no_comma v)
  /\ (four_digits (base_value o) \/ four_digits (target_value o) ->
      (6 < csv_fields (csv_line tc o))%nat)
  /\ csv_fields "Таблица,Метрика,Базовый,Целевой,Изменение (%),Статус" = 6%nat.
Proof.
  assert (csv_fields (csv_line tc o)
          = (6 + count_char "," (table_description tc) + count_char "," (metric_name o)
             + count_char "," (_format_value (base_value o))
             + count_char "," (_format_value (target_value o)))%nat) as Hcount.
  { rewrite csv_fields_count. unfold csv_line. cbv zeta.
    rewrite !count_char_app, csv_status_no_comma.
    assert (count_char ","
              match percent_change o with
              | Some p => format_fixed 2 p
              | None => "N/A"%string
              end = 0%nat) as ->.
    { destruct (percent_change o); [apply count_comma_fixed|reflexivity]. }
    change (count_char "," ",") with 1%nat. lia. }
  split; [exact Hcount|]. split; [apply prints_no_comma_spec|].
  split; [|vm_compute; reflexivity].
  assert (forall v, four_digits v ->
            (0 < count_char "," (_format_value v))%nat) as Hfour.
  { intros v Hv. destruct v as [|n|f|s]; cbn [four_digits] in Hv; try contradiction.
    pose proof (prints_no_comma_spec (VInt n)) as Hspec.
    cbn [prints_no_comma] in Hspec.
    destruct (count_char "," (_format_value (VInt n))); [|lia].
    pose proof (proj1 Hspec eq_refl). lia. }
  rewrite Hcount. intros [H|H]; apply Hfour in H; lia.
Qed.






(** The indicator of an outcome is one of three signs; it is the equals
    sign exactly when the outcome has no absolute change, or one that is
    zero or not a number; an outcome that compares a value with itself
    shows the equals sign. *)
Theorem indicator_cases (o : ComparisonResult) :
  (get_indicator o = "↑" \/ get_indicator o = "↓" \/ get_indicator o = "=")%string
  /\ (get_indicator o = "="%string
      <-> match absolute_change o with
          | None => True
          | Some change =>
              PyFloat.cmp_int change 0 = Some Eq \/ PyFloat.is_nan change = true
          end)
  /\ (forall h v thr o', _compare_values h v v thr = Ok o' ->
        get_indicator o' = "="%string).
Proof.
  split; [|split].
  - unfold get_indicator. destruct (absolute_change o) as [c|]; [|auto].
    destruct (PyFloat.cmp_int c 0) as [[]|]; auto.
  - unfold get_indicator. destruct (absolute_change o) as [c|]; [|tauto].
    destruct c as [s|s| |s m e]; cbn [PyFloat.cmp_int PyFloat.is_nan].
    + split; [intros _; left; reflexivity|reflexivity].
    + destruct s; split; try discriminate; intros [H|H]; discriminate H.
    + split; [intros _; right; reflexivity|reflexivity].
    + destruct (if 0 <=? e then _ else _);
        split; try discriminate; try (intros [H|H]; discriminate H);
        try reflexivity; intros _; left; reflexivity.
  - intros h v thr o' H. destruct (py_float v) as [b|e] eqn:E.
    + rewrite (_compare_values_numbers h v v thr b b E E) in H. injection H as <-.
      unfold get_indicator. cbn [absolute_change].
      destruct b as [s|s| |s m e]; [destruct s; reflexivity|destruct s; reflexivity
                                    |reflexivity|].
      rewrite sub_diag_finite. reflexivity.
    + destruct (py_float_raises v e E) as [->|[->| ->]].
      * rewrite _compare_values_not_number in H by (left; exact E).
        injection H as <-. reflexivity.
      * rewrite _compare_values_not_number in H by (right; left; exact E).
        injection H as <-. reflexivity.
      * rewrite _compare_values_overflow in H by (left; exact E). discriminate H.
Qed.

End FormatSpec.

(** ** Columns that are never compared *)

Section NumericColumns.
Variable float_repr : spec_float -> string.
Variable cfg : Config.

Lemma _compare_values_name (h : string) (bv tv : PyVal) (thr : Thresholds)
    (o : ComparisonResult) :
  _compare_values h bv tv thr = Ok o -> metric_name o = h.
Proof.
  intros H. destruct (py_float bv) as [b|eb] eqn:Eb.
  - destruct (py_float tv) as [t|et] eqn:Et.
    + rewrite (_compare_values_numbers h bv tv thr b t Eb Et) in H.
      injection H as <-. reflexivity.
    + unfold _compare_values in H. rewrite Eb, Et in H. simpl in H.
      destruct et; try discriminate H; injection H as <-; reflexivity.
  - unfold _compare_values in H. rewrite Eb in H. simpl in H.
    destruct eb; try discriminate H; injection H as <-; reflexivity.
Qed.

Lemma numeric_column_spec (h : string) :
  _is_numeric_column cfg h = true ->
  ~ In h text_columns
  /\ forall ignored, cfg_ignored_columns cfg = Some ignored -> ~ In h ignored.
Proof.
  unfold _is_numeric_column. destruct (bool_decide _) eqn:Ei; [discriminate|].
  apply bool_decide_eq_false in Ei. rewrite negb_true_iff, bool_decide_eq_false.
  intros Ht. split; [intros Hin; apply Ht, list_elem_of_In, Hin|].
  intros ignored Hcfg Hin. apply Ei. rewrite Hcfg. apply list_elem_of_In, Hin.
Qed.

Lemma same_platform_names (bt tt : TableData) (thr : Thresholds)
    (outs : list ComparisonResult) :
  _compare_same_platform float_repr cfg bt tt thr = Ok outs ->
  Forall (fun o => In (metric_name o) (headers bt)
                   /\ _is_numeric_column cfg (metric_name o) = true) outs.
Proof.
  rewrite _compare_same_platform_spec. intros H%mapM_ok_inv.
  apply Forall_forall. intros o Ho%list_elem_of_In.
  destruct (Forall2_In_r _ _ _ o H Ho) as ([[h b] t] & Hin & Hd).
  unfold diff_pair in Hd. rewrite (_compare_values_name h b t thr o Hd).
  unfold aligned_pairs in Hin. apply in_flat_map in Hin as (r & _ & Hin).
  unfold pairs_of_row in Hin.
  destruct (last_with_key float_repr _ (rows tt)) as [tr|]; [|destruct Hin].
  apply row_pairs_In in Hin as (Hh & Hc & _). split; [exact Hh|].
  unfold comparable in Hc. repeat (apply andb_prop in Hc as [Hc _]). exact Hc.
Qed.

Lemma cross_platform_names (bt tt : TableData) (thr : Thresholds)
    (outs : list ComparisonResult) :
  _compare_cross_platform cfg bt tt thr = Ok outs ->
  Forall (fun o => In (metric_name o) (headers bt)
                   /\ _is_numeric_column cfg (metric_name o) = true) outs.
Proof.
  rewrite _compare_cross_platform_spec. intros H%mapM_ok_inv.
  apply Forall_forall. intros o Ho%list_elem_of_In.
  destruct (Forall2_In_r _ _ _ o H Ho) as (h & Hin & Hd).
  unfold diff_means in Hd.
  destruct (average (column_values h (rows bt))) as [x|e1];
    cbn [mbind res_bind] in Hd; [|discriminate Hd].
  destruct (average (column_values h (rows tt))) as [y|e2];
    cbn [mbind res_bind] in Hd; [|discriminate Hd].
  rewrite (_compare_values_name h x y thr o Hd).
  apply cross_columns_In in Hin as (Hb & _ & Hn & _). split; assumption.
Qed.

End NumericColumns.

Section NumericColumnsSpec.

(** In either mode every outcome of a table comparison is named after a
    column of the baseline table, and none after one of the six text
    columns or after a column the configuration ignores: such a column is
    never compared, whatever its cells hold.  The names are matched as
    they are written: a column headed [metric], in small letters, is
    compared. *)
Theorem text_columns_give_no_outcome (float_repr : spec_float -> string) (cfg : Config)
    (bt tt : TableData) (thr : Thresholds) (outs : list ComparisonResult) :
  _compare_same_platform float_repr cfg bt tt thr = Ok outs
  \/ _compare_cross_platform cfg bt tt thr = Ok outs ->
  Forall (fun o =>
            In (metric_name o) (headers bt)
            /\ ~ In (metric_name o)
                    ["Metric"; "Event"; "SQL ID"; "Query ID"; "Name"; "Description"]%string
            /\ (forall ignored, cfg_ignored_columns cfg = Some ignored ->
                  ~ In (metric_name o) ignored)) outs
  /\ _is_numeric_column empty_config "metric" = true.
Proof.
  intros H. split; [|reflexivity].
  assert (Forall (fun o => In (metric_name o) (headers bt)
                           /\ _is_numeric_column cfg (metric_name o) = true) outs)
    as Hall.
  { destruct H as [H|H];
      [apply (same_platform_names float_repr cfg bt tt thr outs H)
      |apply (cross_platform_names cfg bt tt thr outs H)]. }
  apply (Forall_impl _ _ _ Hall). intros o [Hh Hn].
  split; [exact Hh|]. apply (numeric_column_spec cfg _ Hn).
Qed.

Lemma io_sample_outcomes :
  exists outs,
    _compare_same_platform sample_repr empty_config io_base io_target default_thresholds
    = Ok outs
    /\ length outs = 2%nat.
Proof. eexists. split; [vm_compute; reflexivity|reflexivity]. Defined.

Lemma text_columns_give_no_outcome_witness :
  exists outs,
    _compare_same_platform sample_repr empty_config io_base io_target default_thresholds
    = Ok outs
    /\ length outs = 2%nat
    /\ Forall (fun o => metric_name o <> "Name"%string) outs.
Proof.
  destruct (io_sample_outcomes) as (outs & Houts & Hlen).
  exists outs. split; [exact Houts|]. split; [exact Hlen|].
  destruct (text_columns_give_no_outcome sample_repr empty_config io_base io_target
              default_thresholds outs (or_introl Houts)) as [Hall _].
  apply (Forall_impl _ _ _ Hall). intros o (_ & Hn & _) Heq. apply Hn.
  rewrite Heq. cbn. tauto.
Defined.

End NumericColumnsSpec.

(** ** The upload filter *)

Section AllowedFile.
Import PyStr PyText.

Lemma rsplit_once_no_sep (sep : ascii) (s : string) :
  contains sep s = false -> rsplit_once sep s = [s].
Proof.
  induction s as [|c s IH]; [reflexivity|].
  cbn [contains rsplit_once]. intros [Hc Hs]%orb_false_iff.
  rewrite (IH Hs), Hc. reflexivity.
Qed.

Lemma rsplit_once_last (sep : ascii) (stem ext : string) :
  contains sep ext = false ->
  rsplit_once sep (stem +:+ String sep ext) = [stem; ext].
Proof.
  intros Hext. induction stem as [|c stem IH].
  - change ("" +:+ String sep ext)%string with (String sep ext).
    cbn [rsplit_once]. rewrite (rsplit_once_no_sep sep ext Hext), Ascii.eqb_refl.
    reflexivity.
  - rewrite append_cons. cbn [rsplit_once]. rewrite IH. reflexivity.
Qed.

Lemma rsplit_once_two (sep : ascii) (s : string) :
  contains sep s = true -> exists a b, rsplit_once sep s = [a; b].
Proof.
  induction s as [|c s IH]; [discriminate|].
  cbn [contains rsplit_once]. destruct (contains sep s) eqn:Hs.
  - intros _. destruct (IH eq_refl) as (a & b & ->). eexists. eexists. reflexivity.
  - rewrite orb_false_r. intros ->.
    rewrite (rsplit_once_no_sep sep s Hs). eexists. eexists. reflexivity.
Qed.

Lemma contains_app (sep : ascii) (a b : string) :
  contains sep (a +:+ b) = contains sep a || contains sep b.
Proof.
  induction a as [|c a IH]; [reflexivity|].
  rewrite append_cons. cbn [contains]. rewrite IH, orb_assoc. reflexivity.
Qed.

End AllowedFile.

Section AllowedFileSpec.
Import PyStr PyText.

(** The upload filter raises on no file name.  A name with no point is
    refused; otherwise what follows the last point decides, in whatever
    case it is written: the name is accepted exactly when that, in small
    letters, is [html] or [txt]. *)
Theorem allowed_file_by_last_extension :
  (forall filename, exists b, allowed_file filename = Ok b)
  /\ (forall filename, contains "." filename = false -> allowed_file filename = Ok false)
  /\ (forall stem extension,
        contains "." extension = false ->
        allowed_file (stem +:+ "." +:+ extension)
        = Ok (bool_decide (PyText.lower extension = "html"%string
                           \/ PyText.lower extension = "txt"%string)))
  /\ allowed_file "Report.HTML" = Ok true
  /\ allowed_file "report.html.exe" = Ok false
  /\ allowed_file ".txt" = Ok true.
Proof.
  split; [|split; [|split]].
  - intros filename. unfold allowed_file.
    destruct (contains "." filename) eqn:E; [|eexists; reflexivity].
    destruct (rsplit_once_two "." filename E) as (a & b & ->).
    eexists. reflexivity.
  - intros filename E. unfold allowed_file. rewrite E. reflexivity.
  - intros stem extension Hext. unfold allowed_file.
    change ("." +:+ extension)%string with (String "." extension).
    rewrite contains_app. cbn [contains]. rewrite Ascii.eqb_refl, orb_true_r.
    rewrite (rsplit_once_last "." stem extension Hext).
    change (index [stem; extension] 1) with (Ok extension).
    cbn [mbind res_bind mret res_ret]. f_equal.
    apply bool_decide_ext. unfold ALLOWED_EXTENSIONS.
    rewrite !elem_of_cons, elem_of_nil. tauto.
  - repeat split; vm_compute; reflexivity.
Qed.

End AllowedFileSpec.

(** ** The configuration loader *)

Section ConfigFacts.
Import ConfigFiles.

Lemma load_config_cached (files : string -> FileState) (n : string)
    (c : gmap string Yaml) (y : Yaml) :
  c !! n = Some y -> load_config files n c = (Returns y, c).
Proof. intros H. unfold load_config. rewrite H. reflexivity. Qed.

Lemma load_config_returns (files : string -> FileState) (n : string)
    (c c' : gmap string Yaml) (y : Yaml) :
  load_config files n c = (Returns y, c') ->
  c' !! n = Some y
  /\ (forall other, other <> n -> c' !! other = c !! other)
  /\ (forall other z, c !! other = Some z -> c' !! other = Some z).
Proof.
  unfold load_config. destruct (c !! n) as [z|] eqn:E.
  - intros H. injection H as <- <-. repeat split; [exact E|tauto].
  - destruct (files n) as [| |config]; try discriminate.
    intros H. injection H as <- <-. split; [apply lookup_insert_eq|].
    split.
    + intros other Hne. apply lookup_insert_ne. congruence.
    + intros other z Hz. destruct (decide (n = other)) as [<-|Hne]; [congruence|].
      rewrite lookup_insert_ne by exact Hne. exact Hz.
Qed.

Lemma load_config_raises (files : string -> FileState) (n : string)
    (c c' : gmap string Yaml) (e : error) :
  load_config files n c = (Raises e, c') ->
  c' = c /\ c !! n = None
  /\ ((e = FileNotFoundError /\ files n = Missing)
      \/ (e = YAMLError /\ files n = Malformed)).
Proof.
  unfold load_config. destruct (c !! n) as [z|]; [discriminate|].
  destruct (files n) as [| |config]; try discriminate;
    intros H; injection H as <- <-; repeat split; auto.
Qed.

Lemma stable_after_load (n : string) (k : Yaml -> outcome Yaml)
    (lookup : (string -> FileState) -> gmap string Yaml -> outcome Yaml * gmap string Yaml) :
  (forall files c,
     lookup files c = match load_config files n c with
                      | (Raises e, c') => (Raises e, c')
                      | (Returns config, c') => (k config, c')
                      end) ->
  stable lookup.
Proof.
  intros Hl files c y c' H files'. rewrite Hl in H |- *.
  destruct (load_config files n c) as [[config|e] c1] eqn:E; [|discriminate H].
  injection H as Hk <-.
  destruct (load_config_returns files n c c1 config E) as (Hc1 & _).
  rewrite (load_config_cached files' n c1 config Hc1), Hk. reflexivity.
Qed.

End ConfigFacts.

Section ConfigSpec.
Import ConfigFiles.

(** A configuration is read from its file once: a load that returns
    leaves the configuration in the cache and keeps what the cache held,
    and from then on every load of that name, and every lookup that has
    returned, returns the same whatever the files have become, removed or
    rewritten.  A load that raises leaves the cache as it was: the file is
    missing or does not parse, and nothing was cached under the name. *)
Theorem config_is_read_once :
  (forall files n c y c',
     load_config files n c = (Returns y, c') ->
     c' !! n = Some y
     /\ (forall files', load_config files' n c' = (Returns y, c'))
     /\ (forall other z, c !! other = Some z -> c' !! other = Some z))
  /\ (forall files n c e c',
        load_config files n c = (Raises e, c') ->
        c' = c /\ c !! n = None
        /\ ((e = FileNotFoundError /\ files n = Missing)
            \/ (e = YAMLError /\ files n = Malformed)))
  /\ (forall a b, stable (fun files => get_metric_mapping files a b))
  /\ (forall report_type, stable (fun files => get_available_tables files report_type))
  /\ (forall comparison_type,
        stable (fun files => get_thresholds files comparison_type))
  /\ (forall table_name,
        stable (fun files => get_table_description files table_name)).
Proof.
  split; [|split; [intros files n c e c'; apply load_config_raises|]].
  - intros files n c y c' H.
    destruct (load_config_returns files n c c' y H) as (Hn & _ & Hkeep).
    split; [exact Hn|]. split; [|exact Hkeep].
    intros files'. apply load_config_cached, Hn.
  - split; [|split; [|split]].
    + intros a b.
      apply (stable_after_load "cross_platform_mapping"
               (fun mapping_config =>
                  if String.eqb a b then Returns (YMap [])
                  else match subscript mapping_config "metric_mapping" with
                       | Raises e => Raises e
                       | Returns mappings =>
                           get mappings (a +:+ "_to_" +:+ b)%string (YMap [])
                       end)).
      intros files c. unfold get_metric_mapping, get_cross_platform_mapping.
      destruct (load_config _ _ _) as [[config|e] c1]; [|reflexivity].
      destruct (String.eqb a b); [reflexivity|].
      destruct (subscript _ _); reflexivity.
    + intros report_type.
      apply (stable_after_load "cross_platform_mapping"
               (fun mapping_config =>
                  match subscript mapping_config "available_tables_by_report_type" with
                  | Raises e => Raises e
                  | Returns by_type => get by_type report_type (YList [])
                  end)).
      intros files c. unfold get_available_tables, get_cross_platform_mapping.
      destruct (load_config _ _ _) as [[config|e] c1]; [|reflexivity].
      destruct (subscript _ _); reflexivity.
    + intros comparison_type.
      apply (stable_after_load "default_comparison"
               (fun settings =>
                  match subscript settings "thresholds" with
                  | Raises e => Raises e
                  | Returns thresholds => get thresholds comparison_type (YMap [])
                  end)).
      intros files c. unfold get_thresholds, get_default_comparison_settings.
      destruct (load_config _ _ _) as [[config|e] c1]; [|reflexivity].
      destruct (subscript _ _); reflexivity.
    + intros table_name.
      apply (stable_after_load "cross_platform_mapping"
               (fun mapping_config =>
                  match get mapping_config "table_descriptions" (YMap []) with
                  | Raises e => Raises e
                  | Returns descriptions =>
                      get descriptions table_name (YStr table_name)
                  end)).
      intros files c. unfold get_table_description, get_cross_platform_mapping.
      destruct (load_config _ _ _) as [[config|e] c1]; [|reflexivity].
      destruct (get _ _ _); reflexivity.
Qed.

(** What the lookups do at the edges.  The metric mapping of a platform
    onto itself is empty, but the mapping file is loaded first: with the
    file missing the call raises.  The description of a table is its own
    name when the configuration has no descriptions or none for the
    table, and the call raises [AttributeError] when the file holds no
    mapping, as an empty file does.  The thresholds of a comparison type
    the settings do not list are empty, so the engine's defaults apply,
    but settings with no thresholds at all raise [KeyError]. *)
Theorem config_defaults_and_errors (files : string -> FileState)
    (c : gmap string Yaml) (platform table_name comparison_type : string) :
  (c !! "cross_platform_mapping"%string = None ->
   files "cross_platform_mapping"%string = Missing ->
   get_metric_mapping files platform platform c = (Raises FileNotFoundError, c))
  /\ (forall config, c !! "cross_platform_mapping"%string = Some config ->
        get_metric_mapping files platform platform c = (Returns (YMap []), c))
  /\ (forall m, c !! "cross_platform_mapping"%string = Some (YMap m) ->
        PyText.lookup_literal "table_descriptions" m = None ->
        get_table_description files table_name c = (Returns (YStr table_name), c))
  /\ (forall m d, c !! "cross_platform_mapping"%string = Some (YMap m) ->
        PyText.lookup_literal "table_descriptions" m = Some (YMap d) ->
        PyText.lookup_literal table_name d = None ->
        get_table_description files table_name c = (Returns (YStr table_name), c))
  /\ (c !! "cross_platform_mapping"%string = Some YNull ->
      get_table_description files table_name c = (Raises AttributeError, c))
  /\ (forall m, c !! "default_comparison"%string = Some (YMap m) ->
        PyText.lookup_literal "thresholds" m = None ->
        get_thresholds files comparison_type c = (Raises KeyError, c))
  /\ (forall m t, c !! "default_comparison"%string = Some (YMap m) ->
        PyText.lookup_literal "thresholds" m = Some (YMap t) ->
        PyText.lookup_literal comparison_type t = None ->
        get_thresholds files comparison_type c = (Returns (YMap []), c)).
Proof.
  unfold get_metric_mapping, get_table_description, get_thresholds,
    get_cross_platform_mapping, get_default_comparison_settings.
  split; [|split; [|split; [|split; [|split; [|split]]]]].
  - intros Hc Hf. unfold load_config. rewrite Hc, Hf. reflexivity.
  - intros config Hc. rewrite (load_config_cached files _ c config Hc).
    rewrite String.eqb_refl. reflexivity.
  - intros m Hc Hm. rewrite (load_config_cached files _ c _ Hc).
    cbn [get]. rewrite Hm. reflexivity.
  - intros m d Hc Hm Hd. rewrite (load_config_cached files _ c _ Hc).
    cbn [get]. rewrite Hm. cbn [get]. rewrite Hd. reflexivity.
  - intros Hc. rewrite (load_config_cached files _ c _ Hc). reflexivity.
  - intros m Hc Hm. rewrite (load_config_cached files _ c _ Hc).
    cbn [subscript]. rewrite Hm. reflexivity.
  - intros m t Hc Hm Ht. rewrite (load_config_cached files _ c _ Hc).
    cbn [subscript]. rewrite Hm. cbn [get]. rewrite Ht. reflexivity.
Qed.

End ConfigSpec.

(** ** The choice of a parser *)

Section ParserChoice.
Import PyStr PyText.

Lemma take_app (n : nat) (head rest : string) :
  (n <= String.length head)%nat -> take n (head +:+ rest) = take n head.
Proof.
  revert head. induction n as [|n IH]; intros head Hlen.
  - destruct head; reflexivity.
  - destruct head as [|c head]; [cbn in Hlen; lia|].
    rewrite append_cons. cbn [take]. rewrite IH; [reflexivity|].
    cbn in Hlen. lia.
Qed.

(** The two front ends choose the parser of a file alike, from its first
    5000 characters only: what follows them changes nothing.  The
    pg_profile parser is chosen exactly when those characters hold neither
    AWR marker and hold one of the pg_profile markers; a report that holds
    both kinds is read as an AWR report, and so is one that holds none, the
    empty file too.  The parser chosen, run on the file, leaves metadata of
    its class's report type. *)
Theorem parser_choice `{Library} :
  (forall content, _create_parser content = get_parser_for_file content)
  /\ (forall head rest rest',
        (5000 <= String.length head)%nat ->
        get_parser_for_file (head +:+ rest) = get_parser_for_file (head +:+ rest'))
  /\ (forall content,
        get_parser_for_file content = PgProfileParserClass
        <-> is_substring "AWR" (take 5000 content) = false
            /\ is_substring "Automatic Workload Repository" (take 5000 content) = false
            /\ (is_substring "pg_profile" (take 5000 content) = true
                \/ is_substring "PostgreSQL" (take 5000 content) = true))
  /\ (forall content,
        exists p m,
          parse_as (get_parser_for_file content) (Some content) new_parser = (true, p)
          /\ parser_metadata p = Some m
          /\ report_type m = class_report_type (get_parser_for_file content))
  /\ get_parser_for_file "" = AWRParserClass
  /\ get_parser_for_file "pg_profile report, compared with AWR" = AWRParserClass.
Proof.
  split; [reflexivity|]. split.
  { intros head rest rest' Hlen. unfold get_parser_for_file.
    rewrite !(take_app 5000 head _ Hlen). reflexivity. }
  split.
  { intros content. unfold get_parser_for_file. cbv zeta.
    destruct (is_substring "AWR" _), (is_substring "Automatic Workload Repository" _),
      (is_substring "pg_profile" _), (is_substring "PostgreSQL" _); cbn;
      split; try discriminate; try tauto; intros (? & ? & [?|?]); discriminate. }
  split.
  { intros content.
    destruct (parse_as_ok (get_parser_for_file content) content)
      as (p & Hp & (m & Hm & Ht) & _).
    exists p, m. repeat split; assumption. }
  split; vm_compute; reflexivity.
Qed.

End ParserChoice.

(** ** Rows the target alone holds, and the order of the rows *)

Section RowsFacts.
Variable float_repr : spec_float -> string.
Variable cfg : Config.

Lemma last_with_key_other (k : string) (before after : list Dict.t) (r : Dict.t) :
  _get_row_key float_repr r <> k ->
  last_with_key float_repr k (before ++ r :: after)
  = last_with_key float_repr k (before ++ after).
Proof.
  intros Hne. unfold last_with_key. rewrite !List.filter_app. cbn [List.filter].
  rewrite (proj2 (String.eqb_neq _ _) Hne). reflexivity.
Qed.

Lemma column_values_Permutation (h : string) (rs rs' : list Dict.t) :
  Permutation rs rs' -> Permutation (column_values h rs) (column_values h rs').
Proof.
  unfold column_values. induction 1 as [|r l l' Hp IH|r1 r2 l|l1 l2 l3 H1 IH1 H2 IH2].
  - constructor.
  - cbn [map List.filter]. destruct (negb (is_none (Dict.get h r)));
      [constructor; exact IH|exact IH].
  - cbn [map List.filter].
    destruct (negb (is_none (Dict.get h r1))), (negb (is_none (Dict.get h r2)));
      try reflexivity. apply perm_swap.
  - etransitivity; eassumption.
Qed.

Lemma integer_column_values (h : string) (rs : list Dict.t) :
  integer_column h rs ->
  Forall (fun v => exists n, v = VInt n) (column_values h rs).
Proof.
  unfold integer_column, column_values. induction 1 as [|r l Hr Hl IH]; [constructor|].
  cbn [map List.filter]. destruct (Dict.get h r) as [|n|f|s]; try destruct Hr;
    cbn [is_none negb]; [exact IH|].
  constructor; [exists n; reflexivity|exact IH].
Qed.

Lemma sum_from_integers (vs : list PyVal) (acc : Z) :
  Forall (fun v => exists n, v = VInt n) vs ->
  sum_from (VInt acc) vs = Ok (VInt (int_total acc vs)).
Proof.
  intros H. revert acc. induction H as [|v l [n ->] Hl IH]; intros acc; [reflexivity|].
  cbn [sum_from py_add mbind res_bind int_total]. apply IH.
Qed.

Lemma int_total_Permutation (vs vs' : list PyVal) (acc : Z) :
  Permutation vs vs' -> int_total acc vs = int_total acc vs'.
Proof.
  intros H. revert acc.
  induction H as [|v l l' Hp IH|v1 v2 l|l1 l2 l3 H1 IH1 H2 IH2]; intros acc.
  - reflexivity.
  - destruct v; cbn [int_total]; apply IH.
  - destruct v1, v2; cbn [int_total]; try reflexivity. f_equal. lia.
  - rewrite IH1. apply IH2.
Qed.

(** The mean of integers does not depend on their order. *)
Lemma average_integers_Permutation (vs vs' : list PyVal) :
  Permutation vs vs' ->
  Forall (fun v => exists n, v = VInt n) vs ->
  average vs = average vs'.
Proof.
  intros Hp Hall.
  assert (Forall (fun v => exists n, v = VInt n) vs') as Hall'.
  { apply Forall_forall. intros v Hv. rewrite Forall_forall in Hall.
    apply Hall. rewrite Hp. exact Hv. }
  unfold average, py_sum.
  rewrite (sum_from_integers vs 0 Hall), (sum_from_integers vs' 0 Hall').
  rewrite (int_total_Permutation vs vs' 0 Hp), (Permutation_length Hp). reflexivity.
Qed.

End RowsFacts.

Section RowsSpec.

(** A row that the target table alone holds is never reported: a row of
    the target whose key no baseline row has can be taken out, wherever
    it stands, without changing anything of a same-engine comparison. *)
Theorem target_only_rows_are_ignored (float_repr : spec_float -> string) (cfg : Config)
    (base_table target_table : TableData) (before after : list Dict.t) (r : Dict.t)
    (thr : Thresholds) :
  (forall base_row, In base_row (rows base_table) ->
     _get_row_key float_repr base_row <> _get_row_key float_repr r) ->
  _compare_same_platform float_repr cfg base_table
    (with_rows target_table (before ++ r :: after)) thr
  = _compare_same_platform float_repr cfg base_table
      (with_rows target_table (before ++ after)) thr.
Proof.
  intros Hnew. rewrite !_compare_same_platform_spec. f_equal.
  unfold aligned_pairs.
  assert (forall brs, (forall br, In br brs -> In br (rows base_table)) ->
            flat_map (pairs_of_row float_repr cfg base_table
                        (with_rows target_table (before ++ r :: after))) brs
            = flat_map (pairs_of_row float_repr cfg base_table
                          (with_rows target_table (before ++ after))) brs) as H.
  { induction brs as [|br brs IH]; intros Hsub; [reflexivity|].
    cbn [flat_map]. rewrite IH by (intros x Hx; apply Hsub; right; exact Hx).
    f_equal. unfold pairs_of_row. cbn [with_rows rows headers].
    rewrite last_with_key_other; [reflexivity|].
    intros Heq. apply (Hnew br (Hsub br (or_introl eq_refl))). symmetry. exact Heq. }
  apply H. intros br Hbr. exact Hbr.
Qed.

Lemma target_only_rows_are_ignored_witness :
  _compare_same_platform sample_repr empty_config (load_profile 1000)
    (with_rows (load_profile 1300)
       ([("Metric"%string, VStr "Redo size"); ("Per Second"%string, VInt 7)]
        :: rows (load_profile 1300)))
    default_thresholds
  = _compare_same_platform sample_repr empty_config (load_profile 1000)
      (with_rows (load_profile 1300) (rows (load_profile 1300))) default_thresholds.
Proof.
  apply (target_only_rows_are_ignored sample_repr empty_config (load_profile 1000)
           (load_profile 1300) []).
  intros base_row [<-|[]]. vm_compute. discriminate.
Defined.

(** In cross-engine mode the order of the baseline rows does not matter
    for columns of integers: when every cell of every column the two
    tables share is null or an integer in the baseline, a baseline table
    with the same rows in another order gives the same result, outcomes
    and exceptions alike. *)
Theorem cross_platform_row_order (cfg : Config) (base_table target_table : TableData)
    (rows' : list Dict.t) (thr : Thresholds) :
  Permutation (rows base_table) rows' ->
  (forall h, In h (headers base_table) -> In h (headers target_table) ->
             integer_column h (rows base_table)) ->
  _compare_cross_platform cfg (with_rows base_table rows') target_table thr
  = _compare_cross_platform cfg base_table target_table thr.
Proof.
  intros Hp Hint. rewrite !_compare_cross_platform_spec.
  assert (cross_columns cfg (with_rows base_table rows') target_table
          = cross_columns cfg base_table target_table) as ->.
  { unfold cross_columns, common_headers. cbn [with_rows headers].
    apply List.filter_ext. intros h. unfold qualifying. cbn [with_rows rows].
    rewrite (Permutation_length (column_values_Permutation h _ _ Hp)). reflexivity. }
  assert (forall l, (forall h, In h l -> In h (cross_columns cfg base_table target_table)) ->
            mapM (diff_means thr (with_rows base_table rows') target_table) l
            = mapM (diff_means thr base_table target_table) l) as H.
  { induction l as [|h l IH]; intros Hsub; [reflexivity|].
    cbn [mapM]. rewrite IH by (intros x Hx; apply Hsub; right; exact Hx).
    f_equal. unfold diff_means. cbn [with_rows rows].
    destruct (proj1 (cross_columns_In cfg base_table target_table h)
                (Hsub h (or_introl eq_refl))) as (Hb & Ht & _).
    rewrite (average_integers_Permutation _ _
               (column_values_Permutation h _ _ Hp)
               (integer_column_values h _ (Hint h Hb Ht))).
    reflexivity. }
  apply H. intros h Hh. exact Hh.
Qed.

Lemma cross_platform_row_order_witness :
  _compare_cross_platform empty_config
    (with_rows (one_column "wait_events" "Time" [VInt 100; VInt 200; VInt 300])
       (rows (one_column "wait_events" "Time" [VInt 300; VInt 100; VInt 200])))
    (one_column "wait_events" "Time" [VInt 180; VInt 220]) default_thresholds
  = _compare_cross_platform empty_config
      (one_column "wait_events" "Time" [VInt 100; VInt 200; VInt 300])
      (one_column "wait_events" "Time" [VInt 180; VInt 220]) default_thresholds.
Proof.
  apply (cross_platform_row_order empty_config
           (one_column "wait_events" "Time" [VInt 100; VInt 200; VInt 300])).
  - cbn [one_column rows map].
    eapply perm_trans; [apply perm_skip, perm_swap|apply perm_swap].
  - intros h [<-|[]] _. repeat constructor.
Defined.

End RowsSpec.
